(** * Radar-Cuaca-Termux: the hourly risk classifier and its aggregates

    A shallow embedding of the decision logic of [radar_cuaca_termux.py]:
    the rain and sky classifiers, the 3-hour deviation analysis, the hourly
    risk score with its override chain, the per-location and cross-location
    accumulators, and the previous-temperature store; then the columns of
    the printed row, the hour ranges and the chunks of the message.

    Conventions of the embedding.
    - Numbers.  Every number the script reads (JSON numbers, thresholds) is
      a finite decimal, kept as an exact rational [Q]; comparisons with the
      thresholds and the rain accumulations are exact.  Where the script
      subtracts two temperatures and where it takes a standard deviation,
      the operands are the binary64 values of the decimals and the result
      is rounded to binary64 as IEEE 754 prescribes ([F64]: to nearest,
      ties to even, subnormal numbers included).  Infinities, NaN and the
      sign of zero are outside the model.
    - [statistics.pstdev] is modelled as CPython 3.11 and later compute
      it: the exact variance of the binary64 data, then the square root
      in binary64 by [statistics._float_sqrt_of_frac]; a deviation
      ([Stdev]) is kept with its exact variance, and [Stdev_float] is the
      number returned.
    - Strings are [string]s of code points below 256.
    - [AGG_*] and [PERKOTA_*] dictionaries are [gmap]s; [PREV_TEMP], whose
      iteration order is observable, is an insertion-ordered association
      list.
    - An uncaught Python exception is [None] in an [option] result. *)

From Stdlib Require Import QArith Qround Qabs Qpower ZArith Lia Psatz.
From Stdlib Require Import String Ascii List Bool.
From Stdlib Require Import Reals Qreals R_sqrt.
From stdpp Require Import gmap strings list fin_maps sorting.
Import ListNotations.

(* ================================================================== *)
(** * Part I: the model                                                *)
(* ================================================================== *)

(** ** Numbers *)

Module Num.

Definition leb (a b : Q) : bool := Qle_bool a b.

Definition ltb (a b : Q) : bool :=
  match (a ?= b)%Q with Lt => true | _ => false end.

(** Python's [int(x)] on a float: truncation towards zero. *)
Definition py_int (x : Q) : Z := Z.quot (Qnum x) (Zpos (Qden x)).

End Num.

Declare Scope py_scope.
Delimit Scope py_scope with py.
Notation "a <= b" := (Num.leb a b) : py_scope.
Notation "a < b" := (Num.ltb a b) : py_scope.
Notation "a >= b" := (Num.leb b a) (only parsing) : py_scope.
Notation "a > b" := (Num.ltb b a) (only parsing) : py_scope.
Notation "a <= b <= c" := (Num.leb a b && Num.leb b c) : py_scope.
Notation "a <= b < c" := (Num.leb a b && Num.ltb b c) : py_scope.

(** ** Binary64 arithmetic *)

(** The finite values of a Python [float] are the rationals [m * 2^e]
    with [|m| < 2^53] and [-1074 <= e]. *)
Module F64.

Definition pow2 (e : Z) : Q := (2 ^ e)%Q.

(** The integer nearest to [x], the even one of the two at a tie. *)
Definition nearest_even (x : Q) : Z :=
  let f := Qfloor x in
  match (x - inject_Z f ?= 1 # 2)%Q with
  | Lt => f
  | Gt => (f + 1)%Z
  | Eq => if Z.even f then f else (f + 1)%Z
  end.

(** For [0 < a], the exponent of the last place of the binary64 numbers
    around [a]: the [e] with [2^52 <= a / 2^e < 2^53], and [-1074] where
    that is lower (the subnormal range). *)
Definition exponent (a : Q) : Z :=
  let e0 := (Z.log2 (Qnum a) - Z.log2 (Zpos (Qden a)) - 52)%Z in
  let e := if Qle_bool (pow2 52) (a / pow2 e0) then e0 else (e0 - 1)%Z in
  Z.max e (-1074).

Definition round_pos (a : Q) : Q :=
  let e := exponent a in
  Qred (inject_Z (nearest_even (a / pow2 e)) * pow2 e).

(** [float(x)] for a decimal or an integer [x], and the rounding of every
    binary64 operation: the binary64 number nearest to [x], ties to the
    even significand. *)
Definition round (x : Q) : Q :=
  match (x ?= 0)%Q with
  | Eq => 0%Q
  | Gt => round_pos x
  | Lt => Qopp (round_pos (Qopp x))
  end.

(** [x - y] and [x + y] on floats *)
Definition sub (x y : Q) : Q := round (x - y).
Definition add (x y : Q) : Q := round (x + y).

(** [n.bit_length()] for [0 <= n] *)
Definition bit_length (n : Z) : Z :=
  if (n =? 0)%Z then 0%Z else (Z.log2 n + 1)%Z.

(** [statistics._integer_sqrt_of_frac_rto]: the square root of [n / m]
    rounded to an integer, to an odd one when it is not exact.
    [[
    a = math.isqrt(n // m)
    return a | (a*a*m != n)
    ]] *)
Definition integer_sqrt_of_frac_rto (n m : Z) : Z :=
  let a := Z.sqrt (n / m) in
  Z.lor a (if (a * a * m =? n)%Z then 0 else 1).

(** [statistics._float_sqrt_of_frac]: the square root of [n / m] as a
    float.
    [[
    q = (n.bit_length() - m.bit_length() - 109) // 2
    if q >= 0:
        numerator = _integer_sqrt_of_frac_rto(n, m << 2 * q) << q
        denominator = 1
    else:
        numerator = _integer_sqrt_of_frac_rto(n << -2 * q, m)
        denominator = 1 << -q
    return numerator / denominator
    ]]
    The division of two integers gives the float nearest to the
    quotient. *)
Definition float_sqrt_of_frac (n m : Z) : Q :=
  let q := ((bit_length n - bit_length m - 109) / 2)%Z in
  if (0 <=? q)%Z then
    round (inject_Z
             (Z.shiftl (integer_sqrt_of_frac_rto n (Z.shiftl m (2 * q))) q))
  else
    round (inject_Z (integer_sqrt_of_frac_rto (Z.shiftl n (- 2 * q)) m)
           / inject_Z (Z.shiftl 1 (- q))).

(** The square root of a fraction, taken in lowest terms as [Fraction]
    keeps it. *)
Definition sqrt (v : Q) : Q :=
  let r := Qred v in float_sqrt_of_frac (Qnum r) (Zpos (Qden r)).

End F64.

(** A value handed to [float(...)]: [None], a number, or any other object
    on which [float] raises (an unparsable string, a list, ...), of which
    only the truth value matters. *)
Inductive PyArg : Type :=
| ANone
| ANum (q : Q)
| AOther (truthy : bool).

(** [float(a)]; [None] stands for the exception. *)
Definition py_float (a : PyArg) : option Q :=
  match a with
  | ANum q => Some q
  | ANone | AOther _ => None
  end.

Definition py_truthy (a : PyArg) : bool :=
  match a with
  | ANone => false
  | ANum q => negb (Qeq_bool q 0)
  | AOther b => b
  end.

(** [a or 0.0] *)
Definition or_zero (a : PyArg) : PyArg :=
  if py_truthy a then a else ANum 0.

(** [try: x = float(a) / except: x = 0.0] *)
Definition float_or_0 (a : PyArg) : Q :=
  match py_float a with Some q => q | None => 0%Q end.

(** ** Thresholds (module-level constants of the script) *)

Definition RAWAN_RAIN_MM : Q := 6.0.
Definition WASP_RAIN_MM : Q := 2.0.
Definition RAWAN_HUM : Q := 75.
Definition ACC3_RAWAN_MM : Q := 15.0.
Definition ACC6_RAWAN_MM : Q := 30.0.
Definition WIND_WARN : Q := 15.
Definition WIND_DANGER : Q := 25.
Definition GUST_WARN : Q := 30.
Definition GUST_DANGER : Q := 45.
Definition SCORE_HUMID_TH : Q := 80.
Definition SCORE_TEMP_LOW : Q := 27.
Definition SCORE_TEMP_HIGH : Q := 34.
Definition SCORE_TEMP_DROP : Q := 2.0.
Definition SCORE_WIND_MIN : Q := 10.
Definition SCORE_WIND_MAX : Q := 25.
Definition SCORE_GUST_TH : Q := 25.
Definition SCORE_UV_TH : Q := 7.
Definition THRESH_PCT : Q := 0.8.
Definition DEV_WARN_TH : Q := 0.7.
Definition DEV_DANGER_TH : Q := 1.0.

(** ** Classifiers *)

Inductive RainCat : Type := NONE | GERIMIS | RINGAN | SEDANG | DERAS.

Inductive Sky : Type :=
| CERAH | BERAWAN | MENDUNG
| HUJAN_GERIMIS | HUJAN_RINGAN | HUJAN_SEDANG | HUJAN_DERAS
| HUJAN_POTENSIAL.

Definition classify_rain_mm (mm : PyArg) : RainCat :=
  let m := float_or_0 mm in
  if (m <= 0.0001)%py then NONE
  else if (m < 1.0)%py then GERIMIS
  else if (m < 2.5)%py then RINGAN
  else if (m < 7.6)%py then SEDANG
  else DERAS.

(** The reference rain value picked at the head of [classify_sky]. *)
Definition sky_ref (rainmm acc3 acc6 : Q) : Q :=
  let MIN_REALRAIN := 0.3%Q in
  let MIN_ACC3_FOR_HUJAN := 0.3%Q in
  let MIN_ACC6_FOR_HUJAN := 0.6%Q in
  if (rainmm >= MIN_REALRAIN)%py then rainmm
  else if (acc3 >= MIN_ACC3_FOR_HUJAN)%py then acc3
  else if (acc6 >= MIN_ACC6_FOR_HUJAN)%py then acc6
  else 0.0%Q.

Definition classify_sky (prob rainmm acc3 acc6 hum uv : PyArg)
           (hour : option Z) : Sky :=
  let rainmm := float_or_0 (or_zero rainmm) in
  let acc3 := float_or_0 (or_zero acc3) in
  let acc6 := float_or_0 (or_zero acc6) in
  let prob := float_or_0 (or_zero prob) in
  let hum := float_or_0 (or_zero hum) in
  let uv := float_or_0 (or_zero uv) in
  let ref := sky_ref rainmm acc3 acc6 in
  if (ref > 0.0001)%py then
    if (ref >= 7.6)%py then HUJAN_DERAS
    else if (ref >= 2.5)%py then HUJAN_SEDANG
    else if (ref >= 1.0)%py then HUJAN_RINGAN
    else HUJAN_GERIMIS
  else if (prob >= 60)%py then HUJAN_POTENSIAL
  else
    let is_day :=
      match hour with
      | Some h => (6 <=? h)%Z && (h <=? 16)%Z
      | None => false
      end in
    if is_day && ((uv >= SCORE_UV_TH)%py && (hum < RAWAN_HUM)%py) then CERAH
    else if (60 <= hum <= 85)%py && (prob < 30)%py then BERAWAN
    else if (hum > RAWAN_HUM)%py || (30 <= prob < 60)%py then MENDUNG
    else BERAWAN.

(** The sky label that names a rain category (the table the rainy
    branch of [classify_sky] is compared with); a dry category names
    none. *)
Definition hujan_of_cat (c : RainCat) : option Sky :=
  match c with
  | NONE => None
  | GERIMIS => Some HUJAN_GERIMIS
  | RINGAN => Some HUJAN_RINGAN
  | SEDANG => Some HUJAN_SEDANG
  | DERAS => Some HUJAN_DERAS
  end.

(** ** Strings *)

Module PyStr.

Definition code (c : ascii) : nat := nat_of_ascii c.

(** [str.isspace] on code points below 256, the set [str.strip] removes. *)
Definition is_space (c : ascii) : bool :=
  let n := code c in
  ((9 <=? n) && (n <=? 13)) || ((28 <=? n) && (n <=? 32))
  || (n =? 133) || (n =? 160).

Fixpoint lstrip (s : string) : string :=
  match s with
  | EmptyString => EmptyString
  | String c s' => if is_space c then lstrip s' else s
  end.

Fixpoint rstrip (s : string) : string :=
  match s with
  | EmptyString => EmptyString
  | String c s' =>
      match rstrip s' with
      | EmptyString => if is_space c then EmptyString else String c EmptyString
      | r => String c r
      end
  end.

(** [s.strip()] *)
Definition strip (s : string) : string := rstrip (lstrip s).

(** [not s] *)
Definition is_empty (s : string) : bool :=
  match s with EmptyString => true | _ => false end.

Definition lower_char (c : ascii) : ascii :=
  let n := code c in
  if ((65 <=? n) && (n <=? 90))
     || ((192 <=? n) && (n <=? 222) && negb (n =? 215))
  then ascii_of_nat (n + 32) else c.

(** [s.lower()] on code points below 256 *)
Fixpoint lower (s : string) : string :=
  match s with
  | EmptyString => EmptyString
  | String c s' => String (lower_char c) (lower s')
  end.

(** [s.replace(a, b)] for one-character [a] and [b] *)
Fixpoint replace_char (a b : ascii) (s : string) : string :=
  match s with
  | EmptyString => EmptyString
  | String c s' =>
      String (if Ascii.eqb c a then b else c) (replace_char a b s')
  end.

(** [sub in s] *)
Fixpoint contains (sub s : string) : bool :=
  String.prefix sub s ||
  match s with
  | EmptyString => false
  | String _ s' => contains sub s'
  end.

(** [s.split(sep, 1)]: [None] when [sep] does not occur (one part),
    otherwise the text before and after its first occurrence. *)
Fixpoint split_once (sep : ascii) (s : string) : option (string * string) :=
  match s with
  | EmptyString => None
  | String c s' =>
      if Ascii.eqb c sep then Some (EmptyString, s')
      else match split_once sep s' with
           | Some (a, b) => Some (String c a, b)
           | None => None
           end
  end.

Definition LF : ascii := ascii_of_nat 10.
Definition CR : ascii := ascii_of_nat 13.

(** The lines a text-mode file yields under universal newlines
    ([open(..., "r")]): a line ends at LF, CR or CR LF, each handed over as
    LF, and keeps its terminator. *)
Fixpoint file_lines (s : string) : list string :=
  match s with
  | EmptyString => []
  | String c s' =>
      if Ascii.eqb c LF then String LF EmptyString :: file_lines s'
      else if Ascii.eqb c CR then
        match s' with
        | String c' s'' =>
            if Ascii.eqb c' LF then String LF EmptyString :: file_lines s''
            else String LF EmptyString :: file_lines s'
        | EmptyString => [String LF EmptyString]
        end
      else
        match file_lines s' with
        | [] => [String c EmptyString]
        | l :: ls => String c l :: ls
        end
  end.

(** Decimal digits of a two-character field, as [int] reads them. *)
Definition digit (c : ascii) : option Z :=
  let n := code c in
  if (48 <=? n) && (n <=? 57) then Some (Z.of_nat (n - 48)) else None.

End PyStr.

(** ** Insertion-ordered dictionaries ([PREV_TEMP]) *)

Module Dict.

Definition t : Type := list (string * string).

Fixpoint get (k : string) (d : t) : option string :=
  match d with
  | [] => None
  | (k', v) :: d' => if String.eqb k k' then Some v else get k d'
  end.

(** [d[k] = v]: an existing key keeps its place. *)
Fixpoint set (k v : string) (d : t) : t :=
  match d with
  | [] => [(k, v)]
  | (k', v') :: d' =>
      if String.eqb k k' then (k', v) :: d' else (k', v') :: set k v d'
  end.

Definition keys (d : t) : list string := map fst d.

End Dict.

(** ** The previous-temperature store *)

(** The file system as far as the store sees it: the text of
    [PREV_TEMP_FILE], or [None] when the file does not exist. *)
Definition FileState : Type := option string.

(** One pass of the loop body of [load_prev_temp_file]. *)
Definition load_line (data : Dict.t) (line : string) : Dict.t :=
  let s := PyStr.strip line in
  if PyStr.is_empty s then data
  else match PyStr.split_once "|"%char s with
       | Some (p0, p1) =>
           let key := PyStr.strip p0 in
           let val := PyStr.strip p1 in
           if negb (PyStr.is_empty key) && negb (PyStr.is_empty val)
           then Dict.set key val data
           else data
       | None => data
       end.

Definition load_prev_temp_file (fs : FileState) : Dict.t :=
  match fs with
  | None => []
  | Some text => fold_left load_line (PyStr.file_lines text) []
  end.

(** The text [save_prev_temp_file] writes: one [k|v] line per item, in
    the order of the dictionary. *)
Fixpoint store_text (store : Dict.t) : string :=
  match store with
  | [] => EmptyString
  | (k, v) :: rest =>
      (k +:+ "|" +:+ v +:+ String PyStr.LF EmptyString) +:+ store_text rest
  end.

(** [open(..., "w")] truncates, so the old contents do not matter. *)
Definition save_prev_temp_file (store : Dict.t) (fs : FileState) : FileState :=
  Some (store_text store).

(** What the round trip of the store asks of a dictionary. *)

Fixpoint has_char (c : ascii) (s : string) : bool :=
  match s with
  | EmptyString => false
  | String c' s' => Ascii.eqb c' c || has_char c s'
  end.

(** Non-empty, without leading or trailing whitespace. *)
Definition clean (s : string) : Prop :=
  s <> EmptyString /\ PyStr.strip s = s.

(** Free of line breaks. *)
Definition one_line (s : string) : Prop :=
  has_char PyStr.LF s = false /\ has_char PyStr.CR s = false.

Definition storable (kv : string * string) : Prop :=
  clean (fst kv) /\ clean (snd kv) /\
  one_line (fst kv) /\ one_line (snd kv) /\
  has_char "|"%char (fst kv) = false.

(** ** [statistics.pstdev] *)

(** [Sqrt v] is the float that the square root of the variance [v]
    gives. *)
Record Stdev : Type := Sqrt { radicand : Q }.

(** The float itself. *)
Definition Stdev_float (d : Stdev) : Q := F64.sqrt (radicand d).

(** [d >= th] for a deviation [d] and a threshold [th] written as a
    decimal literal: of two numbers, the first is not below the second. *)
Definition Stdev_geb (d : Stdev) (th : Q) : bool :=
  negb (Stdev_float d < F64.round th)%py.

(** [s = 0.0; for x in xs: s += x] *)
Definition Qsum (xs : list Q) : Q := fold_left Qplus xs 0.0%Q.

(** [s = 0.0; for x in xs: s += float(x)], every addition rounded. *)
Definition Fsum (xs : list Q) : Q :=
  fold_left (fun s x => F64.add s (F64.round x)) xs 0.0%Q.

(** The population variance as [statistics] defines it: the mean of the
    squared distances to the mean, over the number of data points. *)
Definition pvariance (data : list Q) : Q :=
  let n := inject_Z (Z.of_nat (length data)) in
  let mean := (Qsum data / n)%Q in
  (Qsum (map (fun x => (x - mean) * (x - mean))%Q data) / n)%Q.

(** [statistics.pstdev(data)] on floats: the variance is computed
    exactly, with fractions, and its square root is returned as a float.
    The source calls it on two values or more, where it does not raise. *)
Definition pstdev (data : list Q) : Stdev := Sqrt (pvariance data).

(** The values [arr[idx+j]] for [j < width] that the window loops keep:
    those with [idx + j < LEN] for which the subscript does not raise. *)
Definition window_vals (arr : list Q) (LEN idx width : nat) : list Q :=
  flat_map
    (fun j =>
       if (idx + j <? LEN)%nat
       then match arr !! (idx + j)%nat with Some v => [v] | None => [] end
       else [])
    (seq 0 width).

(** The deterministic deviation of the hour at [idx]; the window holds
    [float(prec_arr[idx+j])]. *)
Definition dev_mm_of (prec_arr : list Q) (LEN idx : nat) : Stdev :=
  let window_vals := map F64.round (window_vals prec_arr LEN idx 3) in
  if (2 <=? length window_vals)%nat then pstdev window_vals else Sqrt 0.0.

(** The ensemble deviation of the hour at [idx]: the deviation across the
    members of their 3-hour sums. *)
Definition dev_ens_3hr_of (ensemble_available : bool)
           (ensemble_members : list (list Q)) (idx : nat) : Stdev :=
  if ensemble_available
     && match ensemble_members with [] => false | _ => true end then
    let member_sums :=
      map (fun mem => Fsum (window_vals mem (length mem) idx 3))
          ensemble_members in
    if (2 <=? length member_sums)%nat then pstdev member_sums else Sqrt 0.0
  else Sqrt 0.0.

Inductive DevLevel : Type := DEV_NONE | DEV_WARN | DEV_DANGER.

(** The branch the deviation flags take for one deviation value. *)
Definition dev_level (d : Stdev) : DevLevel :=
  if Stdev_geb d DEV_DANGER_TH then DEV_DANGER
  else if Stdev_geb d DEV_WARN_TH then DEV_WARN
  else DEV_NONE.

(** ** The accumulators of [run_once] *)

Inductive Status : Type := Aman | Waspada | Rawan.

Inductive AggKey : Type :=
| AGG_AMAN | AGG_WASP | AGG_RAWAN | AGG_THUNDER
| AGG_WIND_WARN | AGG_WIND_DANGER | AGG_GUST_WARN | AGG_GUST_DANGER
| AGG_RAIN_GERIMIS | AGG_RAIN_RINGAN | AGG_RAIN_SEDANG | AGG_RAIN_DERAS
| AGG_DEV_WARN | AGG_DEV_DANGER.

Inductive PerkotaKey : Type :=
| PERKOTA_THUNDER | PERKOTA_RAWAN
| PERKOTA_WASP_RAIN | PERKOTA_WASP_HEAT | PERKOTA_WASP_GUST
| PERKOTA_RAIN_GERIMIS | PERKOTA_RAIN_RINGAN | PERKOTA_RAIN_SEDANG
| PERKOTA_RAIN_DERAS
| PERKOTA_DEV_WARN | PERKOTA_DEV_DANGER.

#[global] Instance Status_eq_dec : EqDecision Status.
Proof. solve_decision. Defined.
#[global] Instance AggKey_eq_dec : EqDecision AggKey.
Proof. solve_decision. Defined.
#[global] Instance PerkotaKey_eq_dec : EqDecision PerkotaKey.
Proof. solve_decision. Defined.

(** The variables of [run_once] that the loops mutate.  [AGG k] is the
    dictionary [k] (keyed by time slot), [PERKOTA k] the dictionary [k]
    (keyed by location); [aman], [wasp] and [rawan] are the hour counts of
    the location in progress.  [PERKOTA_REALRAIN], [PER_LOC_SAMPLE] and the
    printed table are not modelled. *)
Record State : Type := mkState {
  AGG : AggKey -> gmap string nat;
  PERKOTA : PerkotaKey -> gmap string string;
  SKY_COUNT : gmap string (gmap string nat);
  PREV_TEMP : Dict.t;
  processed_count : nat;
  processed_locations_list : list string;
  aman : nat;
  wasp : nat;
  rawan : nat
}.

Definition with_AGG (f : (AggKey -> gmap string nat) ->
                         (AggKey -> gmap string nat)) (st : State) : State :=
  mkState (f (AGG st)) (PERKOTA st) (SKY_COUNT st) (PREV_TEMP st)
          (processed_count st) (processed_locations_list st)
          (aman st) (wasp st) (rawan st).

Definition with_PERKOTA (f : (PerkotaKey -> gmap string string) ->
                             (PerkotaKey -> gmap string string))
           (st : State) : State :=
  mkState (AGG st) (f (PERKOTA st)) (SKY_COUNT st) (PREV_TEMP st)
          (processed_count st) (processed_locations_list st)
          (aman st) (wasp st) (rawan st).

Definition with_SKY_COUNT (f : gmap string (gmap string nat) ->
                               gmap string (gmap string nat))
           (st : State) : State :=
  mkState (AGG st) (PERKOTA st) (f (SKY_COUNT st)) (PREV_TEMP st)
          (processed_count st) (processed_locations_list st)
          (aman st) (wasp st) (rawan st).

Definition with_PREV_TEMP (f : Dict.t -> Dict.t) (st : State) : State :=
  mkState (AGG st) (PERKOTA st) (SKY_COUNT st) (f (PREV_TEMP st))
          (processed_count st) (processed_locations_list st)
          (aman st) (wasp st) (rawan st).

Definition with_tally (a w r : nat) (st : State) : State :=
  mkState (AGG st) (PERKOTA st) (SKY_COUNT st) (PREV_TEMP st)
          (processed_count st) (processed_locations_list st) a w r.

(** [f[k] = v] for a family of dictionaries indexed by their names. *)
Definition upd {A B : Type} `{EqDecision A} (k : A) (v : B) (f : A -> B)
  : A -> B :=
  fun k' => if decide (k = k') then v else f k'.

(** [AGG_k.get(TIME, 0)] *)
Definition agg_get (k : AggKey) (TIME : string) (st : State) : nat :=
  default 0%nat (AGG st k !! TIME).

(** [AGG_k[TIME] = AGG_k.get(TIME, 0) + 1]; also [AGG_k[TIME] += 1], whose
    key is always present: every dictionary starts as [{t: 0 for t in
    TIMES}] and [TIME] ranges over [TIMES]. *)
Definition agg_incr (k : AggKey) (TIME : string) (st : State) : State :=
  with_AGG (fun A => upd k (<[TIME := (agg_get k TIME st + 1)%nat]> (A k)) A)
           st.

(** [PERKOTA_k[K]]; the entry is set to the empty string before the
    hours of [K] are processed. *)
Definition perkota_get (k : PerkotaKey) (K : string) (st : State) : string :=
  default EmptyString (PERKOTA st k !! K).

(** [(cur + " " + t).strip() if cur else t] *)
Definition time_join (cur t : string) : string :=
  if PyStr.is_empty cur then t else PyStr.strip (cur +:+ " " +:+ t).

(** [PERKOTA_k[K] = (PERKOTA_k[K] + " " + TIME.replace("T"," ")).strip()
    if PERKOTA_k[K] else TIME.replace("T"," ")] *)
Definition perkota_add (k : PerkotaKey) (K TIME : string) (st : State)
  : State :=
  with_PERKOTA
    (fun P => upd k (<[K := time_join (perkota_get k K st)
                                      (PyStr.replace_char "T" " " TIME)]>
                       (P k)) P)
    st.

(** ** One hour of one location *)

(** [SKY_LABEL.lower().replace("_"," ")] *)
Definition sky_display (l : Sky) : string :=
  match l with
  | CERAH => "cerah" | BERAWAN => "berawan" | MENDUNG => "mendung"
  | HUJAN_GERIMIS => "hujan gerimis" | HUJAN_RINGAN => "hujan ringan"
  | HUJAN_SEDANG => "hujan sedang" | HUJAN_DERAS => "hujan deras"
  | HUJAN_POTENSIAL => "hujan potensial"
  end.

(** [SKY_LABEL.lower().replace("_"," ").replace(" ","_")] *)
Definition sky_token (l : Sky) : string :=
  PyStr.replace_char " " "_" (sky_display l).

(** [SKY_COUNT[K][d] = SKY_COUNT[K].get(d, 0) + 1] *)
Definition sky_count_incr (K d : string) (st : State) : State :=
  with_SKY_COUNT
    (fun S =>
       let row := default ∅ (S !! K) in
       <[K := <[d := (default 0%nat (row !! d) + 1)%nat]> row]> S)
    st.

(** The amount whose category the hour is filed under. *)
Definition rain_ref_for_cat (RAINMM acc3 acc6 : Q) : Q :=
  if (RAINMM > 0.0001)%py then RAINMM
  else if (acc3 > 0.0001)%py then acc3
  else acc6.

(** [if c: st = f(st)] *)
Definition when (c : bool) (f : State -> State) (st : State) : State :=
  if c then f st else st.

(** The four branches on [rain_cat]: the hour list of the location and
    the count of the slot ... *)
Definition file_rain_cat (rain_cat : RainCat) (K TIME : string) (st : State)
  : State :=
  match rain_cat with
  | NONE => st
  | GERIMIS =>
      agg_incr AGG_RAIN_GERIMIS TIME (perkota_add PERKOTA_RAIN_GERIMIS K TIME st)
  | RINGAN =>
      agg_incr AGG_RAIN_RINGAN TIME (perkota_add PERKOTA_RAIN_RINGAN K TIME st)
  | SEDANG =>
      agg_incr AGG_RAIN_SEDANG TIME (perkota_add PERKOTA_RAIN_SEDANG K TIME st)
  | DERAS =>
      agg_incr AGG_RAIN_DERAS TIME (perkota_add PERKOTA_RAIN_DERAS K TIME st)
  end.

(** ... and the reason token each of them appends. *)
Definition rain_reason (rain_cat : RainCat) : list string :=
  match rain_cat with
  | NONE => []
  | GERIMIS => ["rain_gerimis"]
  | RINGAN => ["rain_ringan"]
  | SEDANG => ["rain_sedang"]
  | DERAS => ["rain_keras"]
  end.

(** [if c: score += pts; REASONS.append(tok)] *)
Definition bump (c : bool) (pts : Z) (tok : string) (sr : Z * list string)
  : Z * list string :=
  if c then (fst sr + pts, snd sr ++ [tok])%Z else sr.

(** The score of one hour.  [prior] is the previous temperature when the
    store has a non-empty entry that [float] accepts; the drop
    [float(prev) - float(SUHU)] is a subtraction of two floats. *)
Definition risk_score (LEMBAP SUHU : Q) (prior : option Q)
           (ANGIN WINDGUST : Q) (HOUR : Z) (UV HUJAN_PROB RAINMM : Q)
           (REASONS : list string) : Z * list string :=
  let sr := (0%Z, REASONS) in
  let sr := bump (LEMBAP > SCORE_HUMID_TH)%py 2 "humid" sr in
  let sr := bump (SCORE_TEMP_LOW <= SUHU <= SCORE_TEMP_HIGH)%py 1 "temp_ok" sr in
  let sr :=
    match prior with
    | Some prev =>
        bump (F64.sub (F64.round prev) (F64.round SUHU) >= SCORE_TEMP_DROP)%py
             2 "temp_drop" sr
    | None => sr
    end in
  let sr := bump (SCORE_WIND_MIN <= ANGIN <= SCORE_WIND_MAX)%py 1 "wind_ok" sr in
  let sr := bump (WINDGUST > SCORE_GUST_TH)%py 1 "gust" sr in
  let sr :=
    if (8 <=? HOUR)%Z && (HOUR <=? 16)%Z
    then bump (UV >= SCORE_UV_TH)%py 2 "uv_high" sr else sr in
  let sr :=
    if (HUJAN_PROB >= 70)%py then bump true 2 "prob>=70" sr
    else bump (HUJAN_PROB >= 50)%py 1 "prob>=50" sr in
  let sr :=
    if (RAINMM >= 1.0)%py then bump true 3 "rained_now" sr
    else bump (RAINMM >= 0.3)%py 1 "drizzle" sr in
  sr.

(** [re.search(r"hujan sangat|...|lightning", BMK_SUM.lower())], under
    [if BMK_SUM] *)
Definition bmkg_alert (BMK_SUM : string) : bool :=
  negb (PyStr.is_empty BMK_SUM) &&
  existsb (fun kw => PyStr.contains kw (PyStr.lower BMK_SUM))
          ["hujan sangat"; "hujan lebat"; "kilat"; "petir"; "badai";
           "thunder"; "lightning"].

(** [if tok not in REASONS: REASONS.append(tok)] *)
Definition append_new (tok : string) (REASONS : list string) : list string :=
  if existsb (String.eqb tok) REASONS then REASONS else REASONS ++ [tok].

(** The status chain.  Each rule maps [(STATUS, REASONS)] to its new
    value. *)

Definition initial_status (score : Z) : Status :=
  if (7 <=? score)%Z then Rawan
  else if (4 <=? score)%Z then Waspada
  else Aman.

Definition is_Rawan (s : Status) : bool :=
  match s with Rawan => true | _ => false end.

Definition rule_bmkg (alert : bool) (sr : Status * list string)
  : Status * list string :=
  if alert then (Rawan, append_new "BMKG_warn" (snd sr)) else sr.

Definition rule_rain (RAINMM : Q) (sr : Status * list string)
  : Status * list string :=
  if negb (is_Rawan (fst sr)) then
    if (RAINMM >= RAWAN_RAIN_MM)%py then (Rawan, snd sr ++ ["rainmm_rawan"])
    else if (RAINMM >= WASP_RAIN_MM)%py
         then (Waspada, snd sr ++ ["rainmm_wasp"])
         else sr
  else sr.

Definition rule_acc (acc3 acc6 : Q) (sr : Status * list string)
  : Status * list string :=
  if negb (is_Rawan (fst sr)) then
    if (acc3 >= ACC3_RAWAN_MM)%py || (acc6 >= ACC6_RAWAN_MM)%py
    then (Waspada, snd sr ++ ["acc_rain"]) else sr
  else sr.

Definition rule_wind (ANGIN : Q) (sr : Status * list string)
  : Status * list string :=
  if (ANGIN >= WIND_DANGER)%py then (Rawan, snd sr ++ ["wind_sust_danger"])
  else if negb (is_Rawan (fst sr)) && (ANGIN >= WIND_WARN)%py
       then (Waspada, snd sr ++ ["wind_warn"])
       else sr.

Definition rule_gust (WINDGUST : Q) (sr : Status * list string)
  : Status * list string :=
  if (WINDGUST >= GUST_DANGER)%py then (Rawan, snd sr ++ ["gust_danger"])
  else if negb (is_Rawan (fst sr)) && (WINDGUST >= GUST_WARN)%py
       then (Waspada, snd sr ++ ["gust_warn"])
       else sr.

(** The whole chain, from the score to the final status. *)
Definition resolve_status (score : Z) (alert : bool)
           (RAINMM acc3 acc6 ANGIN WINDGUST : Q) (REASONS : list string)
  : Status * list string :=
  rule_gust WINDGUST
    (rule_wind ANGIN
       (rule_acc acc3 acc6
          (rule_rain RAINMM
             (rule_bmkg alert (initial_status score, REASONS))))).

(** The deviation flags of one source. *)
Definition flag_dev (d : Stdev) (K TIME : string) (st : State) : State :=
  match dev_level d with
  | DEV_DANGER =>
      agg_incr AGG_DEV_DANGER TIME (perkota_add PERKOTA_DEV_DANGER K TIME st)
  | DEV_WARN =>
      agg_incr AGG_DEV_WARN TIME (perkota_add PERKOTA_DEV_WARN K TIME st)
  | DEV_NONE => st
  end.

(** Both sources, the deterministic one first. *)
Definition dev_flags (dev_mm dev_ens_3hr : Stdev) (K TIME : string)
           (st : State) : State :=
  flag_dev dev_ens_3hr K TIME (flag_dev dev_mm K TIME st).

(** The three [if STATUS == ...] blocks that count the hour. *)
Definition count_status (STATUS : Status) (K TIME : string) (st : State)
  : State :=
  let st :=
    if decide (STATUS = Aman)
    then with_tally (aman st + 1) (wasp st) (rawan st) (agg_incr AGG_AMAN TIME st)
    else st in
  let st :=
    if decide (STATUS = Waspada)
    then with_tally (aman st) (wasp st + 1) (rawan st) (agg_incr AGG_WASP TIME st)
    else st in
  let st :=
    if decide (STATUS = Rawan)
    then perkota_add PERKOTA_RAWAN K TIME
           (with_tally (aman st) (wasp st) (rawan st + 1)
                       (agg_incr AGG_RAWAN TIME st))
    else st in
  st.

(** The hourly arrays of one forecast, [DATA["hourly"]]; a missing array
    is the empty list. *)
Record Hourly : Type := mkHourly {
  time : list string;
  temperature_2m : list Q;
  precipitation_probability : list Q;
  precipitation : list Q;
  relative_humidity_2m : list Q;
  windspeed_10m : list Q;
  winddirection_10m : list Q;
  windgusts_10m : list Q;
  uv_index : list Q
}.

(** What the collaborators hand over for one location: its coordinates,
    the forecast ([None] when the fetch failed), the ensemble members and
    the advisory text. *)
Record Location : Type := mkLocation {
  K : string;
  LATK : option Q;
  LONK : option Q;
  DATA : option Hourly;
  ensemble_available : bool;
  ensemble_members : list (list Q);
  BMK_SUM : string
}.

(** The columns of the row printed for the hour. *)
Record Row : Type := mkRow {
  row_rain_cat : RainCat;
  row_SKY_LABEL : Sky;
  row_acc3 : Q;
  row_acc6 : Q;
  row_dev_mm : Stdev;
  row_dev_ens_3hr : Stdev;
  row_score : Z;
  row_STATUS : Status;
  row_REASONS : list string
}.

(** [times_jq.index(TIME)]; [None] is the [ValueError]. *)
Fixpoint index_of (x : string) (l : list string) : option nat :=
  match l with
  | [] => None
  | y :: l' => if String.eqb y x then Some 0%nat
               else option_map S (index_of x l')
  end.

(** [int(s)] for a string of at most two characters; [None] is the
    [ValueError]. *)
Definition int_of_field (s : string) : option Z :=
  match PyStr.strip s with
  | String a EmptyString => PyStr.digit a
  | String a (String b EmptyString) =>
      match PyStr.digit b with
      | Some y =>
          match PyStr.digit a with
          | Some x => Some (10 * x + y)%Z
          | None => if Ascii.eqb a "+" then Some y
                    else if Ascii.eqb a "-" then Some (- y)%Z
                    else None
          end
      | None => None
      end
  | _ => None
  end.

(** [int(TIME.split("T")[1][:2])]; [None] is the exception. *)
Definition HOUR_of (TIME : string) : option Z :=
  match PyStr.split_once "T" TIME with
  | None => None
  | Some (_, rest) =>
      let field :=
        match PyStr.split_once "T" rest with
        | Some (f, _) => f
        | None => rest
        end in
      int_of_field (String.substring 0 2 field)
  end.

Section Run.

(** Built-ins of Python the run relies on: [str(x)] and [float(s)] on
    temperatures ([None] is the [ValueError]), and the format
    ["{:.4f}"]. *)
Variable py_str : Q -> string.
Variable float_of_str : string -> option Q.
Variable fmt4 : Q -> string.

(** The 24 slots, [TIMES]. *)
Variable TIMES : list string.

Definition key_latlon (lat lon : Q) : string :=
  fmt4 lat +:+ "," +:+ fmt4 lon.

Definition lookup_prev_temp_for (name : string) (lat lon : Q)
           (prev_map : Dict.t) : option string :=
  match prev_map with
  | [] => None
  | _ =>
      let key_name := PyStr.strip name in
      match Dict.get key_name prev_map with
      | Some v => Some v
      | None =>
          match Dict.get (key_latlon lat lon) prev_map with
          | Some v => Some v
          | None =>
              option_map snd
                (find (fun kv => String.eqb (PyStr.lower key_name)
                                            (PyStr.lower (fst kv)))
                      prev_map)
          end
      end
  end.

(** The previous temperature the score uses: the entry found, if it is
    non-empty and [float] accepts it. *)
Definition prior_temp (prev : option string) : option Q :=
  match prev with
  | Some p => if PyStr.is_empty p then None else float_of_str p
  | None => None
  end.

(** The body of [for TIME in TIMES] once [idx] and [HOUR] are known. *)
Definition hour_body (loc : Location) (LAT LON : Q) (D : Hourly)
           (TIME : string) (idx : nat) (HOUR : Z) (st : State)
  : State * Row :=
  let K := K loc in
  let LEN := length (time D) in
  let SUHU := nth idx (temperature_2m D) 0.0%Q in
  let HUJAN_PROB := nth idx (precipitation_probability D) 0.0%Q in
  let RAINMM := nth idx (precipitation D) 0.0%Q in
  let LEMBAP := nth idx (relative_humidity_2m D) 0.0%Q in
  let ANGIN := nth idx (windspeed_10m D) 0.0%Q in
  let WINDGUST := nth idx (windgusts_10m D) 0.0%Q in
  let UV := nth idx (uv_index D) 0.0%Q in
  let acc3 := Qsum (window_vals (precipitation D) LEN idx 3) in
  let acc6 := Qsum (window_vals (precipitation D) LEN idx 6) in
  let dev_mm := dev_mm_of (precipitation D) LEN idx in
  let dev_ens_3hr :=
    dev_ens_3hr_of (ensemble_available loc) (ensemble_members loc) idx in
  let REASONS := [] in
  let rain_cat := classify_rain_mm (ANum (rain_ref_for_cat RAINMM acc3 acc6)) in
  let st := file_rain_cat rain_cat K TIME st in
  let REASONS := REASONS ++ rain_reason rain_cat in
  let SKY_LABEL :=
    classify_sky (ANum HUJAN_PROB) (ANum RAINMM) (ANum acc3) (ANum acc6)
                 (ANum LEMBAP) (ANum UV) (Some HOUR) in
  let st := sky_count_incr K (sky_display SKY_LABEL) st in
  let REASONS := ("sky_" +:+ sky_token SKY_LABEL) :: REASONS in
  let prev := lookup_prev_temp_for K LAT LON (PREV_TEMP st) in
  let scored :=
    risk_score LEMBAP SUHU (prior_temp prev) ANGIN WINDGUST HOUR UV
               HUJAN_PROB RAINMM REASONS in
  let score := fst scored in
  let REASONS := snd scored in
  let SR := (initial_status score, REASONS) in
  let alert := bmkg_alert (BMK_SUM loc) in
  let st := when alert (agg_incr AGG_THUNDER TIME) st in
  let st := when alert (perkota_add PERKOTA_THUNDER K TIME) st in
  let SR := rule_bmkg alert SR in
  let SR := rule_rain RAINMM SR in
  let SR := rule_acc acc3 acc6 SR in
  let st := when ((SUHU >= 33)%py && (UV >= SCORE_UV_TH)%py)
                 (perkota_add PERKOTA_WASP_HEAT K TIME) st in
  let st := when ((LEMBAP >= RAWAN_HUM)%py && (HUJAN_PROB >= 30)%py)
                 (perkota_add PERKOTA_WASP_RAIN K TIME) st in
  let st := dev_flags dev_mm dev_ens_3hr K TIME st in
  let SR := rule_wind ANGIN SR in
  let SR := rule_gust WINDGUST SR in
  let thunder := (HUJAN_PROB >= 70)%py && (ANGIN >= 10)%py in
  let st := when thunder (agg_incr AGG_THUNDER TIME) st in
  let st := when thunder (perkota_add PERKOTA_THUNDER K TIME) st in
  let SR := if thunder then (fst SR, append_new "prob70_wind10" (snd SR))
            else SR in
  let st := when (RAINMM >= WASP_RAIN_MM)%py
                 (perkota_add PERKOTA_WASP_RAIN K TIME) st in
  let st := when ((acc3 >= ACC3_RAWAN_MM)%py || (acc6 >= ACC6_RAWAN_MM)%py)
                 (perkota_add PERKOTA_WASP_RAIN K TIME) st in
  let st := when (WINDGUST >= GUST_WARN)%py
                 (perkota_add PERKOTA_WASP_GUST K TIME) st in
  let st := count_status (fst SR) K TIME st in
  let st := when (ANGIN >= WIND_DANGER)%py (agg_incr AGG_WIND_DANGER TIME) st in
  let st := when (ANGIN >= WIND_WARN)%py (agg_incr AGG_WIND_WARN TIME) st in
  let st := when (WINDGUST >= GUST_DANGER)%py (agg_incr AGG_GUST_DANGER TIME) st in
  let st := when (WINDGUST >= GUST_WARN)%py (agg_incr AGG_GUST_WARN TIME) st in
  let st := with_PREV_TEMP (Dict.set K (py_str SUHU)) st in
  let st := with_PREV_TEMP (Dict.set (key_latlon LAT LON) (py_str SUHU)) st in
  (st, mkRow rain_cat SKY_LABEL acc3 acc6 dev_mm dev_ens_3hr score
             (fst SR) (snd SR)).

(** [for TIME in TIMES], for one location.  A slot missing from the time
    axis of the forecast is skipped; [None] is an uncaught exception. *)
Fixpoint hours_loop (loc : Location) (LAT LON : Q) (D : Hourly)
         (slots : list string) (st : State) : option State :=
  match slots with
  | [] => Some st
  | TIME :: slots' =>
      match index_of TIME (time D) with
      | None => hours_loop loc LAT LON D slots' st
      | Some idx =>
          match HOUR_of TIME with
          | None => None
          | Some HOUR =>
              hours_loop loc LAT LON D slots'
                         (fst (hour_body loc LAT LON D TIME idx HOUR st))
          end
      end
  end.

(** The statements that open a processed location: the counters and the
    per-location entries are reset. *)
Definition open_location (K : string) (st : State) : State :=
  let st :=
    mkState (AGG st) (PERKOTA st) (SKY_COUNT st) (PREV_TEMP st)
            (processed_count st + 1) (processed_locations_list st ++ [K])
            0 0 0 in
  let st := with_PERKOTA (fun P k => <[K := EmptyString]> (P k)) st in
  with_SKY_COUNT (fun S => <[K := ∅]> S) st.

(** The body of [for K in list(LAT.keys())]. *)
Definition process_location (loc : Location) (st : State) : option State :=
  match LATK loc, LONK loc with
  | Some LAT, Some LON =>
      match DATA loc with
      | None => Some st
      | Some D => hours_loop loc LAT LON D TIMES (open_location (K loc) st)
      end
  | _, _ => Some st
  end.

Fixpoint locations_loop (locs : list Location) (st : State) : option State :=
  match locs with
  | [] => Some st
  | loc :: locs' =>
      match process_location loc st with
      | Some st' => locations_loop locs' st'
      | None => None
      end
  end.

(** [{t: 0 for t in TIMES}] *)
Definition zero_counts : gmap string nat :=
  list_to_map (map (fun t => (t, 0%nat)) TIMES).

Definition initial_state (PREV_TEMP : Dict.t) : State :=
  mkState (fun _ => zero_counts) (fun _ => ∅) ∅ PREV_TEMP 0 [] 0 0 0.

(** ** The combined summary *)

(** [processed_count > 0 and a >= int(processed_count * THRESH_PCT + 0.999)] *)
Definition is_best_aman (processed_count a : nat) : bool :=
  (0 <? processed_count)%nat &&
  (Num.py_int (inject_Z (Z.of_nat processed_count) * THRESH_PCT + 0.999)
   <=? Z.of_nat a)%Z.

Definition best_aman_times (st : State) : list string :=
  List.filter (fun t => is_best_aman (processed_count st) (agg_get AGG_AMAN t st))
              TIMES.

(** [r > 1] *)
Definition any_rawan_times (st : State) : list string :=
  List.filter (fun t => (1 <? agg_get AGG_RAWAN t st)%nat) TIMES.

(** The slots of a counter that is positive: thunder, wind, gust and
    deviation windows. *)
Definition positive_times (k : AggKey) (st : State) : list string :=
  List.filter (fun t => (0 <? agg_get k t st)%nat) TIMES.

(** [run_once], from the store file and the fetched locations to the
    final accumulators and the file written back; [None] is an uncaught
    exception. *)
Definition run_once (locs : list Location) (fs : FileState)
  : option (State * FileState) :=
  match locations_loop locs (initial_state (load_prev_temp_file fs)) with
  | Some st => Some (st, save_prev_temp_file (PREV_TEMP st) fs)
  | None => None
  end.

End Run.

(** ** Vocabulary of the properties *)

(** The order Aman < Waspada < Rawan. *)
Definition status_rank (s : Status) : nat :=
  match s with Aman => 0 | Waspada => 1 | Rawan => 2 end.

Definition status_le (a b : Status) : Prop :=
  (status_rank a <= status_rank b)%nat.

(** The score table as the specification words it: the condition, the
    points and the reason token of each contribution, in order; the drop
    of the temperature is the difference of the two floats. *)
Definition spec_score_table (LEMBAP SUHU : Q) (prior : option Q)
           (ANGIN WINDGUST : Q) (HOUR : Z) (UV HUJAN_PROB RAINMM : Q)
  : list (bool * Z * string) :=
  [ ((LEMBAP > 80)%py, 2%Z, "humid");
    ((27 <= SUHU <= 34)%py, 1%Z, "temp_ok");
    (match prior with
     | Some prev => (F64.sub (F64.round prev) (F64.round SUHU) >= 2.0)%py
     | None => false
     end, 2%Z, "temp_drop");
    ((10 <= ANGIN <= 25)%py, 1%Z, "wind_ok");
    ((WINDGUST > 25)%py, 1%Z, "gust");
    ((8 <=? HOUR)%Z && (HOUR <=? 16)%Z && (UV >= 7)%py, 2%Z, "uv_high");
    ((HUJAN_PROB >= 70)%py, 2%Z, "prob>=70");
    (negb (HUJAN_PROB >= 70)%py && (HUJAN_PROB >= 50)%py, 1%Z, "prob>=50");
    ((RAINMM >= 1.0)%py, 3%Z, "rained_now");
    (negb (RAINMM >= 1.0)%py && (RAINMM >= 0.3)%py, 1%Z, "drizzle") ].

(** The points of the contributions that apply, added up. *)
Definition table_points (tbl : list (bool * Z * string)) : Z :=
  fold_right
    (fun (e : bool * Z * string) acc =>
       ((if fst (fst e) then snd (fst e) else 0) + acc)%Z)
    0%Z tbl.

(** Their tokens, in the order of the table. *)
Definition table_tokens (tbl : list (bool * Z * string)) : list string :=
  flat_map (fun e : bool * Z * string => if fst (fst e) then [snd e] else [])
           tbl.

(** The real number a deviation is. *)
Definition Stdev_value (d : Stdev) : R := Q2R (Stdev_float d).

#[global] Instance DevLevel_eq_dec : EqDecision DevLevel.
Proof. solve_decision. Defined.
#[global] Instance RainCat_eq_dec : EqDecision RainCat.
Proof. solve_decision. Defined.

(** One increment of the counter [k'] at slot [t'], seen from the counter
    [k] at slot [t]: 1 when the condition holds and both agree. *)
Definition hit (c : bool) (k k' : AggKey) (t t' : string) : nat :=
  if c && bool_decide (k = k') && bool_decide (t = t') then 1%nat else 0%nat.

(** [join_if c cur t] is [cur] with [t] appended when [c] holds. *)
Definition join_if (c : bool) (cur t : string) : string :=
  if c then time_join cur t else cur.

(** The counter and the hour list a rain category is filed under. *)
Definition rain_agg_key (c : RainCat) : option AggKey :=
  match c with
  | NONE => None
  | GERIMIS => Some AGG_RAIN_GERIMIS
  | RINGAN => Some AGG_RAIN_RINGAN
  | SEDANG => Some AGG_RAIN_SEDANG
  | DERAS => Some AGG_RAIN_DERAS
  end.

Definition rain_perkota_key (c : RainCat) : option PerkotaKey :=
  match c with
  | NONE => None
  | GERIMIS => Some PERKOTA_RAIN_GERIMIS
  | RINGAN => Some PERKOTA_RAIN_RINGAN
  | SEDANG => Some PERKOTA_RAIN_SEDANG
  | DERAS => Some PERKOTA_RAIN_DERAS
  end.

(** The status counts of a slot, added up. *)
Definition status_total (t : string) (st : State) : nat :=
  (agg_get AGG_AMAN t st + agg_get AGG_WASP t st + agg_get AGG_RAWAN t st)%nat.

(** A location counts for a slot when it was processed (coordinates and
    forecast present) and the slot occurs in its time axis. *)
Definition covers (t : string) (loc : Location) : bool :=
  match LATK loc, LONK loc, DATA loc with
  | Some _, Some _, Some D => existsb (String.eqb t) (time D)
  | _, _, _ => false
  end.

(** Everything one hour adds to the counter [k] at slot [t]. *)
Definition hour_hits (k : AggKey) (t TIME : string) (alert : bool)
           (HUJAN_PROB ANGIN WINDGUST : Q) (row : Row) : nat :=
  (match rain_agg_key (row_rain_cat row) with
   | Some k' => hit true k k' t TIME
   | None => 0
   end
   + hit alert k AGG_THUNDER t TIME
   + hit (bool_decide (dev_level (row_dev_mm row) = DEV_DANGER))
         k AGG_DEV_DANGER t TIME
   + hit (bool_decide (dev_level (row_dev_mm row) = DEV_WARN))
         k AGG_DEV_WARN t TIME
   + hit (bool_decide (dev_level (row_dev_ens_3hr row) = DEV_DANGER))
         k AGG_DEV_DANGER t TIME
   + hit (bool_decide (dev_level (row_dev_ens_3hr row) = DEV_WARN))
         k AGG_DEV_WARN t TIME
   + hit ((HUJAN_PROB >= 70)%py && (ANGIN >= 10)%py) k AGG_THUNDER t TIME
   + hit (bool_decide (row_STATUS row = Aman)) k AGG_AMAN t TIME
   + hit (bool_decide (row_STATUS row = Waspada)) k AGG_WASP t TIME
   + hit (bool_decide (row_STATUS row = Rawan)) k AGG_RAWAN t TIME
   + hit (ANGIN >= WIND_DANGER)%py k AGG_WIND_DANGER t TIME
   + hit (ANGIN >= WIND_WARN)%py k AGG_WIND_WARN t TIME
   + hit (WINDGUST >= GUST_DANGER)%py k AGG_GUST_DANGER t TIME
   + hit (WINDGUST >= GUST_WARN)%py k AGG_GUST_WARN t TIME)%nat.

(** One append to the hour list [k'] of location [K], seen from the hour
    list [k] of location [K']. *)
Definition padd (c : bool) (k k' : PerkotaKey) (K' K T : string)
           (cur : string) : string :=
  join_if (c && bool_decide (k = k') && bool_decide (K' = K)) cur T.

(** Everything one hour appends to the hour list [k] of location [K'],
    in the order of the source, starting from [cur]. *)
Definition hour_lists (k : PerkotaKey) (K' K TIME : string) (alert : bool)
           (SUHU UV LEMBAP HUJAN_PROB RAINMM ANGIN WINDGUST : Q) (row : Row)
           (cur : string) : string :=
  let T := PyStr.replace_char "T" " " TIME in
  let cur :=
    match rain_perkota_key (row_rain_cat row) with
    | Some k' => padd true k k' K' K T cur
    | None => cur
    end in
  let cur := padd alert k PERKOTA_THUNDER K' K T cur in
  let cur := padd ((SUHU >= 33)%py && (UV >= SCORE_UV_TH)%py)
                  k PERKOTA_WASP_HEAT K' K T cur in
  let cur := padd ((LEMBAP >= RAWAN_HUM)%py && (HUJAN_PROB >= 30)%py)
                  k PERKOTA_WASP_RAIN K' K T cur in
  let cur := padd (bool_decide (dev_level (row_dev_mm row) = DEV_DANGER))
                  k PERKOTA_DEV_DANGER K' K T cur in
  let cur := padd (bool_decide (dev_level (row_dev_mm row) = DEV_WARN))
                  k PERKOTA_DEV_WARN K' K T cur in
  let cur := padd (bool_decide (dev_level (row_dev_ens_3hr row) = DEV_DANGER))
                  k PERKOTA_DEV_DANGER K' K T cur in
  let cur := padd (bool_decide (dev_level (row_dev_ens_3hr row) = DEV_WARN))
                  k PERKOTA_DEV_WARN K' K T cur in
  let cur := padd ((HUJAN_PROB >= 70)%py && (ANGIN >= 10)%py)
                  k PERKOTA_THUNDER K' K T cur in
  let cur := padd (RAINMM >= WASP_RAIN_MM)%py k PERKOTA_WASP_RAIN K' K T cur in
  let cur := padd ((row_acc3 row >= ACC3_RAWAN_MM)%py
                   || (row_acc6 row >= ACC6_RAWAN_MM)%py)
                  k PERKOTA_WASP_RAIN K' K T cur in
  let cur := padd (WINDGUST >= GUST_WARN)%py k PERKOTA_WASP_GUST K' K T cur in
  padd (bool_decide (row_STATUS row = Rawan)) k PERKOTA_RAWAN K' K T cur.

(** ** Vocabulary of the further properties *)

(** The hour counts of the location in progress. *)
Definition tally (st : State) : nat * nat * nat := (aman st, wasp st, rawan st).

(** [aman += 1], [wasp += 1] or [rawan += 1], by the status. *)
Definition tally_bump (s : Status) (t : nat * nat * nat) : nat * nat * nat :=
  match s with
  | Aman => (t.1.1 + 1, t.1.2, t.2)
  | Waspada => (t.1.1, t.1.2 + 1, t.2)
  | Rawan => (t.1.1, t.1.2, t.2 + 1)
  end%nat.

(** The variables an hour touches besides the counters and hour lists. *)
Definition rest (st : State) : Dict.t * nat * list string * (nat * nat * nat) :=
  (PREV_TEMP st, processed_count st, processed_locations_list st, tally st).

Definition on_prev (f : Dict.t -> Dict.t)
           (r : Dict.t * nat * list string * (nat * nat * nat)) :=
  (f r.1.1.1, r.1.1.2, r.1.2, r.2).

Definition on_tally (g : nat * nat * nat -> nat * nat * nat)
           (r : Dict.t * nat * list string * (nat * nat * nat)) :=
  (r.1.1.1, r.1.1.2, r.1.2, g r.2).

(** A location is processed when its coordinates and its forecast are
    there. *)
Definition processed (loc : Location) : bool :=
  match LATK loc, LONK loc, DATA loc with
  | Some _, Some _, Some _ => true
  | _, _, _ => false
  end.

(** The rain-category counts of a slot, added up. *)
Definition rain_total (t : string) (st : State) : nat :=
  (agg_get AGG_RAIN_GERIMIS t st + agg_get AGG_RAIN_RINGAN t st
   + agg_get AGG_RAIN_SEDANG t st + agg_get AGG_RAIN_DERAS t st)%nat.

(** The relations the counters of a slot keep between them. *)
Definition counters_ok (st : State) : Prop :=
  forall t,
    (agg_get AGG_WIND_DANGER t st <= agg_get AGG_WIND_WARN t st /\
     agg_get AGG_GUST_DANGER t st <= agg_get AGG_GUST_WARN t st /\
     agg_get AGG_WIND_DANGER t st <= agg_get AGG_RAWAN t st /\
     agg_get AGG_GUST_DANGER t st <= agg_get AGG_RAWAN t st /\
     rain_total t st <= status_total t st /\
     agg_get AGG_THUNDER t st <= 2 * status_total t st /\
     agg_get AGG_DEV_WARN t st + agg_get AGG_DEV_DANGER t st
     <= 2 * status_total t st)%nat.

(** [st'] has the counters of [st] after some increments at the slot
    [TIME]. *)
Inductive agg_steps (TIME : string) (st : State) : State -> Prop :=
| agg_steps_refl : agg_steps TIME st st
| agg_steps_incr k st' :
    agg_steps TIME st st' -> agg_steps TIME st (agg_incr k TIME st')
| agg_steps_same st' st'' :
    agg_steps TIME st st' -> AGG st'' = AGG st' -> agg_steps TIME st st''.

(** The counter dictionaries have exactly the slots [TIMES] as keys. *)
Definition agg_keys_ok (TIMES : list string) (st : State) : Prop :=
  forall k t, is_Some (AGG st k !! t) <-> In t TIMES.

(** ** Sending the message ([send_telegram]) *)

(** A character of a string stands for one code point of the Python
    string. *)

(** [s[:n]] *)
Fixpoint str_take (n : nat) (s : string) : string :=
  match n, s with
  | S n', String c s' => String c (str_take n' s')
  | _, _ => EmptyString
  end.

(** [s[n:]] *)
Fixpoint str_drop (n : nat) (s : string) : string :=
  match n, s with
  | S n', String _ s' => str_drop n' s'
  | _, _ => s
  end.

(** [s.lstrip("\n")] and [s.rstrip("\n")] *)
Fixpoint lstrip_LF (s : string) : string :=
  match s with
  | EmptyString => EmptyString
  | String c s' => if Ascii.eqb c PyStr.LF then lstrip_LF s' else s
  end.

Fixpoint rstrip_LF (s : string) : string :=
  match s with
  | EmptyString => EmptyString
  | String c s' =>
      match rstrip_LF s' with
      | EmptyString => if Ascii.eqb c PyStr.LF then EmptyString
                       else String c EmptyString
      | r => String c r
      end
  end.

(** [s.strip("\n")] *)
Definition strip_LF (s : string) : string := rstrip_LF (lstrip_LF s).

Definition SAFELEN : nat := 3500.

(** [parse_mode] of one call of [try_send]. *)
Inductive ParseMode : Type := HTML | Plain.

(** [chunk = remaining[:SAFELEN]] *)
Definition next_chunk (remaining : string) : string :=
  str_take SAFELEN remaining.

(** [remaining[SAFELEN:] if len(remaining) > SAFELEN else ""] *)
Definition next_remaining (remaining : string) : string :=
  if (SAFELEN <? String.length remaining)%nat
  then str_drop SAFELEN remaining else EmptyString.

(** [while remaining: ... try_send(chunk, None)]: the chunks sent as
    plain text.  [fuel] bounds the number of iterations; [None] says that
    the bound was reached with text left. *)
Fixpoint send_plain (fuel : nat) (remaining : string)
  : option (list (ParseMode * string)) :=
  if PyStr.is_empty remaining then Some []
  else match fuel with
       | O => None
       | S fuel' =>
           option_map (cons (Plain, next_chunk remaining))
                      (send_plain fuel' (next_remaining remaining))
       end.

(** [send_telegram]: the calls of [try_send], in order.  [configured]
    says that token and chat id are set, [out] is the answer to the first
    call. *)
Definition send_telegram (configured : bool) (out : string)
           (text_raw : string) : option (list (ParseMode * string)) :=
  if negb configured then Some []
  else
    let text_raw := strip_LF text_raw in
    let chunk_full := next_chunk text_raw in
    let remaining := next_remaining text_raw in
    if PyStr.contains "200" out
    then option_map (cons (HTML, chunk_full))
                    (send_plain (String.length remaining) remaining)
    else option_map (cons (HTML, chunk_full))
                    (send_plain (String.length text_raw) text_raw).

(** [if len(telegram_text) > 3490: telegram_text = telegram_text[:3490] +
    "\n\n[truncated]"], the last step of [run_once] before the send. *)
Definition truncate_text (telegram_text : string) : string :=
  if (3490 <? String.length telegram_text)%nat
  then str_take 3490 telegram_text
       +:+ String PyStr.LF (String PyStr.LF "[truncated]")
  else telegram_text.

(** The texts of a list of sends, put together again. *)
Definition sent_text (sends : list (ParseMode * string)) : string :=
  fold_right (fun s acc => snd s +:+ acc) EmptyString sends.

(** ** Hours as ranges ([_join_hours_to_ranges]) *)

(** [h.split("T")[1][:2]]; [None] is the [IndexError]. *)
Definition hour_field (h : string) : option string :=
  match PyStr.split_once "T" h with
  | None => None
  | Some (_, rest) =>
      let field :=
        match PyStr.split_once "T" rest with
        | Some (f, _) => f
        | None => rest
        end in
      Some (String.substring 0 2 field)
  end.

(** The set comprehension: the distinct fields.  Their order does not
    matter, the list is sorted next. *)
Definition distinct (l : list string) : list string := remove_dups l.

(** The loop over [hrs_int[1:]] and the statements after it, with the
    ranges as pairs of their first and last hour. *)
Fixpoint ranges_loop (start prev : Z) (hs : list Z) : list (Z * Z) :=
  match hs with
  | [] => [(start, prev)]
  | h :: hs' =>
      if (h =? prev + 1)%Z then ranges_loop start h hs'
      else (start, prev) :: ranges_loop h h hs'
  end.

(** The ranges of [_join_hours_to_ranges] before they are printed: [None]
    is the exception of a slot without hour field or with one that [int]
    rejects; the empty list stands for the answer ["-"]. *)
Definition hour_ranges (hours_list : list string) : option (list (Z * Z)) :=
  match hours_list with
  | [] => Some []
  | _ =>
      match mapM hour_field hours_list with
      | None => None
      | Some fields =>
          match mapM int_of_field (distinct fields) with
          | None => None
          | Some ints =>
              match merge_sort Z.le ints with
              | [] => Some []
              | h0 :: rest => Some (ranges_loop h0 h0 rest)
              end
          end
      end
  end.

Section HourRanges.

(** [f"{n:02d}"] *)
Variable fmt02d : Z -> string.

Definition range_text (r : Z * Z) : string :=
  if (fst r =? snd r)%Z then fmt02d (fst r) +:+ ":00"
  else fmt02d (fst r) +:+ ":00-" +:+ fmt02d (snd r) +:+ ":00".

(** [", ".join(ranges)] *)
Fixpoint join_comma (l : list string) : string :=
  match l with
  | [] => EmptyString
  | [x] => x
  | x :: l' => x +:+ ", " +:+ join_comma l'
  end.

Definition _join_hours_to_ranges (hours_list : list string) : option string :=
  match hours_list with
  | [] => Some "-"
  | _ => option_map (fun rs => join_comma (map range_text rs))
                    (hour_ranges hours_list)
  end.

End HourRanges.

(** An hour lies in one of the ranges. *)
Definition in_ranges (x : Z) (rs : list (Z * Z)) : Prop :=
  exists r, In r rs /\ (fst r <= x <= snd r)%Z.

(** ** The printed row *)

(** [round(x)] of a float: the nearest integer, a tie goes to the even
    one. *)
Definition py_round (x : Q) : Z :=
  let f := Qfloor x in
  match (x - inject_Z f ?= 1 # 2)%Q with
  | Lt => f
  | Gt => (f + 1)%Z
  | Eq => if Z.even f then f else (f + 1)%Z
  end.

(** [d = int(round(float(d or 0))) % 360] *)
Definition compass_deg (d : Q) : Z := (py_round d mod 360)%Z.

Definition deg_to_compass_id (d : Q) : string :=
  let d := compass_deg d in
  if (337 <=? d)%Z || (d <? 23)%Z then "U"
  else if (23 <=? d)%Z && (d <? 68)%Z then "TL"
  else if (68 <=? d)%Z && (d <? 113)%Z then "T"
  else if (113 <=? d)%Z && (d <? 158)%Z then "TG"
  else if (158 <=? d)%Z && (d <? 203)%Z then "S"
  else if (203 <=? d)%Z && (d <? 248)%Z then "BD"
  else if (248 <=? d)%Z && (d <? 293)%Z then "B"
  else "BL".

(** The arrows, like the degree sign below, are code points above 255;
    they are written as their UTF-8 bytes, and only compared. *)
Definition deg_to_arrow (d : Q) : string :=
  let d := compass_deg d in
  if (337 <=? d)%Z || (d <? 23)%Z then "↑"
  else if (23 <=? d)%Z && (d <? 68)%Z then "↗"
  else if (68 <=? d)%Z && (d <? 113)%Z then "→"
  else if (113 <=? d)%Z && (d <? 158)%Z then "↘"
  else if (158 <=? d)%Z && (d <? 203)%Z then "↓"
  else if (203 <=? d)%Z && (d <? 248)%Z then "↙"
  else if (248 <=? d)%Z && (d <? 293)%Z then "←"
  else "↖".

(** The colours of the terminal. *)
Inductive Color : Type := GREEN | YELLOW | RED | CYAN.

#[global] Instance Color_eq_dec : EqDecision Color.
Proof. solve_decision. Defined.

(** [f"{color}{text}{RESET}"] *)
Record Colored : Type := paint { ink : Color; text : string }.

Section Columns.

(** [f"{x:.1f}"] and [f"{x:.0f}"] *)
Variable fmt1 : Q -> string.
Variable fmt0 : Q -> string.
Variable USE_UNICODE : bool.
Variable SKIP_QUIET : bool.

Definition format_temp_color (t : Q) : Colored :=
  if (t >= 33)%py then paint RED (fmt1 t +:+ "°C")
  else if (t < 23)%py then paint CYAN (fmt1 t +:+ "°C")
  else paint GREEN (fmt1 t +:+ "°C").

Definition format_uv_color (u : Q) : Colored :=
  if (u >= 7)%py then paint RED (fmt1 u)
  else if (u >= 5)%py then paint YELLOW (fmt1 u)
  else paint GREEN (fmt1 u).

Definition format_wind_compact (deg spd gust : Q) : Colored :=
  let abbr := deg_to_compass_id (inject_Z (py_round deg)) in
  let arrow := if USE_UNICODE then deg_to_arrow deg +:+ " " else "" in
  let color :=
    if (gust >= GUST_DANGER)%py then RED
    else if (gust >= GUST_WARN)%py then YELLOW
    else if (spd >= WIND_DANGER)%py then RED
    else if (spd >= WIND_WARN)%py then YELLOW
    else GREEN in
  paint color (abbr +:+ arrow +:+ fmt0 spd).

(** [is_quiet] of the hour loop. *)
Definition is_quiet (score : Z) (RAINMM HUJAN_PROB ANGIN WINDGUST UV LEMBAP : Q)
  : bool :=
  SKIP_QUIET &&
  ((score =? 0)%Z && (RAINMM < 0.3)%py && (HUJAN_PROB < 10)%py
   && (ANGIN < WIND_WARN)%py && (WINDGUST < GUST_WARN)%py
   && (UV < SCORE_UV_TH)%py && (LEMBAP < SCORE_HUMID_TH)%py).

(** The status the row of the hour shows: a quiet row shows Aman, any
    other row the status of the hour. *)
Definition printed_status (quiet : bool) (STATUS : Status) : Status :=
  if quiet then Aman else STATUS.

End Columns.

(** The arrow that points where an abbreviation says. *)
Definition arrow_of_compass (abbr : string) : string :=
  if String.eqb abbr "U" then "↑"
  else if String.eqb abbr "TL" then "↗"
  else if String.eqb abbr "T" then "→"
  else if String.eqb abbr "TG" then "↘"
  else if String.eqb abbr "S" then "↓"
  else if String.eqb abbr "BD" then "↙"
  else if String.eqb abbr "B" then "←"
  else "↖".

(** ** The store file, line by line *)

(** A line as the file iterator hands it over: no line break inside, at
    most one LF, at its end. *)
Definition file_line (l : string) : Prop :=
  exists b, one_line b /\
            (l = b \/ l = b +:+ String PyStr.LF EmptyString).

(** ** The short message *)

(** [status_short] of the message built without the summarizer: Rawan
    when the location has a Rawan hour listed, Waspada when one of its
    watch or deviation lists is not empty. *)
Definition status_short (K : string) (st : State) : Status :=
  let listed k := negb (PyStr.is_empty (perkota_get k K st)) in
  if listed PERKOTA_RAWAN then Rawan
  else if listed PERKOTA_WASP_RAIN || listed PERKOTA_WASP_HEAT
          || listed PERKOTA_WASP_GUST || listed PERKOTA_DEV_WARN
          || listed PERKOTA_DEV_DANGER
       then Waspada
       else Aman.

(** ** The sky summary *)

(** The hours in the sky summary of a location: the counts of
    [SKY_COUNT[K]], added up. *)
Definition sky_total (K : string) (st : State) : nat :=
  map_fold (fun (_ : string) (v acc : nat) => (v + acc)%nat) 0%nat
           (default ∅ (SKY_COUNT st !! K)).

(** ** The time slots ([build_times_list]) *)

(** The character of a decimal digit. *)
Definition digit_char (d : Z) : ascii := ascii_of_nat (48 + Z.to_nat d).

(** [%H]: the hour on two digits. *)
Definition strftime_H (h : Z) : string :=
  String (digit_char (h / 10)) (String (digit_char (h mod 10)) EmptyString).

Section Times.

(** The clock: [hour0] is the hour of [now_dt], [date_of i] the text
    [%Y-%m-%d] of [now_dt + timedelta(hours=i)].  The zone has a fixed
    offset, so the hour of the [i]-th slot is [hour0 + i] modulo 24. *)
Variable hour0 : Z.
Variable date_of : nat -> string.

(** [t.strftime("%Y-%m-%dT%H:00")] for [t = now_dt + timedelta(hours=i)] *)
Definition slot (i : nat) : string :=
  date_of i +:+ String "T" (strftime_H ((hour0 + Z.of_nat i) mod 24) +:+ ":00").

Definition build_times_list : list string := map slot (seq 0 24).

End Times.

(* ================================================================== *)
(** * Part II: properties                                              *)
(* ================================================================== *)

(** ** Order lemmas for the executable comparisons *)

Lemma leb_le (a b : Q) : Num.leb a b = true <-> (a <= b)%Q.
Proof. apply Qle_bool_iff. Qed.

Lemma ltb_lt (a b : Q) : Num.ltb a b = true <-> (a < b)%Q.
Proof.
  unfold Num.ltb. rewrite Qlt_alt. destruct (a ?= b)%Q; split; congruence.
Qed.

Lemma leb_gt (a b : Q) : Num.leb a b = false <-> (b < a)%Q.
Proof.
  rewrite <- not_true_iff_false, leb_le. split.
  - apply Qnot_le_lt.
  - apply Qlt_not_le.
Qed.

Lemma ltb_ge (a b : Q) : Num.ltb a b = false <-> (b <= a)%Q.
Proof.
  rewrite <- not_true_iff_false, ltb_lt. split.
  - apply Qnot_lt_le.
  - apply Qle_not_lt.
Qed.

(** Turns every comparison in sight into its proposition, by cases. *)
Ltac cmp_cases :=
  repeat match goal with
  | |- context [Num.leb ?a ?b] =>
      let E := fresh "E" in
      destruct (Num.leb a b) eqn:E;
      [apply leb_le in E | apply leb_gt in E]
  | |- context [Num.ltb ?a ?b] =>
      let E := fresh "E" in
      destruct (Num.ltb a b) eqn:E;
      [apply ltb_lt in E | apply ltb_ge in E]
  end.

Ltac cmp_solve :=
  cmp_cases; simpl; try reflexivity; try congruence;
  try (exfalso; lra); try lra.

(** ** Rain categories *)

Section RainCategory.
Local Open Scope Q_scope.

Lemma classify_rain_mm_cases (mm : PyArg) :
  let m := float_or_0 mm in
  (m <= 0.0001 /\ classify_rain_mm mm = NONE) \/
  (0.0001 < m < 1.0 /\ classify_rain_mm mm = GERIMIS) \/
  (1.0 <= m < 2.5 /\ classify_rain_mm mm = RINGAN) \/
  (2.5 <= m < 7.6 /\ classify_rain_mm mm = SEDANG) \/
  (7.6 <= m /\ classify_rain_mm mm = DERAS).
Proof.
  unfold classify_rain_mm. cbv zeta. generalize (float_or_0 mm). intros m.
  cmp_cases; intuition (auto; lra).
Qed.

(** C3, as the specification states it, fails on the boundary: the
    amount 0.0001 lies in the claimed GERIMIS range [0.0001, 1.0) but the
    classifier answers NONE, because its first test is [m <= 0.0001]. *)
Lemma classify_rain_mm_boundary_counterexample :
  (0.0001 <= 0.0001 < 1.0) /\
  classify_rain_mm (ANum 0.0001) = NONE /\
  classify_rain_mm (ANum 0.0001) <> GERIMIS.
Proof.
  split; [split; [apply Qle_refl | reflexivity] |].
  split; [reflexivity | discriminate].
Qed.

(** C3 (amended): for every amount [m] ([None] and unparsable values
    count as 0.0) [classify_rain_mm] returns NONE exactly when
    [m <= 0.0001], GERIMIS exactly when [0.0001 < m < 1.0], RINGAN exactly
    when [1.0 <= m < 2.5], SEDANG exactly when [2.5 <= m < 7.6] and DERAS
    exactly when [7.6 <= m]; it is a total function, and 0, 0.5, 1.5, 5.0
    and 10.0 map to NONE, GERIMIS, RINGAN, SEDANG and DERAS. *)
Theorem classify_rain_mm_thresholds (mm : PyArg) :
  let m := float_or_0 mm in
  (classify_rain_mm mm = NONE <-> m <= 0.0001) /\
  (classify_rain_mm mm = GERIMIS <-> 0.0001 < m < 1.0) /\
  (classify_rain_mm mm = RINGAN <-> 1.0 <= m < 2.5) /\
  (classify_rain_mm mm = SEDANG <-> 2.5 <= m < 7.6) /\
  (classify_rain_mm mm = DERAS <-> 7.6 <= m) /\
  float_or_0 ANone = 0 /\ (forall b, float_or_0 (AOther b) = 0) /\
  classify_rain_mm ANone = NONE /\
  (forall b, classify_rain_mm (AOther b) = NONE) /\
  classify_rain_mm (ANum 0) = NONE /\
  classify_rain_mm (ANum 0.5) = GERIMIS /\
  classify_rain_mm (ANum 1.5) = RINGAN /\
  classify_rain_mm (ANum 5.0) = SEDANG /\
  classify_rain_mm (ANum 10.0) = DERAS.
Proof.
  intros m.
  assert (H := classify_rain_mm_cases mm). fold m in H. cbv zeta in H.
  assert (Hcases :
    (classify_rain_mm mm = NONE <-> m <= 0.0001) /\
    (classify_rain_mm mm = GERIMIS <-> 0.0001 < m < 1.0) /\
    (classify_rain_mm mm = RINGAN <-> 1.0 <= m < 2.5) /\
    (classify_rain_mm mm = SEDANG <-> 2.5 <= m < 7.6) /\
    (classify_rain_mm mm = DERAS <-> 7.6 <= m)).
  { destruct H as [[Hm ->] | [[Hm ->] | [[Hm ->] | [[Hm ->] | [Hm ->]]]]];
      repeat split; intros; try discriminate; try reflexivity;
      try lra. }
  destruct Hcases as (H1 & H2 & H3 & H4 & H5).
  repeat (split; [assumption |]).
  repeat split; try reflexivity; intros []; reflexivity.
Qed.

End RainCategory.

(** ** Sky condition *)

Section SkyCondition.
Local Open Scope Q_scope.

Lemma sky_ref_cases (rainmm acc3 acc6 : Q) :
  (0.3 <= rainmm -> sky_ref rainmm acc3 acc6 = rainmm) /\
  (rainmm < 0.3 -> 0.3 <= acc3 -> sky_ref rainmm acc3 acc6 = acc3) /\
  (rainmm < 0.3 -> acc3 < 0.3 -> 0.6 <= acc6 ->
   sky_ref rainmm acc3 acc6 = acc6) /\
  (rainmm < 0.3 -> acc3 < 0.3 -> acc6 < 0.6 ->
   sky_ref rainmm acc3 acc6 == 0).
Proof.
  unfold sky_ref. cbv zeta. repeat split; intros; cmp_solve.
Qed.

Lemma sky_ref_positive (rainmm acc3 acc6 : Q) :
  0 < sky_ref rainmm acc3 acc6 -> 0.3 <= sky_ref rainmm acc3 acc6.
Proof.
  unfold sky_ref. cbv zeta. cmp_cases; intros; lra.
Qed.

(** C4: the reference rain value of the sky classifier is the
    current-hour rain if it is at least 0.3 mm, else the 3-hour
    accumulation if at least 0.3 mm, else the 6-hour accumulation if at
    least 0.6 mm, else 0; whenever it is positive the label is the
    HUJAN_ label of its rain category, whatever the probability, the UV
    index, the humidity and the hour are; and the three examples of the
    specification evaluate to HUJAN_SEDANG, HUJAN_POTENSIAL and CERAH. *)
Theorem classify_sky_reference_rain
        (prob rainmm acc3 acc6 hum uv : PyArg) (hour : option Z) :
  let r := float_or_0 (or_zero rainmm) in
  let a3 := float_or_0 (or_zero acc3) in
  let a6 := float_or_0 (or_zero acc6) in
  let ref := sky_ref r a3 a6 in
  (0.3 <= r -> ref = r) /\
  (r < 0.3 -> 0.3 <= a3 -> ref = a3) /\
  (r < 0.3 -> a3 < 0.3 -> 0.6 <= a6 -> ref = a6) /\
  (r < 0.3 -> a3 < 0.3 -> a6 < 0.6 -> ref == 0) /\
  (0 < ref ->
   Some (classify_sky prob rainmm acc3 acc6 hum uv hour)
   = hujan_of_cat (classify_rain_mm (ANum ref)) /\
   In (classify_sky prob rainmm acc3 acc6 hum uv hour)
      [HUJAN_GERIMIS; HUJAN_RINGAN; HUJAN_SEDANG; HUJAN_DERAS]) /\
  classify_sky (ANum 0) (ANum 5.0) (ANum 0) (ANum 0) (ANum 50) (ANum 0)
               (Some 12%Z) = HUJAN_SEDANG /\
  classify_sky (ANum 70) (ANum 0) (ANum 0) (ANum 0) (ANum 50) (ANum 0)
               (Some 12%Z) = HUJAN_POTENSIAL /\
  classify_sky (ANum 0) (ANum 0) (ANum 0) (ANum 0) (ANum 50) (ANum 8)
               (Some 12%Z) = CERAH.
Proof.
  intros r a3 a6 ref.
  destruct (sky_ref_cases r a3 a6) as (H1 & H2 & H3 & H4).
  repeat (split; [assumption |]).
  split; [| repeat split; reflexivity].
  intros Hpos. apply sky_ref_positive in Hpos. fold ref in Hpos.
  unfold classify_sky. cbv zeta. fold r a3 a6. fold ref.
  unfold classify_rain_mm, float_or_0, py_float. cbv zeta.
  clearbody ref. clear H1 H2 H3 H4.
  assert (Hgt : Num.ltb 0.0001 ref = true) by (apply ltb_lt; lra).
  rewrite Hgt.
  cmp_cases; simpl; try (exfalso; lra); split; auto 6.
Qed.

Lemma classify_sky_reference_rain_witness :
  Some (classify_sky (ANum 90) (ANum 0.1) (ANum 3) (ANum 3) (ANum 50)
                     (ANum 9) (Some 12%Z))
  = hujan_of_cat (classify_rain_mm (ANum 3)).
Proof.
  pose proof (classify_sky_reference_rain
                (ANum 90) (ANum 0.1) (ANum 3) (ANum 3) (ANum 50) (ANum 9)
                (Some 12%Z)) as H.
  cbv zeta in H. destruct H as (_ & H2 & _ & _ & H5 & _).
  assert (Hr : sky_ref (float_or_0 (or_zero (ANum 0.1)))
                       (float_or_0 (or_zero (ANum 3)))
                       (float_or_0 (or_zero (ANum 3))) = 3)
    by reflexivity.
  rewrite Hr in H5. apply H5. reflexivity.
Defined.

End SkyCondition.

(** ** The previous-temperature store *)

Section PrevTempStore.

Lemma append_cons (c : ascii) (a b : string) :
  String c a +:+ b = String c (a +:+ b).
Proof. reflexivity. Qed.

Lemma append_nil (b : string) : EmptyString +:+ b = b.
Proof. reflexivity. Qed.

Ltac str_simpl := rewrite ?append_cons, ?append_nil; simpl.

Lemma lstrip_length (s : string) :
  (String.length (PyStr.lstrip s) <= String.length s)%nat.
Proof.
  induction s as [| c s IH]; simpl; [lia |].
  destruct (PyStr.is_space c); simpl; lia.
Qed.

Lemma rstrip_length (s : string) :
  (String.length (PyStr.rstrip s) <= String.length s)%nat.
Proof.
  induction s as [| c s IH]; simpl; [lia |].
  destruct (PyStr.rstrip s); [destruct (PyStr.is_space c) |]; simpl in *; lia.
Qed.

Lemma clean_head (s : string) :
  clean s ->
  exists c s', s = String c s' /\ PyStr.is_space c = false.
Proof.
  intros [Hne Hs]. destruct s as [| c s']; [congruence |].
  exists c, s'. split; [reflexivity |].
  destruct (PyStr.is_space c) eqn:Hc; [exfalso | reflexivity].
  unfold PyStr.strip in Hs. simpl in Hs. rewrite Hc in Hs.
  pose proof (rstrip_length (PyStr.lstrip s')) as H1.
  pose proof (lstrip_length s') as H2.
  rewrite Hs in H1. simpl in H1. lia.
Qed.

Lemma clean_lstrip (s : string) : clean s -> PyStr.lstrip s = s.
Proof.
  intros H. destruct (clean_head s H) as (c & s' & -> & Hc).
  simpl. now rewrite Hc.
Qed.

Lemma clean_rstrip (s : string) : clean s -> PyStr.rstrip s = s.
Proof.
  intros H. pose proof (clean_lstrip s H) as Hl.
  destruct H as [_ Hs]. unfold PyStr.strip in Hs. now rewrite Hl in Hs.
Qed.

Lemma lstrip_app_clean (k x : string) :
  clean k -> PyStr.lstrip (k +:+ x) = k +:+ x.
Proof.
  intros H. destruct (clean_head k H) as (c & k' & -> & Hc).
  str_simpl. now rewrite Hc.
Qed.

Lemma append_nonempty_r (a b : string) :
  b <> EmptyString -> a +:+ b <> EmptyString.
Proof. destruct a; str_simpl; [auto | discriminate]. Qed.

Lemma rstrip_app_clean (a v : string) :
  clean v -> PyStr.rstrip (a +:+ v) = a +:+ v.
Proof.
  intros Hv. induction a as [| c a IH]; str_simpl.
  - now apply clean_rstrip.
  - rewrite IH. destruct (a +:+ v) eqn:E; [| reflexivity].
    exfalso. revert E. apply append_nonempty_r. apply Hv.
Qed.

Lemma rstrip_app_LF (x : string) :
  PyStr.rstrip (x +:+ String PyStr.LF EmptyString) = PyStr.rstrip x.
Proof.
  induction x as [| c x IH]; str_simpl; [reflexivity |]. now rewrite IH.
Qed.

Lemma append_assoc (a b c : string) : (a +:+ b) +:+ c = a +:+ (b +:+ c).
Proof.
  induction a as [| x a IH]; str_simpl; [reflexivity | now rewrite IH].
Qed.

Lemma strip_line (k v : string) :
  clean k -> clean v ->
  PyStr.strip (k +:+ "|" +:+ v +:+ String PyStr.LF EmptyString)
  = k +:+ "|" +:+ v.
Proof.
  intros Hk Hv. unfold PyStr.strip. rewrite lstrip_app_clean by assumption.
  replace (k +:+ "|" +:+ v +:+ String PyStr.LF EmptyString)
    with ((k +:+ "|" +:+ v) +:+ String PyStr.LF EmptyString)
    by (rewrite !append_assoc; reflexivity).
  rewrite rstrip_app_LF.
  replace (k +:+ "|" +:+ v) with ((k +:+ "|") +:+ v)
    by (rewrite !append_assoc; reflexivity).
  now apply rstrip_app_clean.
Qed.

Lemma split_once_app (sep : ascii) (k v : string) :
  has_char sep k = false ->
  PyStr.split_once sep (k +:+ String sep v) = Some (k, v).
Proof.
  induction k as [| c k IH]; str_simpl; intros H.
  - now rewrite Ascii.eqb_refl.
  - apply orb_false_iff in H as [Hc Hk]. rewrite Hc, (IH Hk). reflexivity.
Qed.

Lemma is_empty_false (s : string) :
  s <> EmptyString -> PyStr.is_empty s = false.
Proof. destruct s; [congruence | reflexivity]. Qed.

Lemma load_line_entry (data : Dict.t) (k v : string) :
  clean k -> clean v -> has_char "|"%char k = false ->
  load_line data (k +:+ "|" +:+ v +:+ String PyStr.LF EmptyString)
  = Dict.set k v data.
Proof.
  intros Hk Hv Hbar. unfold load_line. cbv zeta.
  rewrite strip_line by assumption.
  rewrite is_empty_false by (apply append_nonempty_r; discriminate).
  change (k +:+ "|" +:+ v) with (k +:+ String "|"%char v).
  rewrite split_once_app by assumption.
  destruct Hk as [Hk1 Hk2], Hv as [Hv1 Hv2]. rewrite Hk2, Hv2.
  now rewrite !is_empty_false by assumption.
Qed.

Lemma has_char_app (c : ascii) (a b : string) :
  has_char c (a +:+ b) = has_char c a || has_char c b.
Proof.
  induction a as [| x a IH]; str_simpl; [reflexivity |].
  now rewrite IH, orb_assoc.
Qed.

Lemma file_lines_line (l rest : string) :
  one_line l ->
  PyStr.file_lines ((l +:+ String PyStr.LF EmptyString) +:+ rest)
  = (l +:+ String PyStr.LF EmptyString) :: PyStr.file_lines rest.
Proof.
  intros [Hlf Hcr]. induction l as [| c l IH]; str_simpl.
  - reflexivity.
  - simpl in Hlf, Hcr.
    apply orb_false_iff in Hlf as [Hc1 Hl1].
    apply orb_false_iff in Hcr as [Hc2 Hl2].
    rewrite Hc1, Hc2, (IH Hl1 Hl2). reflexivity.
Qed.

Lemma one_line_entry (k v : string) :
  one_line k -> one_line v -> one_line (k +:+ "|" +:+ v).
Proof.
  intros [H1 H2] [H3 H4]. split; rewrite !has_char_app.
  - now rewrite H1, H3.
  - now rewrite H2, H4.
Qed.

Lemma file_lines_store_text (store : Dict.t) :
  Forall storable store ->
  PyStr.file_lines (store_text store)
  = map (fun kv => fst kv +:+ "|" +:+ snd kv +:+ String PyStr.LF EmptyString)
        store.
Proof.
  induction 1 as [| [k v] store Hkv _ IH]; simpl; [reflexivity |].
  destruct Hkv as (_ & _ & Hk & Hv & _). simpl in Hk, Hv.
  replace (k +:+ "|" +:+ v +:+ String PyStr.LF EmptyString)
    with ((k +:+ "|" +:+ v) +:+ String PyStr.LF EmptyString)
    by (rewrite !append_assoc; reflexivity).
  rewrite file_lines_line by now apply one_line_entry.
  now rewrite IH.
Qed.

Lemma dict_set_fresh (k v : string) (d : Dict.t) :
  k ∉ Dict.keys d -> Dict.set k v d = d ++ [(k, v)].
Proof.
  induction d as [| [k' v'] d IH]; simpl; intros H; [reflexivity |].
  apply not_elem_of_cons in H as [Hne Hd].
  destruct (String.eqb k k') eqn:E.
  - apply String.eqb_eq in E. congruence.
  - now rewrite IH.
Qed.

Lemma load_lines_fresh (store acc : Dict.t) :
  Forall storable store ->
  NoDup (Dict.keys (acc ++ store)) ->
  fold_left load_line
    (map (fun kv => fst kv +:+ "|" +:+ snd kv +:+ String PyStr.LF EmptyString)
         store) acc
  = acc ++ store.
Proof.
  intros Hst. revert acc.
  induction Hst as [| [k v] store Hkv _ IH]; intros acc Hnd; simpl.
  - now rewrite app_nil_r.
  - destruct Hkv as (Hk & Hv & _ & _ & Hbar). simpl in Hk, Hv, Hbar.
    rewrite load_line_entry by assumption.
    rewrite dict_set_fresh.
    + rewrite IH; [now rewrite <- app_assoc |].
      now rewrite <- app_assoc.
    + unfold Dict.keys in *. rewrite map_app in Hnd. simpl in Hnd.
      apply NoDup_app in Hnd as (_ & Hdisj & _).
      intros Hin. apply (Hdisj k Hin). now left.
Qed.

(** C9, as the specification states it, fails: a value may hold a line
    break inside (it is then non-empty and has no leading or trailing
    whitespace, and its key has no bar and no newline), and the line-wise
    reader cuts it there. *)
Lemma prev_temp_roundtrip_counterexample :
  let v := "1" +:+ String PyStr.LF "2" in
  let store := [("a", v)] in
  has_char "|"%char "a" = false /\ has_char PyStr.LF "a" = false /\
  clean "a" /\ clean v /\
  NoDup (Dict.keys store) /\
  load_prev_temp_file (save_prev_temp_file store None) = [("a", "1")] /\
  Dict.get "a" (load_prev_temp_file (save_prev_temp_file store None))
  <> Dict.get "a" store.
Proof.
  cbv zeta.
  split; [reflexivity |]. split; [reflexivity |].
  split; [split; [discriminate | reflexivity] |].
  split; [split; [discriminate | reflexivity] |].
  split; [apply (bool_decide_unpack _); reflexivity |].
  split; [reflexivity | vm_compute; discriminate].
Qed.

(** C9 (amended): for every previous-temperature dictionary (distinct
    keys) whose keys contain no bar, whose keys and values contain no line
    break (LF or CR), and whose keys and values are non-empty and free of
    leading and trailing whitespace, saving it and loading the file again
    gives back the same dictionary, with the same keys, values and
    order. *)
Theorem prev_temp_roundtrip (store : Dict.t) (fs : FileState) :
  NoDup (Dict.keys store) ->
  Forall storable store ->
  load_prev_temp_file (save_prev_temp_file store fs) = store.
Proof.
  intros Hnd Hst. unfold save_prev_temp_file, load_prev_temp_file.
  rewrite file_lines_store_text by assumption.
  now rewrite load_lines_fresh.
Qed.

Lemma prev_temp_roundtrip_witness :
  load_prev_temp_file
    (save_prev_temp_file
       [("Jakarta", "30.1"); ("-6.1754,106.8272", "30.1")] None)
  = [("Jakarta", "30.1"); ("-6.1754,106.8272", "30.1")].
Proof.
  apply prev_temp_roundtrip.
  - apply (bool_decide_unpack _). reflexivity.
  - repeat constructor; simpl; try discriminate; reflexivity.
Defined.

End PrevTempStore.

(** ** The score and the status chain *)

Section StatusChain.

Variable py_str : Q -> string.
Variable float_of_str : string -> option Q.
Variable fmt4 : Q -> string.

Local Abbreviation body := (hour_body py_str float_of_str fmt4).

Lemma status_le_refl (s : Status) : status_le s s.
Proof. unfold status_le. lia. Qed.

Lemma status_le_trans (a b c : Status) :
  status_le a b -> status_le b c -> status_le a c.
Proof. unfold status_le. lia. Qed.

Lemma status_le_Rawan (s : Status) : status_le s Rawan.
Proof. destruct s; unfold status_le; simpl; lia. Qed.

Lemma status_le_Waspada (s : Status) :
  is_Rawan s = false -> status_le s Waspada.
Proof. destruct s; unfold status_le; simpl; (discriminate || lia). Qed.

Create HintDb status.
#[local] Hint Resolve status_le_refl status_le_Rawan status_le_Waspada
  : status.

Lemma rule_bmkg_raises (alert : bool) (sr : Status * list string) :
  status_le (fst sr) (fst (rule_bmkg alert sr)).
Proof. unfold rule_bmkg. destruct alert; simpl; auto with status. Qed.

Lemma rule_rain_raises (RAINMM : Q) (sr : Status * list string) :
  status_le (fst sr) (fst (rule_rain RAINMM sr)).
Proof.
  unfold rule_rain. destruct (is_Rawan (fst sr)) eqn:E; simpl;
    repeat match goal with |- context [if ?c then _ else _] => destruct c end;
    simpl; auto with status.
Qed.

Lemma rule_acc_raises (acc3 acc6 : Q) (sr : Status * list string) :
  status_le (fst sr) (fst (rule_acc acc3 acc6 sr)).
Proof.
  unfold rule_acc. destruct (is_Rawan (fst sr)) eqn:E; simpl;
    repeat match goal with |- context [if ?c then _ else _] => destruct c end;
    simpl; auto with status.
Qed.

Lemma rule_wind_raises (ANGIN : Q) (sr : Status * list string) :
  status_le (fst sr) (fst (rule_wind ANGIN sr)).
Proof.
  unfold rule_wind. destruct (is_Rawan (fst sr)) eqn:E; simpl;
    repeat match goal with |- context [if ?c then _ else _] => destruct c end;
    simpl; auto with status.
Qed.

Lemma rule_gust_raises (WINDGUST : Q) (sr : Status * list string) :
  status_le (fst sr) (fst (rule_gust WINDGUST sr)).
Proof.
  unfold rule_gust. destruct (is_Rawan (fst sr)) eqn:E; simpl;
    repeat match goal with |- context [if ?c then _ else _] => destruct c end;
    simpl; auto with status.
Qed.

Lemma resolve_status_raises (score : Z) (alert : bool)
      (RAINMM acc3 acc6 ANGIN WINDGUST : Q) (REASONS : list string) :
  status_le (initial_status score)
            (fst (resolve_status score alert RAINMM acc3 acc6 ANGIN WINDGUST
                                 REASONS)).
Proof.
  unfold resolve_status.
  eapply status_le_trans; [| apply rule_gust_raises].
  eapply status_le_trans; [| apply rule_wind_raises].
  eapply status_le_trans; [| apply rule_acc_raises].
  eapply status_le_trans; [| apply rule_rain_raises].
  apply (rule_bmkg_raises alert (initial_status score, REASONS)).
Qed.

Lemma rule_gust_keeps_Rawan (WINDGUST : Q) (sr : Status * list string) :
  fst sr = Rawan -> fst (rule_gust WINDGUST sr) = Rawan.
Proof.
  intros H. pose proof (rule_gust_raises WINDGUST sr) as Hle.
  rewrite H in Hle. unfold status_le in Hle.
  destruct (fst (rule_gust WINDGUST sr)); simpl in Hle; (lia || reflexivity).
Qed.

Lemma wind_danger_Rawan (score : Z) (alert : bool)
      (RAINMM acc3 acc6 ANGIN WINDGUST : Q) (REASONS : list string) :
  (WIND_DANGER <= ANGIN)%Q ->
  fst (resolve_status score alert RAINMM acc3 acc6 ANGIN WINDGUST REASONS)
  = Rawan.
Proof.
  intros H. unfold resolve_status. apply rule_gust_keeps_Rawan.
  unfold rule_wind. apply leb_le in H. now rewrite H.
Qed.

(** The status does not depend on the reasons carried along. *)
Lemma resolve_status_reasons (score : Z) (alert : bool)
      (RAINMM acc3 acc6 ANGIN WINDGUST : Q) (R R' : list string) :
  fst (resolve_status score alert RAINMM acc3 acc6 ANGIN WINDGUST R)
  = fst (resolve_status score alert RAINMM acc3 acc6 ANGIN WINDGUST R').
Proof.
  unfold resolve_status, rule_gust, rule_wind, rule_acc, rule_rain, rule_bmkg.
  destruct alert, (initial_status score); simpl;
    repeat match goal with
           | |- context [Num.leb ?a ?b] => destruct (Num.leb a b); simpl
           end; reflexivity.
Qed.

Lemma initial_status_cases (score : Z) :
  (initial_status score = Rawan <-> 7 <= score)%Z /\
  (initial_status score = Waspada <-> 4 <= score < 7)%Z /\
  (initial_status score = Aman <-> score < 4)%Z.
Proof.
  unfold initial_status.
  destruct (7 <=? score)%Z eqn:E7; destruct (4 <=? score)%Z eqn:E4;
    repeat split; intros; try discriminate; try reflexivity; try lia.
Qed.

Lemma PREV_TEMP_file_rain_cat (c : RainCat) (K TIME : string) (st : State) :
  PREV_TEMP (file_rain_cat c K TIME st) = PREV_TEMP st.
Proof. destruct c; reflexivity. Qed.

(** The status column of the row is the result of the chain on the
    values of the hour. *)
Lemma hour_body_STATUS (loc : Location) (LAT LON : Q) (D : Hourly)
      (TIME : string) (idx : nat) (HOUR : Z) (st : State) :
  let row := snd (body loc LAT LON D TIME idx HOUR st) in
  row_STATUS row
  = fst (resolve_status (row_score row) (bmkg_alert (BMK_SUM loc))
           (nth idx (precipitation D) 0.0%Q) (row_acc3 row) (row_acc6 row)
           (nth idx (windspeed_10m D) 0.0%Q)
           (nth idx (windgusts_10m D) 0.0%Q) []).
Proof.
  unfold hour_body. cbv zeta.
  cbn [snd fst row_STATUS row_score row_acc3 row_acc6].
  match goal with
  | |- fst (if ?c then _ else _) = _ => destruct c
  end; cbn [fst]; apply resolve_status_reasons.
Qed.

Lemma bump_eq (c : bool) (pts : Z) (tok : string) (sr : Z * list string) :
  bump c pts tok sr
  = ((fst sr + (if c then pts else 0))%Z, snd sr ++ (if c then [tok] else [])).
Proof.
  unfold bump. destruct c, sr; simpl; [reflexivity |].
  now rewrite Z.add_0_r, app_nil_r.
Qed.

(** The score function of the source against the table of the
    specification. *)
Lemma risk_score_table (LEMBAP SUHU : Q) (prior : option Q)
      (ANGIN WINDGUST : Q) (HOUR : Z) (UV HUJAN_PROB RAINMM : Q)
      (R : list string) :
  let tbl := spec_score_table LEMBAP SUHU prior ANGIN WINDGUST HOUR UV
                              HUJAN_PROB RAINMM in
  risk_score LEMBAP SUHU prior ANGIN WINDGUST HOUR UV HUJAN_PROB RAINMM R
  = (table_points tbl, R ++ table_tokens tbl).
Proof.
  unfold risk_score, spec_score_table, table_points, table_tokens.
  unfold SCORE_HUMID_TH, SCORE_TEMP_LOW, SCORE_TEMP_HIGH, SCORE_TEMP_DROP,
    SCORE_WIND_MIN, SCORE_WIND_MAX, SCORE_GUST_TH, SCORE_UV_TH.
  cbv zeta. cbn [fold_right flat_map fst snd].
  destruct prior as [prev |];
    destruct ((8 <=? HOUR)%Z && (HOUR <=? 16)%Z);
    destruct (Num.leb 70 HUJAN_PROB); destruct (Num.leb 1.0 RAINMM);
    rewrite ?bump_eq; cbn [fst snd negb andb app];
    (f_equal; [lia | rewrite <- ?app_assoc, ?app_nil_r; reflexivity]).
Qed.

Lemma hour_body_score (loc : Location) (LAT LON : Q) (D : Hourly)
      (TIME : string) (idx : nat) (HOUR : Z) (st : State) (R : list string) :
  row_score (snd (body loc LAT LON D TIME idx HOUR st))
  = fst (risk_score
           (nth idx (relative_humidity_2m D) 0.0%Q)
           (nth idx (temperature_2m D) 0.0%Q)
           (prior_temp float_of_str
              (lookup_prev_temp_for fmt4 (K loc) LAT LON (PREV_TEMP st)))
           (nth idx (windspeed_10m D) 0.0%Q)
           (nth idx (windgusts_10m D) 0.0%Q) HOUR
           (nth idx (uv_index D) 0.0%Q)
           (nth idx (precipitation_probability D) 0.0%Q)
           (nth idx (precipitation D) 0.0%Q) R).
Proof.
  unfold hour_body. cbv zeta. cbn [snd row_score].
  unfold sky_count_incr, with_SKY_COUNT. cbn [PREV_TEMP].
  rewrite PREV_TEMP_file_rain_cat.
  now rewrite !risk_score_table.
Qed.

(** C1: for every hour the final status is at least the status the score
    gives (7 and more: Rawan, 4 and more: Waspada, else Aman) in the order
    Aman < Waspada < Rawan; the final status is the result of the
    advisory, rain, accumulation, wind and gust rules applied in this
    order, none of which lowers the status; and a sustained wind of 26
    km/h gives Rawan, also with score 0. *)
Theorem status_only_raised (loc : Location) (LAT LON : Q) (D : Hourly)
        (TIME : string) (idx : nat) (HOUR : Z) (st : State) :
  let row := snd (body loc LAT LON D TIME idx HOUR st) in
  let score := row_score row in
  let alert := bmkg_alert (BMK_SUM loc) in
  let RAINMM := nth idx (precipitation D) 0.0%Q in
  let ANGIN := nth idx (windspeed_10m D) 0.0%Q in
  let WINDGUST := nth idx (windgusts_10m D) 0.0%Q in
  ((initial_status score = Rawan <-> 7 <= score)%Z /\
   (initial_status score = Waspada <-> 4 <= score < 7)%Z /\
   (initial_status score = Aman <-> score < 4)%Z) /\
  ((forall sr, status_le (fst sr) (fst (rule_bmkg alert sr))) /\
   (forall sr, status_le (fst sr) (fst (rule_rain RAINMM sr))) /\
   (forall sr, status_le (fst sr)
                 (fst (rule_acc (row_acc3 row) (row_acc6 row) sr))) /\
   (forall sr, status_le (fst sr) (fst (rule_wind ANGIN sr))) /\
   (forall sr, status_le (fst sr) (fst (rule_gust WINDGUST sr)))) /\
  row_STATUS row
  = fst (rule_gust WINDGUST
           (rule_wind ANGIN
              (rule_acc (row_acc3 row) (row_acc6 row)
                 (rule_rain RAINMM
                    (rule_bmkg alert (initial_status score, [])))))) /\
  status_le (initial_status score) (row_STATUS row) /\
  ((ANGIN == 26)%Q -> row_STATUS row = Rawan) /\
  (forall alert' RAINMM' acc3' acc6' WINDGUST' R,
      fst (resolve_status 0 alert' RAINMM' acc3' acc6' 26 WINDGUST' R)
      = Rawan).
Proof.
  intros row score alert RAINMM ANGIN WINDGUST.
  pose proof (hour_body_STATUS loc LAT LON D TIME idx HOUR st) as HS.
  cbv zeta in HS. fold row in HS. fold score alert RAINMM ANGIN WINDGUST in HS.
  split; [apply initial_status_cases |].
  split.
  { repeat split; intros sr.
    - apply rule_bmkg_raises.
    - apply rule_rain_raises.
    - apply rule_acc_raises.
    - apply rule_wind_raises.
    - apply rule_gust_raises. }
  split; [exact HS |].
  split; [rewrite HS; apply resolve_status_raises |].
  split.
  - intros Hw. rewrite HS. apply wind_danger_Rawan.
    rewrite Hw. unfold WIND_DANGER. lra.
  - intros. apply wind_danger_Rawan. unfold WIND_DANGER. lra.
Qed.

(** C2: for every hourly sample the score starts at 0 and adds, in this
    order, 2 if the humidity is above 80, 1 if the temperature is in
    [27,34], 2 if a prior temperature exists and the difference of the
    two temperatures, taken as floats and subtracted as floats, is 2.0 or
    more, 1 if the wind is in [10,25], 1 if the gust is above 25, 2 if the
    hour is in [8,16] and the UV index is 7 or more, 2 if the probability
    is 70 or more and else 1 if it is 50 or more, 3 if the rain is 1.0 mm or
    more and else 1 if it is 0.3 mm or more, each with its reason token;
    and humidity 85, temperature 30, wind 20, gust 10, UV 3, hour 10,
    probability 40, rain 0 and no prior temperature give the score 4,
    the initial status Waspada and the final status Waspada. *)
Theorem risk_score_contributions (loc : Location) (LAT LON : Q) (D : Hourly)
        (TIME : string) (idx : nat) (HOUR : Z) (st : State) :
  let row := snd (body loc LAT LON D TIME idx HOUR st) in
  let prior :=
    prior_temp float_of_str
      (lookup_prev_temp_for fmt4 (K loc) LAT LON (PREV_TEMP st)) in
  let tbl :=
    spec_score_table
      (nth idx (relative_humidity_2m D) 0.0%Q)
      (nth idx (temperature_2m D) 0.0%Q) prior
      (nth idx (windspeed_10m D) 0.0%Q)
      (nth idx (windgusts_10m D) 0.0%Q) HOUR
      (nth idx (uv_index D) 0.0%Q)
      (nth idx (precipitation_probability D) 0.0%Q)
      (nth idx (precipitation D) 0.0%Q) in
  row_score row = table_points tbl /\
  (forall R,
      risk_score
        (nth idx (relative_humidity_2m D) 0.0%Q)
        (nth idx (temperature_2m D) 0.0%Q) prior
        (nth idx (windspeed_10m D) 0.0%Q)
        (nth idx (windgusts_10m D) 0.0%Q) HOUR
        (nth idx (uv_index D) 0.0%Q)
        (nth idx (precipitation_probability D) 0.0%Q)
        (nth idx (precipitation D) 0.0%Q) R
      = (table_points tbl, R ++ table_tokens tbl)) /\
  (forall R,
      risk_score 85 30 None 20 10 10 3 40 0 R
      = (4%Z, R ++ ["humid"; "temp_ok"; "wind_ok"])) /\
  initial_status 4 = Waspada /\
  (forall acc3 acc6 R,
      fst (resolve_status 4 false 0 acc3 acc6 20 10 R) = Waspada).
Proof.
  intros row prior tbl. split; [| split; [| split; [| split]]].
  - unfold row. rewrite (hour_body_score _ _ _ _ _ _ _ _ []).
    fold prior. now rewrite risk_score_table.
  - intros R. apply risk_score_table.
  - intros R. now rewrite risk_score_table.
  - reflexivity.
  - intros acc3 acc6 R. unfold resolve_status.
    unfold rule_gust, rule_wind, rule_acc, rule_rain, rule_bmkg.
    cbn [initial_status fst snd is_Rawan negb Z.leb].
    change (initial_status 4) with Waspada. cbn [fst snd is_Rawan negb].
    change (Num.leb RAWAN_RAIN_MM 0) with false.
    change (Num.leb WASP_RAIN_MM 0) with false.
    change (Num.leb WIND_DANGER 20) with false.
    change (Num.leb WIND_WARN 20) with true.
    change (Num.leb GUST_DANGER 10) with false.
    change (Num.leb GUST_WARN 10) with false.
    cbn [andb fst snd is_Rawan negb].
    destruct (Num.leb ACC3_RAWAN_MM acc3 || Num.leb ACC6_RAWAN_MM acc6);
      reflexivity.
Qed.

End StatusChain.

(** The previous temperature 32.3 and the temperature 30.3 are 2.0 apart,
    but the floats they are read as are 1.9999999999999964 apart: no
    [temp_drop] is scored, and the hour has the score 1 of [temp_ok]
    alone. *)
Lemma temp_drop_counterexample :
  let prior := 32.3%Q in
  let SUHU := 30.3%Q in
  (prior - SUHU == 2.0)%Q /\
  (F64.sub (F64.round prior) (F64.round SUHU)
   == 562949953421311 # 281474976710656)%Q /\
  risk_score 0 SUHU (Some prior) 0 0 0 0 0 0 [] = (1%Z, ["temp_ok"]).
Proof.
  cbv zeta. split; [reflexivity |]. split; vm_compute; reflexivity.
Qed.

(** A calm, dry hour whose only feature is a sustained wind of 26 km/h:
    the score is 0 and the status is Rawan. *)
Lemma status_only_raised_witness :
  let D := mkHourly ["2025-01-01T05:00"] [20%Q] [0%Q] [0%Q] [50%Q] [26%Q]
                    [0%Q] [0%Q] [0%Q] in
  let loc := mkLocation "Depok" (Some 0%Q) (Some 0%Q) (Some D) false [] "" in
  let row :=
    snd (hour_body (fun _ => EmptyString) (fun _ => None)
                   (fun _ => EmptyString) loc 0%Q 0%Q D "2025-01-01T05:00"
                   0%nat 5%Z (initial_state ["2025-01-01T05:00"] [])) in
  row_score row = 0%Z /\ row_STATUS row = Rawan.
Proof.
  cbv zeta. split; [reflexivity |].
  refine (proj1 (proj2 (proj2 (proj2 (proj2
            (status_only_raised _ _ _ _ _ _ _ _ _ _ _))))) _).
  vm_compute. reflexivity.
Defined.

(** ** Binary64 arithmetic: the error of a rounding and of the square
    root *)

Lemma pow2_pos (e : Z) : (0 < F64.pow2 e)%Q.
Proof. unfold F64.pow2. apply Qpower_0_lt. reflexivity. Qed.

Lemma pow2_add (a b : Z) : (F64.pow2 (a + b) == F64.pow2 a * F64.pow2 b)%Q.
Proof. unfold F64.pow2. apply Qpower_plus. discriminate. Qed.

Lemma pow2_Z (e : Z) : (0 <= e)%Z -> (F64.pow2 e == inject_Z (2 ^ e))%Q.
Proof.
  intros H. unfold F64.pow2. rewrite Zpower_Qpower by exact H. reflexivity.
Qed.

Lemma pow2_le (a b : Z) : (a <= b)%Z -> (F64.pow2 a <= F64.pow2 b)%Q.
Proof.
  intros H. replace b with (a + (b - a))%Z by lia. rewrite pow2_add.
  assert (H1 : (1 <= F64.pow2 (b - a))%Q).
  { rewrite pow2_Z by lia. change 1%Q with (inject_Z 1). rewrite <- Zle_Qle.
    assert (0 < 2 ^ (b - a))%Z by (apply Z.pow_pos_nonneg; lia). lia. }
  pose proof (pow2_pos a). nra.
Qed.

Lemma nearest_even_err (x : Q) :
  (Qabs (inject_Z (F64.nearest_even x) - x) <= 1 # 2)%Q.
Proof.
  unfold F64.nearest_even. cbv zeta.
  pose proof (Qfloor_le x) as H1. pose proof (Qlt_floor x) as H2.
  rewrite inject_Z_plus in H2. change (inject_Z 1) with 1%Q in H2.
  apply Qabs_Qle_condition.
  destruct (x - inject_Z (Qfloor x) ?= 1 # 2)%Q eqn:E.
  - apply Qeq_alt in E.
    destruct (Z.even (Qfloor x)); rewrite ?inject_Z_plus;
      change (inject_Z 1) with 1%Q; split; lra.
  - apply Qlt_alt in E. split; lra.
  - apply Qgt_alt in E. rewrite inject_Z_plus. change (inject_Z 1) with 1%Q.
    split; lra.
Qed.

Lemma log2_bounds (n : Z) :
  (0 < n)%Z ->
  (F64.pow2 (Z.log2 n) <= inject_Z n)%Q /\
  (inject_Z n < F64.pow2 (Z.log2 n + 1))%Q.
Proof.
  intros Hn. destruct (Z.log2_spec n Hn) as [H1 H2].
  pose proof (Z.log2_nonneg n).
  rewrite !pow2_Z by lia. rewrite <- Zle_Qle, <- Zlt_Qlt.
  split; [exact H1 | ]. replace (Z.log2 n + 1)%Z with (Z.succ (Z.log2 n)) by lia.
  exact H2.
Qed.

(** A positive rational lies at or above [2^(log2 num - log2 den - 1)]. *)
Lemma Q_lower (a : Q) :
  (0 < a)%Q ->
  (F64.pow2 (Z.log2 (Qnum a) - Z.log2 (Zpos (Qden a)) - 1) <= a)%Q.
Proof.
  intros Ha. destruct a as [n d]. cbn [Qnum Qden].
  assert (Hn : (0 < n)%Z).
  { unfold Qlt in Ha. simpl in Ha. lia. }
  destruct (log2_bounds n Hn) as [Hn1 _].
  destruct (log2_bounds (Zpos d) eq_refl) as [_ Hd2].
  set (ln := Z.log2 n) in *. set (ld := Z.log2 (Z.pos d)) in *.
  assert (E : (F64.pow2 ln == F64.pow2 (ln - ld - 1) * F64.pow2 (ld + 1))%Q).
  { rewrite <- pow2_add. now replace (ln - ld - 1 + (ld + 1))%Z with ln by lia. }
  pose proof (pow2_pos (ln - ld - 1)) as Hp.
  rewrite (Qmake_Qdiv n d).
  apply Qle_shift_div_l; [reflexivity |].
  rewrite E in Hn1. nra.
Qed.

Lemma exponent_scale (a : Q) :
  (0 < a)%Q ->
  (F64.pow2 (F64.exponent a) * F64.pow2 52 <= a)%Q
  \/ F64.exponent a = (-1074)%Z.
Proof.
  intros Ha. unfold F64.exponent. cbv zeta.
  set (e0 := (Z.log2 (Qnum a) - Z.log2 (Z.pos (Qden a)) - 52)%Z).
  set (e := if Qle_bool _ _ then e0 else (e0 - 1)%Z).
  assert (He : (F64.pow2 e * F64.pow2 52 <= a)%Q).
  { unfold e. destruct (Qle_bool _ _) eqn:E.
    - apply Qle_bool_iff in E. pose proof (pow2_pos e0) as Hp.
      apply (Qmult_le_r _ _ _ Hp) in E.
      assert (E2 : (a / F64.pow2 e0 * F64.pow2 e0 == a)%Q).
      { field. intros H0. rewrite H0 in Hp. now apply Qlt_irrefl in Hp. }
      rewrite E2 in E. lra.
    - rewrite <- pow2_add.
      replace (e0 - 1 + 52)%Z
        with (Z.log2 (Qnum a) - Z.log2 (Z.pos (Qden a)) - 1)%Z
        by (unfold e0; lia).
      now apply Q_lower. }
  destruct (Z.max_spec e (-1074)) as [[_ ->] | [_ ->]];
    [now right | now left].
Qed.

(** Rounding moves a number by half a unit of its last place at most. *)
Lemma round_pos_err (a : Q) :
  (0 < a)%Q ->
  (Qabs (F64.round_pos a - a) <= a * F64.pow2 (-53) + F64.pow2 (-1075))%Q.
Proof.
  intros Ha. unfold F64.round_pos. cbv zeta. rewrite Qred_correct.
  set (e := F64.exponent a).
  pose proof (pow2_pos e) as Hp.
  pose proof (nearest_even_err (a / F64.pow2 e)) as Hn.
  set (m := inject_Z (F64.nearest_even (a / F64.pow2 e))) in *.
  assert (E : (m * F64.pow2 e - a == (m - a / F64.pow2 e) * F64.pow2 e)%Q).
  { field. intros H0. rewrite H0 in Hp. now apply Qlt_irrefl in Hp. }
  rewrite E, Qabs_Qmult.
  rewrite (Qabs_pos (F64.pow2 e)) by (apply Qlt_le_weak, Hp).
  assert (Hhalf : (Qabs (m - a / F64.pow2 e) * F64.pow2 e
                   <= F64.pow2 e * (1 # 2))%Q).
  { pose proof (Qabs_nonneg (m - a / F64.pow2 e)). nra. }
  assert (E1 : (F64.pow2 e * (1 # 2) == F64.pow2 (e - 1))%Q).
  { replace (e - 1)%Z with (e + -1)%Z by lia. rewrite pow2_add. reflexivity. }
  rewrite E1 in Hhalf.
  pose proof (pow2_pos (-1075)) as H1075.
  pose proof (pow2_pos (-53)) as H53.
  destruct (exponent_scale a Ha) as [Hs | Hs]; fold e in Hs.
  - assert (E2 : (F64.pow2 (e - 1)
                  == F64.pow2 e * F64.pow2 52 * F64.pow2 (-53))%Q).
    { rewrite <- !pow2_add. now replace (e + 52 + -53)%Z with (e - 1)%Z by lia. }
    rewrite E2 in Hhalf. nra.
  - rewrite Hs in Hhalf |- *.
    change (-1074 - 1)%Z with (-1075)%Z in Hhalf. nra.
Qed.

Lemma round_err (x : Q) :
  (0 <= x)%Q ->
  (Qabs (F64.round x - x) <= x * F64.pow2 (-53) + F64.pow2 (-1075))%Q.
Proof.
  intros Hx. unfold F64.round.
  destruct (x ?= 0)%Q eqn:E.
  - apply Qeq_alt in E. rewrite E. vm_compute. discriminate.
  - apply Qlt_alt in E. lra.
  - apply Qgt_alt in E. now apply round_pos_err.
Qed.

Lemma lor_bit (a : Z) (b : bool) :
  (a <= Z.lor a (if b then 0 else 1) <= a + 1)%Z.
Proof.
  destruct b; [rewrite Z.lor_0_r; lia |].
  pose proof (Z.add_lor_land a 1) as H.
  change 1%Z with (Z.ones 1) in H at 2. rewrite Z.land_ones in H by lia.
  change (2 ^ 1)%Z with 2%Z in H.
  pose proof (Z.mod_pos_bound a 2). lia.
Qed.

(** The integer square root, rounded to odd, is within one of the root. *)
Lemma rto_bounds (N M : Z) :
  (0 <= N)%Z -> (0 < M)%Z ->
  let a := Z.sqrt (N / M) in
  (a <= F64.integer_sqrt_of_frac_rto N M <= a + 1)%Z /\
  (a * a * M <= N)%Z /\ (N < (a + 1) * (a + 1) * M)%Z.
Proof.
  intros HN HM a. unfold F64.integer_sqrt_of_frac_rto. cbv zeta. fold a.
  split; [apply lor_bit |].
  assert (Hd : (0 <= N / M)%Z) by (apply Z.div_pos; lia).
  destruct (Z.sqrt_spec (N / M) Hd) as [H1 H2]. fold a in H1, H2.
  pose proof (Z.mul_div_le N M HM) as H3.
  pose proof (Z.mul_succ_div_gt N M HM) as H4.
  split; nia.
Qed.

Lemma shiftl_inject (r q : Z) :
  (0 <= q)%Z -> (inject_Z (Z.shiftl r q) == inject_Z r * F64.pow2 q)%Q.
Proof.
  intros Hq. rewrite Z.shiftl_mul_pow2 by exact Hq.
  rewrite inject_Z_mult, pow2_Z by exact Hq. reflexivity.
Qed.

Lemma pow2_neg (q : Z) : (F64.pow2 (- q) == / F64.pow2 q)%Q.
Proof. unfold F64.pow2. apply Qpower_opp. Qed.

Lemma pow2_nonzero (q : Z) : ~ (F64.pow2 q == 0)%Q.
Proof. pose proof (pow2_pos q). lra. Qed.

Lemma pow2_double (q : Z) :
  (F64.pow2 (2 * q) == F64.pow2 q * F64.pow2 q)%Q.
Proof. replace (2 * q)%Z with (q + q)%Z by lia. apply pow2_add. Qed.

Lemma sqrt_2_108 (A : Z) : (2 ^ 108 <= A)%Z -> (2 ^ 54 <= Z.sqrt A)%Z.
Proof.
  intros H. apply Z.sqrt_le_mono in H.
  replace (Z.sqrt (2 ^ 108)) with (2 ^ 54)%Z in H by (vm_compute; reflexivity).
  exact H.
Qed.

Lemma log2_pow2_Z (n : Z) :
  (0 < n)%Z -> (2 ^ Z.log2 n <= n < 2 ^ (Z.log2 n + 1))%Z.
Proof. intros H. apply (Z.log2_spec n H). Qed.

Lemma bit_length_pos (n : Z) :
  (0 < n)%Z -> F64.bit_length n = (Z.log2 n + 1)%Z.
Proof.
  intros H. unfold F64.bit_length.
  destruct (n =? 0)%Z eqn:E; [apply Z.eqb_eq in E; lia | reflexivity].
Qed.

(** What [float_sqrt_of_frac] rounds: a number [X] between [A] and
    [A + P], two bounds of the root of [n / m] that are [P] apart, with
    [P] at most [A / 2^54]. *)
Lemma float_sqrt_of_frac_scaled (n m : Z) :
  (0 < n)%Z -> (0 < m)%Z ->
  exists A P X : Q,
    (0 < P)%Q /\ (P * F64.pow2 54 <= A)%Q /\
    (A * A * inject_Z m <= inject_Z n)%Q /\
    (inject_Z n <= (A + P) * (A + P) * inject_Z m)%Q /\
    (A <= X <= A + P)%Q /\
    F64.float_sqrt_of_frac n m = F64.round X.
Proof.
  intros Hn Hm. unfold F64.float_sqrt_of_frac. cbv zeta.
  rewrite !bit_length_pos by assumption.
  set (q := ((Z.log2 n + 1 - (Z.log2 m + 1) - 109) / 2)%Z).
  assert (Hq : (2 * q <= Z.log2 n - Z.log2 m - 109)%Z).
  { pose proof (Z.mul_div_le (Z.log2 n + 1 - (Z.log2 m + 1) - 109) 2 eq_refl)
      as H. fold q in H. lia. }
  clearbody q.
  destruct (log2_pow2_Z n Hn) as [Hn1 _].
  destruct (log2_pow2_Z m Hm) as [_ Hm2].
  pose proof (Z.log2_nonneg n) as Hln. pose proof (Z.log2_nonneg m) as Hlm.
  pose proof (pow2_pos q) as HP.
  destruct (0 <=? q)%Z eqn:E; [apply Z.leb_le in E | apply Z.leb_gt in E].
  - set (M := Z.shiftl m (2 * q)).
    assert (EM : M = (m * 2 ^ (2 * q))%Z)
      by (unfold M; apply Z.shiftl_mul_pow2; lia).
    assert (Hp2 : (0 < 2 ^ (2 * q))%Z) by (apply Z.pow_pos_nonneg; lia).
    assert (HM : (0 < M)%Z) by nia.
    destruct (rto_bounds n M (Z.lt_le_incl _ _ Hn) HM) as (Hr & Ha1 & Ha2).
    set (a := Z.sqrt (n / M)) in *.
    set (r := F64.integer_sqrt_of_frac_rto n M) in *.
    assert (Hbig : (2 ^ 54 <= a)%Z).
    { apply sqrt_2_108. apply Z.div_le_lower_bound; [exact HM |].
      assert (H1 : (M * 2 ^ 108 <= 2 ^ (Z.log2 m + 1) * 2 ^ (2 * q + 108))%Z).
      { rewrite EM, (Z.pow_add_r 2 (2 * q) 108) by lia. nia. }
      rewrite <- Z.pow_add_r in H1 by lia.
      assert (H2 : (2 ^ (Z.log2 m + 1 + (2 * q + 108)) <= 2 ^ Z.log2 n)%Z)
        by (apply Z.pow_le_mono_r; lia).
      lia. }
    exists (inject_Z a * F64.pow2 q)%Q, (F64.pow2 q),
      (inject_Z (Z.shiftl r q)).
    pose proof (shiftl_inject r q E) as EX.
    set (X := inject_Z (Z.shiftl r q)) in *.
    rewrite Zle_Qle in Ha1. rewrite Zlt_Qlt in Ha2. rewrite EM in Ha1, Ha2.
    rewrite !inject_Z_mult, <- pow2_Z, pow2_double in Ha1, Ha2 by lia.
    rewrite inject_Z_plus in Ha2. change (inject_Z 1) with 1%Q in Ha2.
    assert (Hr1 : (inject_Z a <= inject_Z r)%Q) by (rewrite <- Zle_Qle; lia).
    assert (Hr2 : (inject_Z r <= inject_Z a + 1)%Q).
    { change 1%Q with (inject_Z 1). rewrite <- inject_Z_plus, <- Zle_Qle.
      lia. }
    assert (Hb : (F64.pow2 54 <= inject_Z a)%Q).
    { rewrite pow2_Z by lia. now rewrite <- Zle_Qle. }
    repeat split; try reflexivity.
    + exact HP.
    + nra.
    + nra.
    + nra.
    + nra.
    + nra.
  - set (N := Z.shiftl n (- 2 * q)).
    assert (EN : N = (n * 2 ^ (- 2 * q))%Z)
      by (unfold N; apply Z.shiftl_mul_pow2; lia).
    assert (Hp2 : (0 < 2 ^ (- 2 * q))%Z) by (apply Z.pow_pos_nonneg; lia).
    assert (HN : (0 <= N)%Z) by nia.
    destruct (rto_bounds N m HN Hm) as (Hr & Ha1 & Ha2).
    set (a := Z.sqrt (N / m)) in *.
    set (r := F64.integer_sqrt_of_frac_rto N m) in *.
    assert (Hbig : (2 ^ 54 <= a)%Z).
    { apply sqrt_2_108. apply Z.div_le_lower_bound; [exact Hm |].
      assert (H1 : (m * 2 ^ 108 <= 2 ^ (Z.log2 m + 1) * 2 ^ 108)%Z) by nia.
      rewrite <- Z.pow_add_r in H1 by lia.
      assert (H2 : (2 ^ (Z.log2 m + 1 + 108)
                    <= 2 ^ (Z.log2 n + - 2 * q))%Z)
        by (apply Z.pow_le_mono_r; lia).
      rewrite (Z.pow_add_r 2 (Z.log2 n) (- 2 * q)) in H2 by lia.
      assert (H3 : (2 ^ Z.log2 n * 2 ^ (- 2 * q) <= n * 2 ^ (- 2 * q))%Z)
        by (apply Z.mul_le_mono_nonneg_r; lia).
      rewrite EN. lia. }
    exists (inject_Z a * F64.pow2 q)%Q, (F64.pow2 q),
      (inject_Z r / inject_Z (Z.shiftl 1 (- q)))%Q.
    assert (EX : (inject_Z r / inject_Z (Z.shiftl 1 (- q))
                  == inject_Z r * F64.pow2 q)%Q).
    { rewrite shiftl_inject by lia. change (inject_Z 1) with 1%Q.
      rewrite pow2_neg. field. apply pow2_nonzero. }
    set (X := (inject_Z r / inject_Z (Z.shiftl 1 (- q)))%Q) in *.
    rewrite Zle_Qle in Ha1. rewrite Zlt_Qlt in Ha2. rewrite EN in Ha1, Ha2.
    rewrite !inject_Z_mult, <- pow2_Z in Ha1, Ha2 by lia.
    replace (- 2 * q)%Z with (- (2 * q))%Z in Ha1, Ha2 by lia.
    rewrite pow2_neg, pow2_double in Ha1, Ha2.
    rewrite inject_Z_plus in Ha2. change (inject_Z 1) with 1%Q in Ha2.
    assert (Hr1 : (inject_Z a <= inject_Z r)%Q) by (rewrite <- Zle_Qle; lia).
    assert (Hr2 : (inject_Z r <= inject_Z a + 1)%Q).
    { change 1%Q with (inject_Z 1). rewrite <- inject_Z_plus, <- Zle_Qle.
      lia. }
    assert (Hb : (F64.pow2 54 <= inject_Z a)%Q).
    { rewrite pow2_Z by lia. now rewrite <- Zle_Qle. }
    set (p := F64.pow2 q) in *.
    assert (Hpp : (0 < p * p)%Q) by nra.
    assert (Ha1' : (inject_Z a * inject_Z a * inject_Z m * (p * p)
                    <= inject_Z n)%Q).
    { apply (Qmult_le_r _ _ _ Hpp) in Ha1.
      assert (E1 : (inject_Z n * / (p * p) * (p * p) == inject_Z n)%Q)
        by (field; unfold p; apply pow2_nonzero).
      rewrite E1 in Ha1. exact Ha1. }
    assert (Ha2' : (inject_Z n
                    < (inject_Z a + 1) * (inject_Z a + 1) * inject_Z m
                      * (p * p))%Q).
    { apply (Qmult_lt_r _ _ _ Hpp) in Ha2.
      assert (E1 : (inject_Z n * / (p * p) * (p * p) == inject_Z n)%Q)
        by (field; unfold p; apply pow2_nonzero).
      rewrite E1 in Ha2. exact Ha2. }
    repeat split; try reflexivity.
    + exact HP.
    + nra.
    + nra.
    + nra.
    + nra.
    + nra.
Qed.

Lemma Q2R_pow2_54 : Q2R (F64.pow2 54) = 18014398509481984%R.
Proof.
  change (F64.pow2 54) with (18014398509481984 # 1).
  unfold Q2R. cbn [Qnum Qden]. lra.
Qed.

Lemma Q2R_pow2_m53 : Q2R (F64.pow2 (-53)) = (/ 9007199254740992)%R.
Proof.
  change (F64.pow2 (-53)) with (1 # 9007199254740992).
  unfold Q2R. cbn [Qnum Qden]. lra.
Qed.

Lemma Q2R_pow2_m52 : Q2R (F64.pow2 (-52)) = (/ 4503599627370496)%R.
Proof.
  change (F64.pow2 (-52)) with (1 # 4503599627370496).
  unfold Q2R. cbn [Qnum Qden]. lra.
Qed.

Lemma Q2R_inject_Z (z : Z) : Q2R (inject_Z z) = IZR z.
Proof. unfold Q2R, inject_Z. cbn [Qnum Qden]. lra. Qed.

Ltac q2r H :=
  repeat (rewrite Q2R_opp in H || rewrite Q2R_plus in H
          || rewrite Q2R_minus in H || rewrite Q2R_mult in H
          || rewrite Q2R_inject_Z in H).

(** The float that [float_sqrt_of_frac] returns is the square root up to
    one part in [2^52], or up to [2^-1075] in the subnormal range. *)
Lemma float_sqrt_of_frac_accurate (n m : Z) :
  (0 < n)%Z -> (0 < m)%Z ->
  let s := sqrt (IZR n / IZR m) in
  (Rabs (Q2R (F64.float_sqrt_of_frac n m) - s)
   <= s * Q2R (F64.pow2 (-52)) + Q2R (F64.pow2 (-1075)))%R.
Proof.
  intros Hn Hm s.
  destruct (float_sqrt_of_frac_scaled n m Hn Hm)
    as (A & P & X & HP & HPA & HA1 & HA2 & [HX1 HX2] & ->).
  assert (HX0 : (0 <= X)%Q).
  { pose proof (pow2_pos 54). nra. }
  pose proof (round_err X HX0) as Hr.
  apply Qabs_Qle_condition in Hr. destruct Hr as [Hr1 Hr2].
  pose proof (pow2_pos (-1075)) as He.
  apply Qlt_Rlt in HP, He. apply Qle_Rle in HPA, HA1, HA2, HX1, HX2, Hr1, Hr2.
  q2r HPA; q2r HA1; q2r HA2; q2r HX1; q2r HX2; q2r Hr1; q2r Hr2.
  rewrite ?Q2R_pow2_54, ?Q2R_pow2_m53, ?Q2R_pow2_m52 in *.
  rewrite RMicromega.Q2R_0 in *.
  set (e := Q2R (F64.pow2 (-1075))) in *.
  set (f := Q2R (F64.round X)) in *.
  set (x := Q2R X) in *. set (a := Q2R A) in *. set (p := Q2R P) in *.
  assert (Hm' : (0 < IZR m)%R) by (apply IZR_lt; exact Hm).
  assert (Ha0 : (0 <= a)%R) by lra.
  assert (EV : (IZR n / IZR m * IZR m = IZR n)%R) by (field; lra).
  assert (Hs1 : (a <= s)%R).
  { unfold s. rewrite <- (sqrt_square a) by exact Ha0.
    apply sqrt_le_1_alt. apply (Rmult_le_reg_r (IZR m)); [lra |].
    rewrite EV. exact HA1. }
  assert (Hs2 : (s <= a + p)%R).
  { unfold s. rewrite <- (sqrt_square (a + p)) by lra.
    apply sqrt_le_1_alt. apply (Rmult_le_reg_r (IZR m)); [lra |].
    rewrite EV. exact HA2. }
  apply Rabs_le. lra.
Qed.

Lemma round_0 (x : Q) : (x == 0)%Q -> F64.round x = 0%Q.
Proof.
  intros H. unfold F64.round. apply Qeq_alt in H. now rewrite H.
Qed.

Lemma float_sqrt_of_frac_0 (m : Z) :
  (0 < m)%Z -> F64.float_sqrt_of_frac 0 m = 0%Q.
Proof.
  intros Hm. unfold F64.float_sqrt_of_frac. cbv zeta.
  change (F64.bit_length 0) with 0%Z. rewrite bit_length_pos by exact Hm.
  pose proof (Z.log2_nonneg m) as Hl.
  set (q := ((0 - (Z.log2 m + 1) - 109) / 2)%Z).
  assert (Hq : (q < 0)%Z).
  { pose proof (Z.mul_div_le (0 - (Z.log2 m + 1) - 109) 2 eq_refl) as H.
    fold q in H. lia. }
  destruct (0 <=? q)%Z eqn:E; [apply Z.leb_le in E; lia |].
  rewrite Z.shiftl_0_l. unfold F64.integer_sqrt_of_frac_rto.
  rewrite Z.div_0_l by lia. cbn [Z.sqrt Z.mul Z.eqb Z.lor].
  apply round_0. unfold Qdiv. apply Qmult_0_l.
Qed.

(** The float square root of a fraction lies within one part in [2^52]
    of the real square root, or within [2^-1075] of it in the subnormal
    range. *)
Lemma sqrt_accurate (v : Q) :
  (0 <= v)%Q ->
  (Rabs (Q2R (F64.sqrt v) - sqrt (Q2R v))
   <= sqrt (Q2R v) / IZR (2 ^ 52) + / IZR (2 ^ 1075))%R.
Proof.
  intros Hv. unfold F64.sqrt. cbv zeta.
  rewrite (Qeq_eqR v (Qred v)) by (symmetry; apply Qred_correct).
  assert (Hr : (0 <= Qred v)%Q) by now rewrite Qred_correct.
  destruct (Qred v) as [n d]. cbn [Qnum Qden].
  assert (Hn : (0 <= n)%Z).
  { unfold Qle in Hr. simpl in Hr. lia. }
  assert (E52 : (/ IZR (2 ^ 52))%R = Q2R (F64.pow2 (-52))).
  { rewrite Q2R_pow2_m52. reflexivity. }
  assert (E1075 : (/ IZR (2 ^ 1075))%R = Q2R (F64.pow2 (-1075))).
  { unfold Q2R.
    replace (Qnum (F64.pow2 (-1075))) with 1%Z by (vm_compute; reflexivity).
    replace (Z.pos (Qden (F64.pow2 (-1075)))) with (2 ^ 1075)%Z
      by (vm_compute; reflexivity).
    now rewrite Rmult_1_l. }
  unfold Rdiv. rewrite E52, E1075.
  assert (EQ : Q2R (n # d) = (IZR n / IZR (Z.pos d))%R) by reflexivity.
  rewrite EQ.
  destruct (Z.eq_dec n 0%Z) as [-> | Hn0].
  - rewrite float_sqrt_of_frac_0 by reflexivity.
    unfold Rdiv. rewrite Rmult_0_l, sqrt_0, RMicromega.Q2R_0, Rminus_0_r.
    rewrite Rabs_R0, Rmult_0_l, Rplus_0_l.
    apply Rlt_le. rewrite <- RMicromega.Q2R_0. apply Qlt_Rlt, pow2_pos.
  - apply float_sqrt_of_frac_accurate; lia.
Qed.

(** ** The deviation analysis *)

Section Deviation.

Lemma fold_Qplus_acc (xs : list Q) (a : Q) :
  (fold_left Qplus xs a == a + fold_left Qplus xs 0)%Q.
Proof.
  revert a. induction xs as [| x xs IH]; intros a; simpl.
  - ring.
  - rewrite (IH (a + x)%Q), (IH (0 + x)%Q). ring.
Qed.

Lemma Qsum_nil : (Qsum [] == 0)%Q.
Proof. reflexivity. Qed.

Lemma Qsum_cons (x : Q) (xs : list Q) : (Qsum (x :: xs) == x + Qsum xs)%Q.
Proof.
  unfold Qsum. simpl. rewrite fold_Qplus_acc.
  rewrite (fold_Qplus_acc xs 0.0%Q). ring.
Qed.

Lemma Qsum_nonneg (xs : list Q) :
  Forall (fun x => 0 <= x)%Q xs -> (0 <= Qsum xs)%Q.
Proof.
  induction 1 as [| x xs Hx _ IH].
  - rewrite Qsum_nil. apply Qle_refl.
  - rewrite Qsum_cons. lra.
Qed.

Lemma pvariance_nonneg (data : list Q) : (0 <= pvariance data)%Q.
Proof.
  unfold pvariance. cbv zeta.
  set (n := inject_Z (Z.of_nat (length data))).
  set (mean := (Qsum data / n)%Q).
  assert (Hn : (0 <= n)%Q).
  { unfold n. change 0%Q with (inject_Z 0). rewrite <- Zle_Qle. lia. }
  assert (Hs : (0 <= Qsum (map (fun x => (x - mean) * (x - mean)) data))%Q).
  { apply Qsum_nonneg. apply Forall_forall. intros y Hy.
    apply list_elem_of_In, in_map_iff in Hy as (x & <- & _).
    cbv beta. generalize (x - mean)%Q. clear. intros a. nra. }
  unfold Qdiv. apply Qmult_le_0_compat; [exact Hs |].
  apply Qinv_le_0_compat. exact Hn.
Qed.

Lemma dev_mm_nonneg (prec_arr : list Q) (LEN idx : nat) :
  (0 <= radicand (dev_mm_of prec_arr LEN idx))%Q.
Proof.
  unfold dev_mm_of. cbv zeta.
  destruct (2 <=? length (map F64.round (window_vals prec_arr LEN idx 3)))%nat;
    simpl.
  - apply pvariance_nonneg.
  - discriminate.
Qed.

Lemma dev_ens_nonneg (avail : bool) (members : list (list Q)) (idx : nat) :
  (0 <= radicand (dev_ens_3hr_of avail members idx))%Q.
Proof.
  unfold dev_ens_3hr_of. cbv zeta.
  repeat match goal with
         | |- context [if ?c then _ else _] => destruct c
         end; simpl; (apply pvariance_nonneg || discriminate).
Qed.

(** Comparing a deviation with a threshold is comparing two floats. *)
Lemma Stdev_geb_real (d : Stdev) (th : Q) :
  Stdev_geb d th = true <-> (Q2R (F64.round th) <= Stdev_value d)%R.
Proof.
  unfold Stdev_geb, Stdev_value. rewrite negb_true_iff, ltb_ge.
  split; [apply Qle_Rle | apply Rle_Qle].
Qed.

Lemma Stdev_geb_false_real (d : Stdev) (th : Q) :
  Stdev_geb d th = false <-> (Stdev_value d < Q2R (F64.round th))%R.
Proof.
  rewrite <- not_true_iff_false, Stdev_geb_real. split; lra.
Qed.

Lemma Stdev_value_ge (d : Stdev) (q : Q) :
  (q <= Stdev_float d)%Q -> (Q2R q <= Stdev_value d)%R.
Proof. apply Qle_Rle. Qed.

Lemma Stdev_value_lt (d : Stdev) (q : Q) :
  (Stdev_float d < q)%Q -> (Stdev_value d < Q2R q)%R.
Proof. apply Qlt_Rlt. Qed.

(** The float that the literal [0.7] is: a little less than 0.7. *)
Lemma round_warn :
  F64.round DEV_WARN_TH = 3152519739159347 # 4503599627370496.
Proof. vm_compute. reflexivity. Qed.

Lemma round_danger : F64.round DEV_DANGER_TH = 1%Q.
Proof. vm_compute. reflexivity. Qed.

Lemma Q2R_warn : (Q2R (F64.round DEV_WARN_TH) < 7 / 10)%R.
Proof. rewrite round_warn. unfold Q2R. simpl. lra. Qed.

Lemma Q2R_danger : Q2R (F64.round DEV_DANGER_TH) = 1%R.
Proof. rewrite round_danger. unfold Q2R. simpl. lra. Qed.

(** The level of a deviation, by its value. *)
Lemma dev_level_real (d : Stdev) :
  (dev_level d = DEV_NONE
   <-> (Stdev_value d < Q2R (F64.round DEV_WARN_TH))%R) /\
  (dev_level d = DEV_WARN
   <-> (Q2R (F64.round DEV_WARN_TH) <= Stdev_value d < 1)%R) /\
  (dev_level d = DEV_DANGER <-> (1 <= Stdev_value d)%R).
Proof.
  unfold dev_level.
  pose proof Q2R_warn as Hw. pose proof Q2R_danger as Hd.
  destruct (Stdev_geb d DEV_DANGER_TH) eqn:E1;
    [apply Stdev_geb_real in E1
    | apply Stdev_geb_false_real in E1;
      destruct (Stdev_geb d DEV_WARN_TH) eqn:E2;
      [apply Stdev_geb_real in E2 | apply Stdev_geb_false_real in E2]];
    rewrite Hd in *;
    repeat split; intros; try discriminate; try reflexivity; try lra.
Qed.

Lemma flat_map_lookup_take (m : list Q) (w : nat) :
  flat_map (fun j => match m !! j with Some v => [v] | None => [] end)
           (seq 0 w)
  = take w m.
Proof.
  induction w as [| w IH]; [reflexivity |].
  rewrite seq_S, flat_map_app, IH. simpl. rewrite app_nil_r.
  destruct (m !! w) as [v |] eqn:E.
  - symmetry. now apply take_S_r.
  - apply lookup_ge_None in E. rewrite !take_ge by lia.
    now rewrite app_nil_r.
Qed.

(** The window loop takes the values at [idx], [idx+1], ... that lie in
    the first [LEN] entries of the series. *)
Lemma window_vals_take (arr : list Q) (LEN idx w : nat) :
  window_vals arr LEN idx w = take w (drop idx (take LEN arr)).
Proof.
  unfold window_vals. rewrite <- flat_map_lookup_take.
  apply flat_map_ext. intros j. rewrite lookup_drop.
  destruct (idx + j <? LEN)%nat eqn:E.
  - apply Nat.ltb_lt in E. now rewrite lookup_take_lt.
  - apply Nat.ltb_ge in E. now rewrite lookup_take_ge.
Qed.

(** The window 2.7, 4.1 has the mean 3.4 and the population standard
    deviation 0.7, the bound of the WARN level; the deviation computed
    from the floats is 0.6999999999999997, and the level is NONE. *)
Lemma deviation_at_threshold_counterexample :
  let window := [2.7; 4.1]%Q in
  let d := dev_mm_of window 2 0 in
  (pvariance window == 0.7 * 0.7)%Q /\
  Stdev_float d = 1576259869579673 # 2251799813685248 /\
  dev_level d = DEV_NONE.
Proof.
  cbv zeta. split; [reflexivity |]. split; vm_compute; reflexivity.
Qed.

(** C5: for every hourly rain series and index [t] the deterministic
    deviation is the population standard deviation of the values at [t],
    [t+1], [t+2] that the series has, taken as floats (the squared
    distances to the mean are divided by the number of values, not by one
    less), as [statistics.pstdev] returns it: a float within one part in
    2^52 of the square root of the exact variance, when there are at
    least two values, and 0 otherwise; its level is NONE below the float
    0.7, which is a little less than 0.7, WARN from there up to but
    excluding 1.0, and DANGER from 1.0 on; the window 0, 0, 6 has
    deviation 2.8284271247461903 and is DANGER. *)
Theorem deterministic_deviation (prec_arr : list Q) (LEN idx : nat) :
  let window := map F64.round (take 3 (drop idx (take LEN prec_arr))) in
  let n := inject_Z (Z.of_nat (length window)) in
  let mean := (Qsum window / n)%Q in
  let d := dev_mm_of prec_arr LEN idx in
  map F64.round (window_vals prec_arr LEN idx 3) = window /\
  ((2 <= length window)%nat ->
   (mean * n == Qsum window)%Q /\
   (radicand d * n
    == Qsum (map (fun x => (x - mean) * (x - mean)) window))%Q) /\
  ((length window < 2)%nat -> Stdev_float d = 0%Q) /\
  (Rabs (Stdev_value d - sqrt (Q2R (radicand d)))
   <= sqrt (Q2R (radicand d)) / IZR (2 ^ 52) + / IZR (2 ^ 1075))%R /\
  (dev_level d = DEV_NONE
   <-> (Stdev_value d < Q2R (F64.round 0.7))%R) /\
  (dev_level d = DEV_WARN
   <-> (Q2R (F64.round 0.7) <= Stdev_value d < 1)%R) /\
  (dev_level d = DEV_DANGER <-> (1 <= Stdev_value d)%R) /\
  (F64.round 0.7 = 3152519739159347 # 4503599627370496 /\
   (Q2R (F64.round 0.7) < 7 / 10)%R) /\
  (let d6 := dev_mm_of [0; 0; 6]%Q 3 0 in
   (radicand d6 == 8)%Q /\
   Stdev_float d6 = 6369051672525773 # 2251799813685248 /\
   (2828 / 1000 <= Stdev_value d6 < 2829 / 1000)%R /\
   dev_level d6 = DEV_DANGER).
Proof.
  intros window n mean d.
  assert (Hw : map F64.round (window_vals prec_arr LEN idx 3) = window)
    by (unfold window; now rewrite window_vals_take).
  assert (Hnn : (0 <= radicand d)%Q) by apply dev_mm_nonneg.
  split; [exact Hw |].
  split.
  { intros Hlen.
    assert (Hn : ~ (n == 0)%Q).
    { unfold n. change 0%Q with (inject_Z 0). rewrite inject_Z_injective.
      lia. }
    unfold d, dev_mm_of. cbv zeta. rewrite Hw.
    destruct (2 <=? length window)%nat eqn:E;
      [| apply Nat.leb_gt in E; lia].
    unfold pstdev, pvariance. cbv zeta. cbn [radicand].
    fold n. fold mean. split.
    - unfold mean. field. exact Hn.
    - generalize (Qsum (map (fun x => (x - mean) * (x - mean))%Q window)).
      intros q. field. exact Hn. }
  split.
  { intros Hlen. unfold d, dev_mm_of. cbv zeta. rewrite Hw.
    destruct (2 <=? length window)%nat eqn:E;
      [apply Nat.leb_le in E; lia | vm_compute; reflexivity]. }
  split; [apply sqrt_accurate, Hnn |].
  destruct (dev_level_real d) as (H1 & H2 & H3).
  repeat (split; [assumption |]).
  split; [split; [exact round_warn | exact Q2R_warn] |].
  cbv zeta.
  set (d6 := dev_mm_of [0; 0; 6]%Q 3 0).
  assert (E6 : Stdev_float d6 = 6369051672525773 # 2251799813685248)
    by (vm_compute; reflexivity).
  split; [vm_compute; reflexivity |].
  split; [exact E6 |].
  split; [split |].
  - replace (2828 / 1000)%R with (Q2R 2.828) by (unfold Q2R; simpl; lra).
    apply Stdev_value_ge. rewrite E6. vm_compute. discriminate.
  - replace (2829 / 1000)%R with (Q2R 2.829) by (unfold Q2R; simpl; lra).
    apply Stdev_value_lt. rewrite E6. reflexivity.
  - vm_compute. reflexivity.
Qed.

Lemma deterministic_deviation_witness :
  let series := [5; 0.2; 1.4; 0; 9]%Q in
  let window := map F64.round [0.2; 1.4; 0]%Q in
  let mean := (Qsum window / inject_Z 3)%Q in
  (radicand (dev_mm_of series 4 1) * inject_Z 3
   == Qsum (map (fun x => (x - mean) * (x - mean)) window))%Q /\
  Stdev_float (dev_mm_of series 4 3) = 0%Q.
Proof.
  cbv zeta. split.
  - apply (proj1 (proj2 (deterministic_deviation [5; 0.2; 1.4; 0; 9]%Q 4 1))).
    simpl. lia.
  - apply (proj1 (proj2 (proj2
             (deterministic_deviation [5; 0.2; 1.4; 0; 9]%Q 4 3)))).
    simpl. lia.
Defined.

End Deviation.

(** ** The combined windows *)

Section Windows.

Variable TIMES : list string.

(** The threshold of the source, [int(n * 0.8 + 0.999)], is the ceiling
    of [n * 0.8]. *)
Lemma best_aman_threshold (n : nat) :
  Num.py_int (inject_Z (Z.of_nat n) * THRESH_PCT + 0.999)
  = Qceiling (inject_Z (Z.of_nat n) * 0.8).
Proof.
  unfold Num.py_int, Qceiling, Qfloor, THRESH_PCT.
  cbn [Qnum Qden Qmult Qplus Qopp inject_Z Pos.mul].
  rewrite Z.quot_div_nonneg by lia.
  change (Z.pos (1 * 10 * 1000)) with 10000%Z.
  change (Z.pos (1 * 10)) with 10%Z.
  change (Z.pos 10) with 10%Z. change (Z.pos 1000) with 1000%Z.
  Z.div_mod_to_equations. lia.
Qed.

Lemma is_best_aman_ceiling (n a : nat) :
  (0 < n)%nat ->
  is_best_aman n a = true
  <-> (Qceiling (inject_Z (Z.of_nat n) * 0.8) <= Z.of_nat a)%Z.
Proof.
  intros Hn. unfold is_best_aman. rewrite best_aman_threshold.
  rewrite andb_true_iff, Nat.ltb_lt, Z.leb_le. tauto.
Qed.

(** C7: in every run with at least one processed location a slot is
    among the best safe hours exactly when its Aman count is at least the
    ceiling of 0.8 times the number of processed locations, and among the
    risky hours exactly when its Rawan count is greater than 1; with 5
    locations, 4 Aman qualify and 3 do not. *)
Theorem best_and_risky_windows (st : State) (t : string) :
  (0 < processed_count st)%nat ->
  (In t (best_aman_times TIMES st)
   <-> In t TIMES /\
       (Qceiling (inject_Z (Z.of_nat (processed_count st)) * 0.8)
        <= Z.of_nat (agg_get AGG_AMAN t st))%Z) /\
  (In t (any_rawan_times TIMES st)
   <-> In t TIMES /\ (1 < agg_get AGG_RAWAN t st)%nat) /\
  Qceiling (inject_Z 5 * 0.8) = 4%Z /\
  is_best_aman 5 4 = true /\ is_best_aman 5 3 = false.
Proof.
  intros Hn. unfold best_aman_times, any_rawan_times.
  rewrite !filter_In, Nat.ltb_lt, (is_best_aman_ceiling _ _ Hn).
  repeat split; tauto.
Qed.

End Windows.

Lemma best_and_risky_windows_witness :
  let TIMES := ["2025-01-01T05:00"; "2025-01-01T06:00"] in
  let st :=
    mkState (fun k => match k with
                      | AGG_AMAN => {["2025-01-01T05:00" := 4%nat]}
                      | AGG_RAWAN => {["2025-01-01T06:00" := 2%nat]}
                      | _ => ∅
                      end)
            (fun _ => ∅) ∅ [] 5 [] 0 0 0 in
  In "2025-01-01T05:00" (best_aman_times TIMES st) /\
  ~ In "2025-01-01T06:00" (best_aman_times TIMES st) /\
  In "2025-01-01T06:00" (any_rawan_times TIMES st).
Proof.
  cbv zeta.
  set (TIMES := ["2025-01-01T05:00"; "2025-01-01T06:00"]).
  set (st := mkState _ _ _ _ _ _ _ _ _).
  assert (Hn : (0 < processed_count st)%nat) by (simpl; lia).
  split; [| split].
  - apply (proj1 (best_and_risky_windows TIMES st _ Hn)).
    split; [simpl; tauto | vm_compute; discriminate].
  - intros H.
    apply (proj1 (best_and_risky_windows TIMES st _ Hn)) in H as [_ H].
    vm_compute in H. apply H. reflexivity.
  - apply (proj1 (proj2 (best_and_risky_windows TIMES st _ Hn))).
    split; [simpl; tauto | vm_compute; lia].
Defined.

(** ** The accumulators *)

Section Accumulators.

(** Decides the equalities between constructors in sight. *)
Ltac bd_simpl :=
  repeat match goal with
  | |- context [bool_decide (?a = ?b)] =>
      first [ rewrite (bool_decide_eq_true_2 (a = b)) by reflexivity
            | rewrite (bool_decide_eq_false_2 (a = b)) by discriminate ]
  end.

Lemma hit_other_key (c : bool) (k k' : AggKey) (t t' : string) :
  k <> k' -> hit c k k' t t' = 0%nat.
Proof.
  intros H. unfold hit. rewrite (bool_decide_eq_false_2 _ H).
  now rewrite andb_false_r.
Qed.

Lemma hit_same_key (c : bool) (k : AggKey) (t t' : string) :
  hit c k k t t' = if c && bool_decide (t = t') then 1%nat else 0%nat.
Proof.
  unfold hit. rewrite (bool_decide_eq_true_2 _ (eq_refl k)).
  now rewrite andb_true_r.
Qed.

Lemma hit_false (k k' : AggKey) (t t' : string) : hit false k k' t t' = 0%nat.
Proof. reflexivity. Qed.

(** Drops the increments of other counters and exposes those of the
    counter looked at. *)
Ltac hit_simpl :=
  repeat match goal with
  | |- context [hit ?c ?k ?k' ?t ?t'] =>
      rewrite (hit_other_key c k k' t t') by discriminate
  end;
  rewrite ?hit_same_key.

Lemma agg_get_agg_incr (k k' : AggKey) (t t' : string) (st : State) :
  agg_get k t (agg_incr k' t' st) = (agg_get k t st + hit true k k' t t')%nat.
Proof.
  unfold agg_get, agg_incr, with_AGG, upd, hit. cbn [AGG andb].
  destruct (decide (k' = k)) as [-> | Hk].
  - rewrite (bool_decide_eq_true_2 _ (eq_refl k)). cbn [andb].
    destruct (decide (t = t')) as [-> | Ht].
    + rewrite lookup_insert_eq, (bool_decide_eq_true_2 _ (eq_refl t')).
      reflexivity.
    + rewrite lookup_insert_ne by congruence.
      rewrite (bool_decide_eq_false_2 _ Ht). cbn. lia.
  - rewrite bool_decide_eq_false_2 by congruence. cbn. lia.
Qed.

Lemma agg_get_when_incr (c : bool) (k k' : AggKey) (t t' : string)
      (st : State) :
  agg_get k t (when c (agg_incr k' t') st)
  = (agg_get k t st + hit c k k' t t')%nat.
Proof.
  destruct c; cbn [when]; [apply agg_get_agg_incr |].
  rewrite hit_false. lia.
Qed.

Lemma agg_get_perkota_add (k : AggKey) (t : string) (k' : PerkotaKey)
      (K TIME : string) (st : State) :
  agg_get k t (perkota_add k' K TIME st) = agg_get k t st.
Proof. reflexivity. Qed.

Lemma agg_get_when_padd (c : bool) (k : AggKey) (t : string)
      (k' : PerkotaKey) (K TIME : string) (st : State) :
  agg_get k t (when c (perkota_add k' K TIME) st) = agg_get k t st.
Proof. destruct c; reflexivity. Qed.

Lemma agg_get_with_PREV_TEMP (k : AggKey) (t : string)
      (f : Dict.t -> Dict.t) (st : State) :
  agg_get k t (with_PREV_TEMP f st) = agg_get k t st.
Proof. reflexivity. Qed.

Lemma agg_get_with_tally (k : AggKey) (t : string) (a w r : nat)
      (st : State) :
  agg_get k t (with_tally a w r st) = agg_get k t st.
Proof. reflexivity. Qed.

Lemma agg_get_sky_count_incr (k : AggKey) (t : string) (K d : string)
      (st : State) :
  agg_get k t (sky_count_incr K d st) = agg_get k t st.
Proof. reflexivity. Qed.

Lemma agg_get_file_rain_cat (k : AggKey) (t : string) (c : RainCat)
      (K TIME : string) (st : State) :
  agg_get k t (file_rain_cat c K TIME st)
  = (agg_get k t st
     + match rain_agg_key c with
       | Some k' => hit true k k' t TIME
       | None => 0
       end)%nat.
Proof.
  destruct c; cbn [file_rain_cat rain_agg_key];
    rewrite ?agg_get_agg_incr, ?agg_get_perkota_add; lia.
Qed.

Lemma agg_get_flag_dev (k : AggKey) (t : string) (d : Stdev)
      (K TIME : string) (st : State) :
  agg_get k t (flag_dev d K TIME st)
  = (agg_get k t st
     + hit (bool_decide (dev_level d = DEV_DANGER)) k AGG_DEV_DANGER t TIME
     + hit (bool_decide (dev_level d = DEV_WARN)) k AGG_DEV_WARN t TIME)%nat.
Proof.
  unfold flag_dev. destruct (dev_level d); bd_simpl;
    rewrite ?agg_get_agg_incr, ?agg_get_perkota_add;
    repeat rewrite hit_false; lia.
Qed.

Lemma agg_get_count_status (k : AggKey) (t : string) (STATUS : Status)
      (K TIME : string) (st : State) :
  agg_get k t (count_status STATUS K TIME st)
  = (agg_get k t st
     + hit (bool_decide (STATUS = Aman)) k AGG_AMAN t TIME
     + hit (bool_decide (STATUS = Waspada)) k AGG_WASP t TIME
     + hit (bool_decide (STATUS = Rawan)) k AGG_RAWAN t TIME)%nat.
Proof.
  unfold count_status. cbv zeta.
  destruct STATUS; bd_simpl;
    repeat match goal with
           | |- context [decide (?a = ?b)] =>
               destruct (decide (a = b)); try discriminate; try congruence
           end;
    rewrite ?agg_get_perkota_add, ?agg_get_with_tally, ?agg_get_agg_incr;
    repeat rewrite hit_false; lia.
Qed.

Variable py_str : Q -> string.
Variable float_of_str : string -> option Q.
Variable fmt4 : Q -> string.

Local Abbreviation body := (hour_body py_str float_of_str fmt4).

(** What one hour does to every counter of every slot. *)
Lemma hour_body_agg (k : AggKey) (t : string) (loc : Location) (LAT LON : Q)
      (D : Hourly) (TIME : string) (idx : nat) (HOUR : Z) (st : State) :
  agg_get k t (fst (body loc LAT LON D TIME idx HOUR st))
  = (agg_get k t st
     + hour_hits k t TIME (bmkg_alert (BMK_SUM loc))
         (nth idx (precipitation_probability D) 0.0%Q)
         (nth idx (windspeed_10m D) 0.0%Q)
         (nth idx (windgusts_10m D) 0.0%Q)
         (snd (body loc LAT LON D TIME idx HOUR st)))%nat.
Proof.
  unfold hour_body, hour_hits, dev_flags. cbv zeta.
  cbn [fst snd row_rain_cat row_dev_mm row_dev_ens_3hr row_STATUS].
  repeat first
    [ rewrite agg_get_with_PREV_TEMP
    | rewrite agg_get_when_incr
    | rewrite agg_get_when_padd
    | rewrite agg_get_count_status
    | rewrite agg_get_flag_dev
    | rewrite agg_get_sky_count_incr
    | rewrite agg_get_file_rain_cat ].
  lia.
Qed.

(** One hour adds one to exactly one of the three status counts of its
    own slot, and nothing to those of the other slots. *)
Lemma status_total_hour (t : string) (loc : Location) (LAT LON : Q)
      (D : Hourly) (TIME : string) (idx : nat) (HOUR : Z) (st : State) :
  status_total t (fst (body loc LAT LON D TIME idx HOUR st))
  = (status_total t st + if bool_decide (t = TIME) then 1 else 0)%nat.
Proof.
  unfold status_total. rewrite !hour_body_agg. unfold hour_hits.
  destruct (row_rain_cat _); cbn [rain_agg_key];
    hit_simpl; destruct (row_STATUS _); bd_simpl; cbn [andb];
    destruct (bool_decide (t = TIME)); lia.
Qed.

Lemma index_of_found (x : string) (l : list string) :
  existsb (String.eqb x) l
  = match index_of x l with Some _ => true | None => false end.
Proof.
  induction l as [| y l IH]; [reflexivity |]. cbn [existsb index_of].
  rewrite (String.eqb_sym x y). destruct (String.eqb y x); [reflexivity |].
  rewrite IH. now destruct (index_of x l).
Qed.

(** The slots of a list equal to [t], counted. *)
Lemma hours_loop_total (t : string) (loc : Location) (LAT LON : Q)
      (D : Hourly) (slots : list string) (st st' : State) :
  hours_loop py_str float_of_str fmt4 loc LAT LON D slots st = Some st' ->
  status_total t st'
  = (status_total t st
     + if existsb (String.eqb t) (time D)
       then length (List.filter (String.eqb t) slots) else 0)%nat.
Proof.
  revert st. induction slots as [| TIME slots IH]; intros st H.
  - cbn in H. injection H as <-. destruct (existsb _ _); cbn; lia.
  - cbn [hours_loop] in H. cbn [List.filter].
    destruct (String.eqb t TIME) eqn:Et.
    + apply String.eqb_eq in Et. subst TIME.
      pose proof (index_of_found t (time D)) as Hx.
      destruct (index_of t (time D)) as [idx |].
      * destruct (HOUR_of t) as [HOUR |]; [| discriminate].
        apply IH in H. rewrite H, status_total_hour, Hx.
        rewrite (bool_decide_eq_true_2 _ (eq_refl t)). cbn [length]. lia.
      * apply IH in H. rewrite H, Hx. lia.
    + apply String.eqb_neq in Et.
      destruct (index_of TIME (time D)) as [idx |].
      * destruct (HOUR_of TIME) as [HOUR |]; [| discriminate].
        apply IH in H. rewrite H, status_total_hour.
        rewrite (bool_decide_eq_false_2 _ Et). lia.
      * now apply IH in H.
Qed.

Lemma padd_other_key (c : bool) (k k' : PerkotaKey) (K' K T cur : string) :
  k <> k' -> padd c k k' K' K T cur = cur.
Proof.
  intros H. unfold padd. rewrite (bool_decide_eq_false_2 _ H).
  now rewrite andb_false_r.
Qed.

Lemma padd_same (c : bool) (k : PerkotaKey) (K T cur : string) :
  padd c k k K K T cur = join_if c cur T.
Proof.
  unfold padd. rewrite (bool_decide_eq_true_2 _ (eq_refl k)).
  rewrite (bool_decide_eq_true_2 _ (eq_refl K)). now rewrite !andb_true_r.
Qed.

Lemma padd_false (k k' : PerkotaKey) (K' K T cur : string) :
  padd false k k' K' K T cur = cur.
Proof. reflexivity. Qed.

Lemma perkota_get_perkota_add (k k' : PerkotaKey) (K' K TIME : string)
      (st : State) :
  perkota_get k K' (perkota_add k' K TIME st)
  = padd true k k' K' K (PyStr.replace_char "T" " " TIME)
         (perkota_get k K' st).
Proof.
  unfold perkota_get, perkota_add, with_PERKOTA, upd, padd, join_if.
  cbn [PERKOTA andb].
  destruct (decide (k' = k)) as [-> | Hk].
  - rewrite (bool_decide_eq_true_2 _ (eq_refl k)). cbn [andb].
    destruct (decide (K' = K)) as [-> | HK].
    + rewrite lookup_insert_eq, (bool_decide_eq_true_2 _ (eq_refl K)).
      reflexivity.
    + rewrite lookup_insert_ne by congruence.
      now rewrite (bool_decide_eq_false_2 _ HK).
  - rewrite bool_decide_eq_false_2 by congruence. reflexivity.
Qed.

Lemma perkota_get_when_padd (c : bool) (k k' : PerkotaKey)
      (K' K TIME : string) (st : State) :
  perkota_get k K' (when c (perkota_add k' K TIME) st)
  = padd c k k' K' K (PyStr.replace_char "T" " " TIME) (perkota_get k K' st).
Proof.
  destruct c; cbn [when]; [apply perkota_get_perkota_add | reflexivity].
Qed.

Lemma perkota_get_agg_incr (k : PerkotaKey) (K' : string) (k' : AggKey)
      (t : string) (st : State) :
  perkota_get k K' (agg_incr k' t st) = perkota_get k K' st.
Proof. reflexivity. Qed.

Lemma perkota_get_when_incr (c : bool) (k : PerkotaKey) (K' : string)
      (k' : AggKey) (t : string) (st : State) :
  perkota_get k K' (when c (agg_incr k' t) st) = perkota_get k K' st.
Proof. destruct c; reflexivity. Qed.

Lemma perkota_get_with_PREV_TEMP (k : PerkotaKey) (K' : string)
      (f : Dict.t -> Dict.t) (st : State) :
  perkota_get k K' (with_PREV_TEMP f st) = perkota_get k K' st.
Proof. reflexivity. Qed.

Lemma perkota_get_with_tally (k : PerkotaKey) (K' : string) (a w r : nat)
      (st : State) :
  perkota_get k K' (with_tally a w r st) = perkota_get k K' st.
Proof. reflexivity. Qed.

Lemma perkota_get_sky_count_incr (k : PerkotaKey) (K' K d : string)
      (st : State) :
  perkota_get k K' (sky_count_incr K d st) = perkota_get k K' st.
Proof. reflexivity. Qed.

Lemma perkota_get_file_rain_cat (k : PerkotaKey) (K' : string) (c : RainCat)
      (K TIME : string) (st : State) :
  perkota_get k K' (file_rain_cat c K TIME st)
  = match rain_perkota_key c with
    | Some k' => padd true k k' K' K (PyStr.replace_char "T" " " TIME)
                      (perkota_get k K' st)
    | None => perkota_get k K' st
    end.
Proof.
  destruct c; cbn [file_rain_cat rain_perkota_key];
    rewrite ?perkota_get_agg_incr, ?perkota_get_perkota_add; reflexivity.
Qed.

Lemma perkota_get_flag_dev (k : PerkotaKey) (K' : string) (d : Stdev)
      (K TIME : string) (st : State) :
  perkota_get k K' (flag_dev d K TIME st)
  = padd (bool_decide (dev_level d = DEV_WARN)) k PERKOTA_DEV_WARN K' K
         (PyStr.replace_char "T" " " TIME)
         (padd (bool_decide (dev_level d = DEV_DANGER)) k PERKOTA_DEV_DANGER
               K' K (PyStr.replace_char "T" " " TIME)
               (perkota_get k K' st)).
Proof.
  unfold flag_dev. destruct (dev_level d); bd_simpl;
    rewrite ?perkota_get_agg_incr, ?perkota_get_perkota_add;
    rewrite ?padd_false; reflexivity.
Qed.

Lemma perkota_get_count_status (k : PerkotaKey) (K' : string)
      (STATUS : Status) (K TIME : string) (st : State) :
  perkota_get k K' (count_status STATUS K TIME st)
  = padd (bool_decide (STATUS = Rawan)) k PERKOTA_RAWAN K' K
         (PyStr.replace_char "T" " " TIME) (perkota_get k K' st).
Proof.
  unfold count_status. cbv zeta.
  destruct STATUS; bd_simpl;
    repeat match goal with
           | |- context [decide (?a = ?b)] =>
               destruct (decide (a = b)); try discriminate; try congruence
           end;
    rewrite ?perkota_get_perkota_add, ?perkota_get_with_tally,
      ?perkota_get_agg_incr, ?padd_false; reflexivity.
Qed.

(** What one hour does to every hour list of every location. *)
Lemma hour_body_perkota (k : PerkotaKey) (K' : string) (loc : Location)
      (LAT LON : Q) (D : Hourly) (TIME : string) (idx : nat) (HOUR : Z)
      (st : State) :
  perkota_get k K' (fst (body loc LAT LON D TIME idx HOUR st))
  = hour_lists k K' (K loc) TIME (bmkg_alert (BMK_SUM loc))
      (nth idx (temperature_2m D) 0.0%Q)
      (nth idx (uv_index D) 0.0%Q)
      (nth idx (relative_humidity_2m D) 0.0%Q)
      (nth idx (precipitation_probability D) 0.0%Q)
      (nth idx (precipitation D) 0.0%Q)
      (nth idx (windspeed_10m D) 0.0%Q)
      (nth idx (windgusts_10m D) 0.0%Q)
      (snd (body loc LAT LON D TIME idx HOUR st))
      (perkota_get k K' st).
Proof.
  unfold hour_body, hour_lists, dev_flags. cbv zeta.
  cbn [fst snd row_rain_cat row_dev_mm row_dev_ens_3hr row_STATUS
       row_acc3 row_acc6].
  repeat first
    [ rewrite perkota_get_with_PREV_TEMP
    | rewrite perkota_get_when_incr
    | rewrite perkota_get_when_padd
    | rewrite perkota_get_count_status
    | rewrite perkota_get_flag_dev
    | rewrite perkota_get_sky_count_incr
    | rewrite perkota_get_file_rain_cat ].
  reflexivity.
Qed.

(** Drops the appends to other hour lists and exposes those to the list
    looked at. *)
Ltac padd_simpl :=
  repeat match goal with
  | |- context [padd ?c ?k ?k' ?K' ?K ?T ?cur] =>
      rewrite (padd_other_key c k k' K' K T cur) by discriminate
  end;
  rewrite ?padd_same.

Lemma hour_body_devs (loc : Location) (LAT LON : Q) (D : Hourly)
      (TIME : string) (idx : nat) (HOUR : Z) (st : State) :
  row_dev_mm (snd (body loc LAT LON D TIME idx HOUR st))
  = dev_mm_of (precipitation D) (length (time D)) idx /\
  row_dev_ens_3hr (snd (body loc LAT LON D TIME idx HOUR st))
  = dev_ens_3hr_of (ensemble_available loc) (ensemble_members loc) idx.
Proof. split; reflexivity. Qed.

Lemma Q2R_1 : Q2R 1 = 1%R.
Proof. unfold Q2R. simpl. lra. Qed.

Lemma dev_level_danger (d : Stdev) :
  (1 <= Stdev_value d)%R -> dev_level d = DEV_DANGER.
Proof. intros H. now apply (dev_level_real d). Qed.

Lemma dev_level_warn (d : Stdev) :
  (7 / 10 <= Stdev_value d < 1)%R -> dev_level d = DEV_WARN.
Proof.
  intros H. apply (dev_level_real d). pose proof Q2R_warn. lra.
Qed.

(** C6: the deterministic and the ensemble detection of an hour are added
    up: each one of DANGER level adds one to the deviation-danger count of
    the slot and appends the hour to the deviation-danger list of the
    location, so that when both deviations are 1.0 or more the count grows
    by 2 and the hour is appended twice; the same holds for the warn level,
    from 0.7 up to but excluding 1.0. *)
Theorem deviation_detections_add_up (loc : Location) (LAT LON : Q)
        (D : Hourly) (TIME : string) (idx : nat) (HOUR : Z) (st : State) :
  let st' := fst (body loc LAT LON D TIME idx HOUR st) in
  let dm := dev_mm_of (precipitation D) (length (time D)) idx in
  let de :=
    dev_ens_3hr_of (ensemble_available loc) (ensemble_members loc) idx in
  let T := PyStr.replace_char "T" " " TIME in
  let one (l : DevLevel) (d : Stdev) :=
    if bool_decide (dev_level d = l) then 1%nat else 0%nat in
  (agg_get AGG_DEV_DANGER TIME st'
   = agg_get AGG_DEV_DANGER TIME st + one DEV_DANGER dm + one DEV_DANGER de
   /\
   agg_get AGG_DEV_WARN TIME st'
   = agg_get AGG_DEV_WARN TIME st + one DEV_WARN dm + one DEV_WARN de)%nat /\
  (perkota_get PERKOTA_DEV_DANGER (K loc) st'
   = join_if (bool_decide (dev_level de = DEV_DANGER))
       (join_if (bool_decide (dev_level dm = DEV_DANGER))
          (perkota_get PERKOTA_DEV_DANGER (K loc) st) T) T /\
   perkota_get PERKOTA_DEV_WARN (K loc) st'
   = join_if (bool_decide (dev_level de = DEV_WARN))
       (join_if (bool_decide (dev_level dm = DEV_WARN))
          (perkota_get PERKOTA_DEV_WARN (K loc) st) T) T) /\
  ((1 <= Stdev_value dm)%R -> (1 <= Stdev_value de)%R ->
   agg_get AGG_DEV_DANGER TIME st' = (agg_get AGG_DEV_DANGER TIME st + 2)%nat
   /\
   perkota_get PERKOTA_DEV_DANGER (K loc) st'
   = time_join (time_join (perkota_get PERKOTA_DEV_DANGER (K loc) st) T) T) /\
  ((7 / 10 <= Stdev_value dm < 1)%R -> (7 / 10 <= Stdev_value de < 1)%R ->
   agg_get AGG_DEV_WARN TIME st' = (agg_get AGG_DEV_WARN TIME st + 2)%nat /\
   perkota_get PERKOTA_DEV_WARN (K loc) st'
   = time_join (time_join (perkota_get PERKOTA_DEV_WARN (K loc) st) T) T).
Proof.
  intros st' dm de T one.
  destruct (hour_body_devs loc LAT LON D TIME idx HOUR st) as [Hm He].
  assert (Hagg :
    (agg_get AGG_DEV_DANGER TIME st'
     = agg_get AGG_DEV_DANGER TIME st + one DEV_DANGER dm + one DEV_DANGER de
     /\
     agg_get AGG_DEV_WARN TIME st'
     = agg_get AGG_DEV_WARN TIME st + one DEV_WARN dm + one DEV_WARN de)%nat).
  { unfold st', one. rewrite !hour_body_agg. unfold hour_hits.
    rewrite Hm, He. fold dm de.
    destruct (row_rain_cat _); cbn [rain_agg_key]; hit_simpl;
      rewrite (bool_decide_eq_true_2 _ (eq_refl TIME)), !andb_true_r;
      split; lia. }
  assert (Hper :
    perkota_get PERKOTA_DEV_DANGER (K loc) st'
    = join_if (bool_decide (dev_level de = DEV_DANGER))
        (join_if (bool_decide (dev_level dm = DEV_DANGER))
           (perkota_get PERKOTA_DEV_DANGER (K loc) st) T) T /\
    perkota_get PERKOTA_DEV_WARN (K loc) st'
    = join_if (bool_decide (dev_level de = DEV_WARN))
        (join_if (bool_decide (dev_level dm = DEV_WARN))
           (perkota_get PERKOTA_DEV_WARN (K loc) st) T) T).
  { unfold st'. rewrite !hour_body_perkota. unfold hour_lists. cbv zeta.
    rewrite Hm, He. fold dm de T.
    destruct (row_rain_cat _); cbn [rain_perkota_key]; padd_simpl;
      split; reflexivity. }
  split; [exact Hagg |]. split; [exact Hper |].
  destruct Hagg as [Ha1 Ha2], Hper as [Hp1 Hp2].
  split.
  - intros H1 H2.
    apply (dev_level_danger dm) in H1.
    apply (dev_level_danger de) in H2.
    rewrite Ha1, Hp1. unfold one. rewrite H1, H2.
    rewrite (bool_decide_eq_true_2 _ (eq_refl DEV_DANGER)).
    split; [lia | reflexivity].
  - intros H1 H2.
    apply (dev_level_warn dm) in H1.
    apply (dev_level_warn de) in H2.
    rewrite Ha2, Hp2. unfold one. rewrite H1, H2.
    rewrite (bool_decide_eq_true_2 _ (eq_refl DEV_WARN)).
    split; [lia | reflexivity].
Qed.





Lemma rain_ref_for_cat_cases (RAINMM acc3 acc6 : Q) :
  ((0.0001 < RAINMM)%Q -> rain_ref_for_cat RAINMM acc3 acc6 = RAINMM) /\
  ((RAINMM <= 0.0001)%Q -> (0.0001 < acc3)%Q ->
   rain_ref_for_cat RAINMM acc3 acc6 = acc3) /\
  ((RAINMM <= 0.0001)%Q -> (acc3 <= 0.0001)%Q ->
   rain_ref_for_cat RAINMM acc3 acc6 = acc6).
Proof.
  unfold rain_ref_for_cat. repeat split; intros; cmp_solve.
Qed.


Section Locations.

Variable TIMES : list string.

Lemma process_location_total (t : string) (loc : Location) (st st' : State) :
  process_location py_str float_of_str fmt4 TIMES loc st = Some st' ->
  status_total t st'
  = (status_total t st
     + if covers t loc
       then length (List.filter (String.eqb t) TIMES) else 0)%nat.
Proof.
  unfold process_location, covers.
  destruct (LATK loc) as [LAT |], (LONK loc) as [LON |];
    try (intros [= <-]; lia).
  destruct (DATA loc) as [D |]; [| intros [= <-]; lia].
  intros H. apply (hours_loop_total t) in H. exact H.
Qed.

Lemma locations_loop_total (t : string) (locs : list Location)
      (st st' : State) :
  locations_loop py_str float_of_str fmt4 TIMES locs st = Some st' ->
  status_total t st'
  = (status_total t st
     + length (List.filter (covers t) locs)
       * length (List.filter (String.eqb t) TIMES))%nat.
Proof.
  revert st. induction locs as [| loc locs IH]; intros st H.
  - cbn in H. injection H as <-. cbn. lia.
  - cbn [locations_loop] in H.
    destruct (process_location _ _ _ _ loc st) as [st1 |] eqn:E;
      [| discriminate].
    apply IH in H. apply (process_location_total t) in E.
    rewrite H, E. cbn [List.filter].
    destruct (covers t loc); cbn [length]; lia.
Qed.

Lemma zero_counts_lookup (t : string) :
  default 0%nat (zero_counts TIMES !! t) = 0%nat.
Proof.
  unfold zero_counts.
  destruct (list_to_map _ !! t) as [v |] eqn:E; [| reflexivity].
  apply elem_of_list_to_map_2, list_elem_of_In, in_map_iff in E.
  destruct E as (x & [= _ <-] & _). reflexivity.
Qed.

Lemma status_total_initial (t : string) (prev : Dict.t) :
  status_total t (initial_state TIMES prev) = 0%nat.
Proof.
  unfold status_total, agg_get, initial_state. cbn [AGG].
  now rewrite !zero_counts_lookup.
Qed.

Lemma count_in_NoDup (t : string) (l : list string) :
  NoDup l -> In t l -> length (List.filter (String.eqb t) l) = 1%nat.
Proof.
  induction 1 as [| x l Hx Hnd IH]; [intros [] |].
  intros [-> | Hin]; cbn [List.filter].
  - rewrite String.eqb_refl. cbn [length]. f_equal.
    assert (Hnone : forall l', t ∉ l' ->
                               List.filter (String.eqb t) l' = []).
    { induction l' as [| y l' IHl]; [reflexivity |].
      intros Hy. apply not_elem_of_cons in Hy as [Hne Hy].
      cbn [List.filter]. apply String.eqb_neq in Hne. rewrite Hne.
      now apply IHl. }
    now rewrite Hnone.
  - destruct (String.eqb t x) eqn:E.
    + apply String.eqb_eq in E. subst x. exfalso. apply Hx.
      now apply list_elem_of_In.
    + now apply IH.
Qed.

(** The slots [strftime("%Y-%m-%dT%H:00")] builds are well formed: the
    hour is read back from its two digits. *)
Lemma HOUR_of_slot (date : string) (a b : ascii) (x y : Z) :
  has_char "T" date = false ->
  PyStr.digit a = Some x -> PyStr.digit b = Some y ->
  HOUR_of (date +:+ String "T" (String a (String b ":00")))
  = Some (10 * x + y)%Z.
Proof.
  intros Hd Ha Hb. unfold HOUR_of. rewrite split_once_app by exact Hd.
  destruct a as [[] [] [] [] [] [] [] []]; cbv in Ha; try discriminate Ha;
    injection Ha as <-;
    destruct b as [[] [] [] [] [] [] [] []]; cbv in Hb; try discriminate Hb;
    injection Hb as <-; reflexivity.
Qed.

Lemma hours_loop_returns (loc : Location) (LAT LON : Q) (D : Hourly)
      (slots : list string) (st : State) :
  Forall (fun TIME => is_Some (HOUR_of TIME)) slots ->
  is_Some (hours_loop py_str float_of_str fmt4 loc LAT LON D slots st).
Proof.
  intros H. revert st. induction H as [| TIME slots [HOUR E] _ IH]; intros st.
  - now eexists.
  - cbn [hours_loop]. rewrite E.
    destruct (index_of TIME (time D)); apply IH.
Qed.

Lemma locations_loop_returns (locs : list Location) (st : State) :
  Forall (fun TIME => is_Some (HOUR_of TIME)) TIMES ->
  is_Some (locations_loop py_str float_of_str fmt4 TIMES locs st).
Proof.
  intros H. revert st. induction locs as [| loc locs IH]; intros st.
  - now eexists.
  - cbn [locations_loop].
    assert (Hloc : is_Some (process_location py_str float_of_str fmt4 TIMES
                                             loc st)).
    { unfold process_location.
      destruct (LATK loc), (LONK loc); try (now eexists).
      destruct (DATA loc); [| now eexists].
      now apply hours_loop_returns. }
    destruct Hloc as [st1 ->]. apply IH.
Qed.

(** C8: a run over distinct, well-formed slots ends, and then at every
    slot of [TIMES] the Aman, Waspada and Rawan counts add up to the
    number of locations that were processed and whose time axis holds the
    slot: each such location-hour increments exactly one of the three
    counts of its slot and none of any other. *)
Theorem status_counts_cover (locs : list Location) (fs : FileState) :
  NoDup TIMES ->
  Forall (fun TIME => is_Some (HOUR_of TIME)) TIMES ->
  exists st fs',
    run_once py_str float_of_str fmt4 TIMES locs fs = Some (st, fs') /\
    (forall t, In t TIMES ->
       (agg_get AGG_AMAN t st + agg_get AGG_WASP t st + agg_get AGG_RAWAN t st
        = length (List.filter (covers t) locs))%nat) /\
    (forall t loc LAT LON D TIME idx HOUR st0,
       status_total t (fst (body loc LAT LON D TIME idx HOUR st0))
       = (status_total t st0 + if bool_decide (t = TIME) then 1 else 0)%nat).
Proof.
  intros Hnd Hok. unfold run_once.
  destruct (locations_loop_returns
              locs (initial_state TIMES (load_prev_temp_file fs)) Hok)
    as [st E].
  rewrite E. exists st, (save_prev_temp_file (PREV_TEMP st) fs).
  split; [reflexivity |].
  split; [| intros; apply status_total_hour].
  intros t Hin. apply (locations_loop_total t) in E.
  rewrite status_total_initial, (count_in_NoDup t TIMES Hnd Hin) in E.
  unfold status_total in E. lia.
Qed.

End Locations.

End Accumulators.

(** ** Concrete runs *)

(** An hour whose window 0, 0, 6 and whose two ensemble members (sums 0
    and 9) both reach the danger level: the count grows by two. *)
Lemma deviation_detections_add_up_witness :
  let D := mkHourly ["2025-01-01T05:00"; "2025-01-01T06:00"; "2025-01-01T07:00"]
                    [24; 24; 24]%Q [0; 0; 0]%Q [0; 0; 6]%Q [50; 50; 50]%Q
                    [5; 5; 5]%Q [0; 0; 0]%Q [8; 8; 8]%Q [0; 0; 0]%Q in
  let loc := mkLocation "Bekasi" (Some 0%Q) (Some 0%Q) (Some D) true
                        [[0; 0; 0]; [3; 3; 3]]%Q EmptyString in
  let st := initial_state ["2025-01-01T05:00"] [] in
  let st' :=
    fst (hour_body (fun _ => EmptyString) (fun _ => None)
                   (fun _ => EmptyString) loc 0%Q 0%Q D "2025-01-01T05:00"
                   0 5 st) in
  agg_get AGG_DEV_DANGER "2025-01-01T05:00" st' = 2%nat /\
  perkota_get PERKOTA_DEV_DANGER "Bekasi" st'
  = "2025-01-01 05:00 2025-01-01 05:00".
Proof.
  cbv zeta.
  set (D := mkHourly _ _ _ _ _ _ _ _ _).
  set (loc := mkLocation _ _ _ _ _ _ _).
  set (st := initial_state _ _).
  pose proof (deviation_detections_add_up
                (fun _ => EmptyString) (fun _ => None) (fun _ => EmptyString)
                loc 0%Q 0%Q D "2025-01-01T05:00" 0 5 st) as H.
  cbv zeta in H. destruct H as (_ & _ & H & _).
  assert (H1 : (1 <= Stdev_value
                       (dev_mm_of (precipitation D) (length (time D)) 0))%R).
  { rewrite <- Q2R_1. apply Stdev_value_ge. vm_compute. discriminate. }
  assert (H2 : (1 <= Stdev_value
                       (dev_ens_3hr_of (ensemble_available loc)
                                       (ensemble_members loc) 0))%R).
  { rewrite <- Q2R_1. apply Stdev_value_ge. vm_compute. discriminate. }
  destruct (H H1 H2) as [Ha Hp]. split.
  - etrans; [exact Ha | reflexivity].
  - etrans; [exact Hp | reflexivity].
Defined.


(** Two locations, one of them without forecast, and two slots. *)
Lemma status_counts_cover_witness :
  let TIMES := ["2025-01-01T05:00"; "2025-01-01T06:00"] in
  let D := mkHourly ["2025-01-01T05:00"] [24]%Q [0]%Q [0]%Q [50]%Q [5]%Q
                    [0]%Q [8]%Q [0]%Q in
  let locs := [mkLocation "Bogor" (Some 0%Q) (Some 0%Q) (Some D) false []
                          EmptyString;
               mkLocation "Depok" (Some 0%Q) (Some 0%Q) None false []
                          EmptyString] in
  exists st fs',
    run_once (fun _ => EmptyString) (fun _ => None) (fun _ => EmptyString)
             TIMES locs None = Some (st, fs') /\
    (agg_get AGG_AMAN "2025-01-01T05:00" st
     + agg_get AGG_WASP "2025-01-01T05:00" st
     + agg_get AGG_RAWAN "2025-01-01T05:00" st = 1)%nat /\
    (agg_get AGG_AMAN "2025-01-01T06:00" st
     + agg_get AGG_WASP "2025-01-01T06:00" st
     + agg_get AGG_RAWAN "2025-01-01T06:00" st = 0)%nat.
Proof.
  cbv zeta.
  set (TIMES := ["2025-01-01T05:00"; "2025-01-01T06:00"]).
  assert (Hnd : NoDup TIMES) by (apply (bool_decide_unpack _); reflexivity).
  assert (Hok : Forall (fun TIME => is_Some (HOUR_of TIME)) TIMES)
    by (repeat constructor; eexists; reflexivity).
  match goal with
  | |- exists st fs', run_once ?s ?f ?g _ ?locs ?fs = _ /\ _ =>
      destruct (status_counts_cover s f g TIMES locs fs Hnd Hok)
        as (st & fs' & Hrun & Hcount & _)
  end.
  exists st, fs'. split; [exact Hrun |]. split.
  - etrans; [apply Hcount; simpl; tauto | reflexivity].
  - etrans; [apply Hcount; simpl; tauto | reflexivity].
Defined.

(* ================================================================== *)
(** * Part III: further properties                                     *)
(* ================================================================== *)

(** ** The hour and the run *)

Section HourMore.
Variable py_str : Q -> string.
Variable float_of_str : string -> option Q.
Variable fmt4 : Q -> string.
Local Abbreviation body := (hour_body py_str float_of_str fmt4).

Ltac pick_disjunct :=
  solve [ lia | lra | reflexivity | assumption
        | left; pick_disjunct | right; pick_disjunct ].

Lemma resolve_status_Rawan (score : Z) (alert : bool)
      (RAINMM acc3 acc6 ANGIN WINDGUST : Q) (R : list string) :
  fst (resolve_status score alert RAINMM acc3 acc6 ANGIN WINDGUST R) = Rawan
  <-> (7 <= score)%Z \/ alert = true \/ (6 <= RAINMM)%Q \/
      (25 <= ANGIN)%Q \/ (45 <= WINDGUST)%Q.
Proof.
  unfold resolve_status, rule_gust, rule_wind, rule_acc, rule_rain, rule_bmkg,
    initial_status.
  unfold GUST_DANGER, GUST_WARN, WIND_DANGER, WIND_WARN, ACC3_RAWAN_MM,
    ACC6_RAWAN_MM, RAWAN_RAIN_MM, WASP_RAIN_MM.
  destruct alert; destruct (7 <=? score)%Z eqn:E7;
    destruct (4 <=? score)%Z eqn:E4;
    cbn [fst snd is_Rawan negb andb orb];
    try apply Z.leb_le in E7; try apply Z.leb_gt in E7;
    repeat match goal with
    | |- context [Num.leb ?a ?b] =>
        let E := fresh "E" in
        destruct (Num.leb a b) eqn:E;
        [apply leb_le in E | apply leb_gt in E];
        cbn [fst snd is_Rawan negb andb orb]
    end;
    (split; [intros H; try discriminate H; pick_disjunct
            | intros [H | [H | [H | [H | H]]]];
              try reflexivity; try discriminate H; try lia; try lra]).
Qed.

Lemma resolve_status_Aman (score : Z) (alert : bool)
      (RAINMM acc3 acc6 ANGIN WINDGUST : Q) (R : list string) :
  fst (resolve_status score alert RAINMM acc3 acc6 ANGIN WINDGUST R) = Aman
  <-> (score < 4)%Z /\ alert = false /\ (RAINMM < 2)%Q /\
      (acc3 < 15)%Q /\ (acc6 < 30)%Q /\ (ANGIN < 15)%Q /\ (WINDGUST < 30)%Q.
Proof.
  unfold resolve_status, rule_gust, rule_wind, rule_acc, rule_rain, rule_bmkg,
    initial_status.
  unfold GUST_DANGER, GUST_WARN, WIND_DANGER, WIND_WARN, ACC3_RAWAN_MM,
    ACC6_RAWAN_MM, RAWAN_RAIN_MM, WASP_RAIN_MM.
  destruct alert; destruct (7 <=? score)%Z eqn:E7;
    destruct (4 <=? score)%Z eqn:E4;
    cbn [fst snd is_Rawan negb andb orb];
    try apply Z.leb_le in E7; try apply Z.leb_gt in E7;
    try apply Z.leb_le in E4; try apply Z.leb_gt in E4;
    repeat match goal with
    | |- context [Num.leb ?a ?b] =>
        let E := fresh "E" in
        destruct (Num.leb a b) eqn:E;
        [apply leb_le in E | apply leb_gt in E];
        cbn [fst snd is_Rawan negb andb orb]
    end;
    (split; [intros H; try discriminate H;
             repeat split; solve [lia | lra | reflexivity]
            | intros (H1 & H2 & H3 & H4 & H5 & H6 & H7);
              try reflexivity; try discriminate H2; try lia; try lra]).
Qed.

(** X1: the final status of an hour in closed form.  It is Rawan exactly
    when the score is 7 or more, or the advisory raises an alert, or the
    rain of the hour is 6 mm or more, or the sustained wind is 25 km/h or
    more, or the gust is 45 km/h or more.  It is Aman exactly when the
    score is below 4, there is no alert, the rain of the hour is below
    2 mm, the accumulations over 3 and 6 hours are below 15 and 30 mm, the
    wind is below 15 km/h and the gust below 30 km/h. *)
Theorem final_status_cases (loc : Location) (LAT LON : Q) (D : Hourly)
        (TIME : string) (idx : nat) (HOUR : Z) (st : State) :
  let row := snd (body loc LAT LON D TIME idx HOUR st) in
  let RAINMM := nth idx (precipitation D) 0.0%Q in
  let ANGIN := nth idx (windspeed_10m D) 0.0%Q in
  let WINDGUST := nth idx (windgusts_10m D) 0.0%Q in
  (row_STATUS row = Rawan
   <-> (7 <= row_score row)%Z \/ bmkg_alert (BMK_SUM loc) = true \/
       (6 <= RAINMM)%Q \/ (25 <= ANGIN)%Q \/ (45 <= WINDGUST)%Q) /\
  (row_STATUS row = Aman
   <-> (row_score row < 4)%Z /\ bmkg_alert (BMK_SUM loc) = false /\
       (RAINMM < 2)%Q /\ (row_acc3 row < 15)%Q /\ (row_acc6 row < 30)%Q /\
       (ANGIN < 15)%Q /\ (WINDGUST < 30)%Q).
Proof.
  intros row RAINMM ANGIN WINDGUST.
  pose proof (hour_body_STATUS py_str float_of_str fmt4
                loc LAT LON D TIME idx HOUR st) as HS.
  cbv zeta in HS. fold row RAINMM ANGIN WINDGUST in HS. rewrite HS.
  split; [apply resolve_status_Rawan | apply resolve_status_Aman].
Qed.

(** *** What an hour leaves alone *)

Lemma rest_agg_incr (k : AggKey) (t : string) (st : State) :
  rest (agg_incr k t st) = rest st.
Proof. reflexivity. Qed.

Lemma rest_perkota_add (k : PerkotaKey) (K T : string) (st : State) :
  rest (perkota_add k K T st) = rest st.
Proof. reflexivity. Qed.

Lemma rest_when (c : bool) (f : State -> State) (st : State) :
  (forall s, rest (f s) = rest s) -> rest (when c f st) = rest st.
Proof. intros H. destruct c; [apply H | reflexivity]. Qed.

Lemma rest_when_incr (c : bool) (k : AggKey) (t : string) (st : State) :
  rest (when c (agg_incr k t) st) = rest st.
Proof. now destruct c. Qed.

Lemma rest_when_padd (c : bool) (k : PerkotaKey) (K T : string)
      (st : State) :
  rest (when c (perkota_add k K T) st) = rest st.
Proof. now destruct c. Qed.

Lemma rest_sky_count_incr (K d : string) (st : State) :
  rest (sky_count_incr K d st) = rest st.
Proof. reflexivity. Qed.

Lemma rest_file_rain_cat (c : RainCat) (K T : string) (st : State) :
  rest (file_rain_cat c K T st) = rest st.
Proof. now destruct c. Qed.

Lemma rest_flag_dev (d : Stdev) (K T : string) (st : State) :
  rest (flag_dev d K T st) = rest st.
Proof. unfold flag_dev. now destruct (dev_level d). Qed.

Lemma rest_with_PREV_TEMP (f : Dict.t -> Dict.t) (st : State) :
  rest (with_PREV_TEMP f st) = on_prev f (rest st).
Proof. reflexivity. Qed.

Lemma rest_count_status (s : Status) (K T : string) (st : State) :
  rest (count_status s K T st) = on_tally (tally_bump s) (rest st).
Proof. destruct s; reflexivity. Qed.

(** What one hour does to the store of previous temperatures and to the
    hour counts of the location. *)
Lemma hour_body_rest (loc : Location) (LAT LON : Q) (D : Hourly)
      (TIME : string) (idx : nat) (HOUR : Z) (st : State) :
  let v := py_str (nth idx (temperature_2m D) 0.0%Q) in
  rest (fst (body loc LAT LON D TIME idx HOUR st))
  = on_prev (Dict.set (key_latlon fmt4 LAT LON) v)
      (on_prev (Dict.set (K loc) v)
         (on_tally
            (tally_bump (row_STATUS (snd (body loc LAT LON D TIME idx HOUR st))))
            (rest st))).
Proof.
  unfold hour_body, dev_flags. cbv zeta. cbn [fst snd row_STATUS].
  repeat first
    [ rewrite rest_with_PREV_TEMP
    | rewrite rest_when_incr
    | rewrite rest_when_padd
    | rewrite rest_count_status
    | rewrite rest_flag_dev
    | rewrite rest_sky_count_incr
    | rewrite rest_file_rain_cat ].
  reflexivity.
Qed.

Lemma dict_get_set_eq (k v : string) (d : Dict.t) :
  Dict.get k (Dict.set k v d) = Some v.
Proof.
  induction d as [| [k' v'] d IH]; cbn [Dict.set Dict.get].
  - now rewrite String.eqb_refl.
  - destruct (String.eqb k k') eqn:E; cbn [Dict.get]; rewrite E;
      [reflexivity | exact IH].
Qed.

Lemma dict_get_set_ne (k k' v : string) (d : Dict.t) :
  k <> k' -> Dict.get k' (Dict.set k v d) = Dict.get k' d.
Proof.
  intros Hne. induction d as [| [k0 v0] d IH]; cbn [Dict.set Dict.get].
  - apply String.eqb_neq in Hne. rewrite String.eqb_sym. now rewrite Hne.
  - destruct (String.eqb k k0) eqn:E; cbn [Dict.get].
    + apply String.eqb_eq in E. subst k0.
      destruct (String.eqb k' k) eqn:E'; [| reflexivity].
      apply String.eqb_eq in E'. congruence.
    + now rewrite IH.
Qed.

Lemma dict_set_not_nil (k v : string) (d : Dict.t) : Dict.set k v d <> [].
Proof.
  destruct d as [| [k' v'] d]; cbn [Dict.set]; [discriminate |].
  destruct (String.eqb k k'); discriminate.
Qed.

Lemma hour_body_PREV_TEMP (loc : Location) (LAT LON : Q) (D : Hourly)
      (TIME : string) (idx : nat) (HOUR : Z) (st : State) :
  let v := py_str (nth idx (temperature_2m D) 0.0%Q) in
  PREV_TEMP (fst (body loc LAT LON D TIME idx HOUR st))
  = Dict.set (key_latlon fmt4 LAT LON) v (Dict.set (K loc) v (PREV_TEMP st)).
Proof.
  intros v.
  pose proof (hour_body_rest loc LAT LON D TIME idx HOUR st) as H.
  cbv zeta in H. apply (f_equal (fun r => r.1.1.1)) in H. exact H.
Qed.

Lemma hour_body_tally (loc : Location) (LAT LON : Q) (D : Hourly)
      (TIME : string) (idx : nat) (HOUR : Z) (st : State) :
  tally (fst (body loc LAT LON D TIME idx HOUR st))
  = tally_bump (row_STATUS (snd (body loc LAT LON D TIME idx HOUR st)))
               (tally st).
Proof.
  pose proof (hour_body_rest loc LAT LON D TIME idx HOUR st) as H.
  cbv zeta in H. apply (f_equal snd) in H. exact H.
Qed.

Lemma hour_body_processed (loc : Location) (LAT LON : Q) (D : Hourly)
      (TIME : string) (idx : nat) (HOUR : Z) (st : State) :
  processed_count (fst (body loc LAT LON D TIME idx HOUR st))
  = processed_count st /\
  processed_locations_list (fst (body loc LAT LON D TIME idx HOUR st))
  = processed_locations_list st.
Proof.
  pose proof (hour_body_rest loc LAT LON D TIME idx HOUR st) as H.
  cbv zeta in H. split.
  - apply (f_equal (fun r => r.1.1.2)) in H. exact H.
  - apply (f_equal (fun r => r.1.2)) in H. exact H.
Qed.

(** X2: within the hours of a location the temperature drop is measured
    against the hour processed just before.  After an hour, the lookup for
    the location returns the temperature text that hour stored, provided
    the name of the location has no outer whitespace or its stripped form
    is not a key of the store; the score of the next hour takes its
    previous temperature from that text. *)
Theorem prior_is_previous_hour (loc : Location) (LAT LON : Q) (D : Hourly)
        (TIME : string) (idx : nat) (HOUR : Z) (st : State)
        (TIME' : string) (idx' : nat) (HOUR' : Z) :
  PyStr.strip (K loc) = K loc \/
  Dict.get (PyStr.strip (K loc)) (PREV_TEMP st) = None ->
  let v := py_str (nth idx (temperature_2m D) 0.0%Q) in
  let st1 := fst (body loc LAT LON D TIME idx HOUR st) in
  lookup_prev_temp_for fmt4 (K loc) LAT LON (PREV_TEMP st1) = Some v /\
  row_score (snd (body loc LAT LON D TIME' idx' HOUR' st1))
  = fst (risk_score
           (nth idx' (relative_humidity_2m D) 0.0%Q)
           (nth idx' (temperature_2m D) 0.0%Q)
           (if PyStr.is_empty v then None else float_of_str v)
           (nth idx' (windspeed_10m D) 0.0%Q)
           (nth idx' (windgusts_10m D) 0.0%Q) HOUR'
           (nth idx' (uv_index D) 0.0%Q)
           (nth idx' (precipitation_probability D) 0.0%Q)
           (nth idx' (precipitation D) 0.0%Q) []).
Proof.
  intros Hk v st1.
  assert (Hlook :
    lookup_prev_temp_for fmt4 (K loc) LAT LON (PREV_TEMP st1) = Some v).
  { unfold st1. rewrite hour_body_PREV_TEMP. fold v.
    unfold lookup_prev_temp_for.
    set (d := Dict.set (K loc) v (PREV_TEMP st)).
    set (ll := key_latlon fmt4 LAT LON).
    destruct (Dict.set ll v d) eqn:Ed;
      [now apply dict_set_not_nil in Ed |]. rewrite <- Ed. clear Ed.
    destruct (decide (ll = PyStr.strip (K loc))) as [-> | Hll].
    - now rewrite dict_get_set_eq.
    - rewrite (dict_get_set_ne ll _ v d) by exact Hll.
      destruct Hk as [Hs | Hn].
      + rewrite Hs. unfold d. now rewrite dict_get_set_eq.
      + unfold d.
        destruct (decide (K loc = PyStr.strip (K loc))) as [He | Hne].
        * rewrite <- He. now rewrite dict_get_set_eq.
        * rewrite dict_get_set_ne by exact Hne. rewrite Hn.
          now rewrite dict_get_set_eq. }
  split; [exact Hlook |].
  rewrite (hour_body_score py_str float_of_str fmt4 _ _ _ _ _ _ _ _ []).
  now rewrite Hlook.
Qed.

Ltac decide_ctors :=
  repeat match goal with
  | |- context [bool_decide (?a = ?b)] =>
      first [ rewrite (bool_decide_eq_true_2 (a = b)) by reflexivity
            | rewrite (bool_decide_eq_false_2 (a = b)) by discriminate ]
  end.

Ltac drop_hits :=
  repeat match goal with
  | |- context [hit ?c ?k ?k' ?t ?t'] =>
      rewrite (hit_other_key c k k' t t') by discriminate
  end;
  rewrite ?hit_same_key.

(** The status of an hour with a dangerous wind or gust is Rawan. *)
Lemma danger_is_Rawan (loc : Location) (LAT LON : Q) (D : Hourly)
      (TIME : string) (idx : nat) (HOUR : Z) (st : State) :
  Num.leb WIND_DANGER (nth idx (windspeed_10m D) 0.0%Q) = true \/
  Num.leb GUST_DANGER (nth idx (windgusts_10m D) 0.0%Q) = true ->
  row_STATUS (snd (body loc LAT LON D TIME idx HOUR st)) = Rawan.
Proof.
  intros H. apply final_status_cases.
  unfold WIND_DANGER, GUST_DANGER in H.
  destruct H as [H | H]; apply leb_le in H; [do 3 right; left | do 4 right];
    lra.
Qed.

(** The increments of one hour, counter by counter. *)
Lemma hour_hits_cases (k : AggKey) (t TIME : string) (alert : bool)
      (HUJAN_PROB ANGIN WINDGUST : Q) (row : Row) :
  let here (c : bool) := if c && bool_decide (t = TIME) then 1%nat else 0%nat in
  hour_hits k t TIME alert HUJAN_PROB ANGIN WINDGUST row
  = match k with
    | AGG_AMAN => here (bool_decide (row_STATUS row = Aman))
    | AGG_WASP => here (bool_decide (row_STATUS row = Waspada))
    | AGG_RAWAN => here (bool_decide (row_STATUS row = Rawan))
    | AGG_THUNDER =>
        (here alert + here ((HUJAN_PROB >= 70)%py && (ANGIN >= 10)%py))%nat
    | AGG_WIND_WARN => here (ANGIN >= WIND_WARN)%py
    | AGG_WIND_DANGER => here (ANGIN >= WIND_DANGER)%py
    | AGG_GUST_WARN => here (WINDGUST >= GUST_WARN)%py
    | AGG_GUST_DANGER => here (WINDGUST >= GUST_DANGER)%py
    | AGG_RAIN_GERIMIS => here (bool_decide (row_rain_cat row = GERIMIS))
    | AGG_RAIN_RINGAN => here (bool_decide (row_rain_cat row = RINGAN))
    | AGG_RAIN_SEDANG => here (bool_decide (row_rain_cat row = SEDANG))
    | AGG_RAIN_DERAS => here (bool_decide (row_rain_cat row = DERAS))
    | AGG_DEV_WARN =>
        (here (bool_decide (dev_level (row_dev_mm row) = DEV_WARN))
         + here (bool_decide (dev_level (row_dev_ens_3hr row) = DEV_WARN)))%nat
    | AGG_DEV_DANGER =>
        (here (bool_decide (dev_level (row_dev_mm row) = DEV_DANGER))
         + here (bool_decide (dev_level (row_dev_ens_3hr row) = DEV_DANGER)))%nat
    end.
Proof.
  cbv zeta. unfold hour_hits.
  generalize (dev_level (row_dev_mm row)) (dev_level (row_dev_ens_3hr row)).
  intros lm le.
  destruct k, (row_rain_cat row); cbn [rain_agg_key]; drop_hits;
    decide_ctors; cbn [andb]; lia.
Qed.

Ltac leb_cases :=
  repeat match goal with
  | |- context [Num.leb ?a ?b] =>
      let E := fresh "E" in
      destruct (Num.leb a b) eqn:E;
      [apply leb_le in E | apply leb_gt in E]
  end.

Lemma hour_body_counters_ok (loc : Location) (LAT LON : Q) (D : Hourly)
      (TIME : string) (idx : nat) (HOUR : Z) (st : State) :
  counters_ok st ->
  counters_ok (fst (body loc LAT LON D TIME idx HOUR st)).
Proof.
  intros Hst t. specialize (Hst t).
  destruct Hst as (H1 & H2 & H3 & H4 & H5 & H6 & H7).
  unfold rain_total, status_total in *.
  rewrite !hour_body_agg, !hour_hits_cases. cbv zeta.
  pose proof (danger_is_Rawan loc LAT LON D TIME idx HOUR st) as HR.
  set (row := snd (body loc LAT LON D TIME idx HOUR st)) in *.
  destruct (bool_decide (t = TIME));
    rewrite ?andb_false_r, ?andb_true_r; [| repeat split; lia].
  assert (Hs : ((if bool_decide (row_STATUS row = Aman) then 1 else 0)
                + (if bool_decide (row_STATUS row = Waspada) then 1 else 0)
                + (if bool_decide (row_STATUS row = Rawan) then 1 else 0)
                = 1)%nat)
    by (destruct (row_STATUS row); decide_ctors; reflexivity).
  assert (Hr : ((if bool_decide (row_rain_cat row = GERIMIS) then 1 else 0)
                + (if bool_decide (row_rain_cat row = RINGAN) then 1 else 0)
                + (if bool_decide (row_rain_cat row = SEDANG) then 1 else 0)
                + (if bool_decide (row_rain_cat row = DERAS) then 1 else 0)
                <= 1)%nat)
    by (destruct (row_rain_cat row); decide_ctors; cbn; lia).
  assert (Hw : ((if Num.leb WIND_DANGER (nth idx (windspeed_10m D) 0.0%Q)
                 then 1 else 0)
                <= if bool_decide (row_STATUS row = Rawan) then 1 else 0)%nat).
  { destruct (Num.leb WIND_DANGER _) eqn:E; [| lia].
    rewrite HR by now left. decide_ctors. lia. }
  assert (Hg : ((if Num.leb GUST_DANGER (nth idx (windgusts_10m D) 0.0%Q)
                 then 1 else 0)
                <= if bool_decide (row_STATUS row = Rawan) then 1 else 0)%nat).
  { destruct (Num.leb GUST_DANGER _) eqn:E; [| lia].
    rewrite HR by now right. decide_ctors. lia. }
  assert (Hww : ((if Num.leb WIND_DANGER (nth idx (windspeed_10m D) 0.0%Q)
                  then 1 else 0)
                 <= if Num.leb WIND_WARN (nth idx (windspeed_10m D) 0.0%Q)
                    then 1 else 0)%nat).
  { unfold WIND_DANGER, WIND_WARN. leb_cases; try lia. exfalso; lra. }
  assert (Hgw : ((if Num.leb GUST_DANGER (nth idx (windgusts_10m D) 0.0%Q)
                  then 1 else 0)
                 <= if Num.leb GUST_WARN (nth idx (windgusts_10m D) 0.0%Q)
                    then 1 else 0)%nat).
  { unfold GUST_DANGER, GUST_WARN. leb_cases; try lia. exfalso; lra. }
  assert (Hd : ((if bool_decide (dev_level (row_dev_mm row) = DEV_WARN)
                 then 1 else 0)
                + (if bool_decide (dev_level (row_dev_mm row) = DEV_DANGER)
                   then 1 else 0) <= 1)%nat)
    by (destruct (dev_level (row_dev_mm row)); decide_ctors; cbn; lia).
  assert (He : ((if bool_decide (dev_level (row_dev_ens_3hr row) = DEV_WARN)
                 then 1 else 0)
                + (if bool_decide (dev_level (row_dev_ens_3hr row) = DEV_DANGER)
                   then 1 else 0) <= 1)%nat)
    by (destruct (dev_level (row_dev_ens_3hr row)); decide_ctors; cbn; lia).
  repeat split; try lia.
  destruct (bmkg_alert (BMK_SUM loc));
    destruct (_ && _); lia.
Qed.

Lemma tally_bump_sum (s : Status) (t : nat * nat * nat) :
  ((tally_bump s t).1.1 + (tally_bump s t).1.2 + (tally_bump s t).2
   = t.1.1 + t.1.2 + t.2 + 1)%nat.
Proof. destruct s; cbn; lia. Qed.

Lemma agg_steps_when_incr (TIME : string) (c : bool) (k : AggKey)
      (st x : State) :
  agg_steps TIME st x -> agg_steps TIME st (when c (agg_incr k TIME) x).
Proof. intros H. destruct c; cbn [when]; [now constructor | exact H]. Qed.

Lemma agg_steps_when_padd (TIME : string) (c : bool) (k : PerkotaKey)
      (K T : string) (st x : State) :
  agg_steps TIME st x -> agg_steps TIME st (when c (perkota_add k K T) x).
Proof.
  intros H. destruct c; cbn [when]; [| exact H].
  now apply (agg_steps_same _ _ x).
Qed.

Lemma agg_steps_padd (TIME : string) (k : PerkotaKey) (K T : string)
      (st x : State) :
  agg_steps TIME st x -> agg_steps TIME st (perkota_add k K T x).
Proof. intros H. now apply (agg_steps_same _ _ x). Qed.

Lemma agg_steps_file_rain_cat (TIME : string) (c : RainCat) (K : string)
      (st x : State) :
  agg_steps TIME st x -> agg_steps TIME st (file_rain_cat c K TIME x).
Proof.
  intros H. destruct c; cbn [file_rain_cat]; try exact H;
    apply agg_steps_incr; now apply agg_steps_padd.
Qed.

Lemma agg_steps_flag_dev (TIME : string) (d : Stdev) (K : string)
      (st x : State) :
  agg_steps TIME st x -> agg_steps TIME st (flag_dev d K TIME x).
Proof.
  intros H. unfold flag_dev. destruct (dev_level d); try exact H;
    apply agg_steps_incr; now apply agg_steps_padd.
Qed.

Lemma agg_steps_count_status (TIME : string) (s : Status) (K : string)
      (st x : State) :
  agg_steps TIME st x -> agg_steps TIME st (count_status s K TIME x).
Proof.
  intros H. unfold count_status. cbv zeta.
  destruct s;
    repeat match goal with
           | |- context [decide (?a = ?b)] =>
               destruct (decide (a = b)); try discriminate; try congruence
           end.
  - eapply agg_steps_same; [apply (agg_steps_incr _ _ AGG_AMAN); exact H |].
    reflexivity.
  - eapply agg_steps_same; [apply (agg_steps_incr _ _ AGG_WASP); exact H |].
    reflexivity.
  - eapply agg_steps_same; [apply (agg_steps_incr _ _ AGG_RAWAN); exact H |].
    reflexivity.
Qed.

Lemma agg_steps_sky (TIME K d : string) (st x : State) :
  agg_steps TIME st x -> agg_steps TIME st (sky_count_incr K d x).
Proof. intros H. now apply (agg_steps_same _ _ x). Qed.

Lemma agg_steps_prev (TIME : string) (f : Dict.t -> Dict.t) (st x : State) :
  agg_steps TIME st x -> agg_steps TIME st (with_PREV_TEMP f x).
Proof. intros H. now apply (agg_steps_same _ _ x). Qed.

(** An hour changes the counters only by increments at its own slot. *)
Lemma hour_body_agg_steps (loc : Location) (LAT LON : Q) (D : Hourly)
      (TIME : string) (idx : nat) (HOUR : Z) (st : State) :
  agg_steps TIME st (fst (body loc LAT LON D TIME idx HOUR st)).
Proof.
  unfold hour_body, dev_flags. cbv zeta. cbn [fst].
  repeat first
    [ apply agg_steps_prev
    | apply agg_steps_when_incr
    | apply agg_steps_when_padd
    | apply agg_steps_count_status
    | apply agg_steps_flag_dev
    | apply agg_steps_sky
    | apply agg_steps_file_rain_cat ].
  apply agg_steps_refl.
Qed.

Lemma agg_steps_keys (TIMES : list string) (TIME : string) (st st' : State) :
  In TIME TIMES -> agg_steps TIME st st' ->
  agg_keys_ok TIMES st -> agg_keys_ok TIMES st'.
Proof.
  intros Hin Hs Hok. induction Hs as [| k st' _ IH | st' st'' _ IH E].
  - exact Hok.
  - intros k' t. specialize (IH k' t).
    unfold agg_incr, with_AGG, upd. cbn [AGG].
    destruct (decide (k = k')) as [-> | Hk]; [| exact IH].
    destruct (decide (TIME = t)) as [-> | Ht].
    + rewrite lookup_insert_eq. split; [intros _; exact Hin | now eexists].
    + now rewrite lookup_insert_ne.
  - intros k t. rewrite E. apply IH.
Qed.

Lemma agg_steps_other_slot (TIME : string) (st st' : State) (k : AggKey)
      (t : string) :
  agg_steps TIME st st' -> t <> TIME -> AGG st' k !! t = AGG st k !! t.
Proof.
  intros Hs Ht. induction Hs as [| k' st' _ IH | st' st'' _ IH E].
  - reflexivity.
  - rewrite <- IH. unfold agg_incr, with_AGG, upd. cbn [AGG].
    destruct (decide (k' = k)) as [-> | Hk]; [| reflexivity].
    now rewrite lookup_insert_ne by congruence.
  - now rewrite E.
Qed.

Section RunMore.

Variable TIMES : list string.

Local Abbreviation hours := (hours_loop py_str float_of_str fmt4).
Local Abbreviation locations := (locations_loop py_str float_of_str fmt4 TIMES).
Local Abbreviation run := (run_once py_str float_of_str fmt4 TIMES).

(** A property that opening a location and processing an hour keep is
    kept by the loops. *)
Lemma hours_loop_invariant (P : State -> Prop) (loc : Location)
      (LAT LON : Q) (D : Hourly) (slots : list string) (st st' : State) :
  (forall TIME idx HOUR s,
      In TIME slots -> P s -> P (fst (body loc LAT LON D TIME idx HOUR s))) ->
  P st -> hours loc LAT LON D slots st = Some st' -> P st'.
Proof.
  revert st. induction slots as [| TIME slots IH]; intros st Hstep HP H.
  - cbn in H. now injection H as <-.
  - cbn [hours_loop] in H.
    assert (Hstep' : forall TIME0 idx HOUR s,
               In TIME0 slots -> P s ->
               P (fst (body loc LAT LON D TIME0 idx HOUR s)))
      by (intros; apply Hstep; [now right | assumption]).
    destruct (index_of TIME (time D)) as [idx |]; [| now apply (IH st)].
    destruct (HOUR_of TIME) as [HOUR |]; [| discriminate].
    apply (IH _ Hstep') in H; [exact H |].
    apply Hstep; [now left | exact HP].
Qed.

Lemma locations_loop_invariant (P : State -> Prop) (locs : list Location)
      (st st' : State) :
  (forall K s, P s -> P (open_location K s)) ->
  (forall loc LAT LON D TIME idx HOUR s,
      In TIME TIMES -> P s -> P (fst (body loc LAT LON D TIME idx HOUR s))) ->
  P st -> locations locs st = Some st' -> P st'.
Proof.
  intros Hopen Hstep. revert st.
  induction locs as [| loc locs IH]; intros st HP H.
  - cbn in H. now injection H as <-.
  - cbn [locations_loop] in H.
    destruct (process_location _ _ _ _ loc st) as [st1 |] eqn:E;
      [| discriminate].
    apply (IH st1); [| exact H].
    unfold process_location in E.
    destruct (LATK loc) as [LAT |]; [| now injection E as <-].
    destruct (LONK loc) as [LON |]; [| now injection E as <-].
    destruct (DATA loc) as [D |]; [| now injection E as <-].
    eapply hours_loop_invariant; [| | exact E].
    + intros. now apply Hstep.
    + now apply Hopen.
Qed.

Lemma run_counters_ok (locs : list Location) (fs fs' : FileState)
      (st : State) :
  run locs fs = Some (st, fs') -> counters_ok st.
Proof.
  unfold run_once. intros H.
  destruct (locations_loop _ _ _ _ locs _) as [st1 |] eqn:E; [| discriminate].
  injection H as <- _.
  eapply (locations_loop_invariant counters_ok); [| | | exact E].
  - intros K s Hs t. exact (Hs t).
  - intros. now apply hour_body_counters_ok.
  - intros t. unfold rain_total, status_total, agg_get, initial_state.
    cbn [AGG]. rewrite !zero_counts_lookup. lia.
Qed.

Lemma run_status_total (locs : list Location) (fs fs' : FileState)
      (st : State) (t : string) :
  NoDup TIMES -> In t TIMES ->
  run locs fs = Some (st, fs') ->
  status_total t st = length (List.filter (covers t) locs).
Proof.
  intros Hnd Hin H. unfold run_once in H.
  destruct (locations_loop _ _ _ _ locs _) as [st1 |] eqn:E; [| discriminate].
  injection H as <- _.
  apply (locations_loop_total _ _ _ _ t) in E.
  rewrite status_total_initial, (count_in_NoDup t TIMES Hnd Hin) in E. lia.
Qed.

Lemma positive_times_In (k : AggKey) (st : State) (t : string) :
  In t (positive_times TIMES k st)
  <-> In t TIMES /\ (0 < agg_get k t st)%nat.
Proof. unfold positive_times. now rewrite filter_In, Nat.ltb_lt. Qed.

Lemma run_returns (locs : list Location) (fs : FileState) :
  Forall (fun TIME => is_Some (HOUR_of TIME)) TIMES ->
  exists st, run locs fs = Some (st, save_prev_temp_file (PREV_TEMP st) fs).
Proof.
  intros Hok. unfold run_once.
  destruct (locations_loop_returns
              py_str float_of_str fmt4 TIMES
              locs (initial_state TIMES (load_prev_temp_file fs)) Hok)
    as [st E].
  rewrite E. now exists st.
Qed.

(** X3: after a run over well-formed slots, at every slot the count of
    dangerous wind is at most the count of strong wind, and likewise for
    gusts; so every slot of the dangerous wind (gust) window is also in
    the strong wind (gust) window of the summary. *)
Theorem danger_windows_nested (locs : list Location) (fs : FileState) :
  Forall (fun TIME => is_Some (HOUR_of TIME)) TIMES ->
  exists st fs',
    run locs fs = Some (st, fs') /\
    forall t,
      (agg_get AGG_WIND_DANGER t st <= agg_get AGG_WIND_WARN t st)%nat /\
      (agg_get AGG_GUST_DANGER t st <= agg_get AGG_GUST_WARN t st)%nat /\
      (In t (positive_times TIMES AGG_WIND_DANGER st) ->
       In t (positive_times TIMES AGG_WIND_WARN st)) /\
      (In t (positive_times TIMES AGG_GUST_DANGER st) ->
       In t (positive_times TIMES AGG_GUST_WARN st)).
Proof.
  intros Hok. destruct (run_returns locs fs Hok) as [st H].
  exists st, (save_prev_temp_file (PREV_TEMP st) fs).
  split; [exact H |]. intros t.
  destruct (run_counters_ok _ _ _ _ H t) as (H1 & H2 & _).
  rewrite !positive_times_In.
  split; [lia |]. split; [lia |].
  split; intros [Hi Hp]; (split; [exact Hi | lia]).
Qed.

(** X4: after a run over well-formed slots, every location-hour with
    dangerous wind or a dangerous gust was counted Rawan: at every slot
    neither danger count exceeds the Rawan count, and a slot of a danger
    window has a positive Rawan count. *)
Theorem danger_slots_are_risky (locs : list Location) (fs : FileState) :
  Forall (fun TIME => is_Some (HOUR_of TIME)) TIMES ->
  exists st fs',
    run locs fs = Some (st, fs') /\
    forall t,
      (agg_get AGG_WIND_DANGER t st <= agg_get AGG_RAWAN t st)%nat /\
      (agg_get AGG_GUST_DANGER t st <= agg_get AGG_RAWAN t st)%nat /\
      (In t (positive_times TIMES AGG_WIND_DANGER st) \/
       In t (positive_times TIMES AGG_GUST_DANGER st) ->
       In t (positive_times TIMES AGG_RAWAN st)).
Proof.
  intros Hok. destruct (run_returns locs fs Hok) as [st H].
  exists st, (save_prev_temp_file (PREV_TEMP st) fs).
  split; [exact H |]. intros t.
  destruct (run_counters_ok _ _ _ _ H t) as (_ & _ & H3 & H4 & _).
  rewrite !positive_times_In.
  split; [lia |]. split; [lia |].
  intros [[Hi Hp] | [Hi Hp]]; (split; [exact Hi | lia]).
Qed.

(** X5: after a run over distinct, well-formed slots, the four rain
    category counts of a slot add up to at most the number of locations
    that cover the slot: a location-hour is filed under at most one rain
    category. *)
Theorem rain_counts_bounded (locs : list Location) (fs : FileState) :
  NoDup TIMES ->
  Forall (fun TIME => is_Some (HOUR_of TIME)) TIMES ->
  exists st fs',
    run locs fs = Some (st, fs') /\
    forall t, In t TIMES ->
      (agg_get AGG_RAIN_GERIMIS t st + agg_get AGG_RAIN_RINGAN t st
       + agg_get AGG_RAIN_SEDANG t st + agg_get AGG_RAIN_DERAS t st
       <= length (List.filter (covers t) locs))%nat.
Proof.
  intros Hnd Hok. destruct (run_returns locs fs Hok) as [st H].
  exists st, (save_prev_temp_file (PREV_TEMP st) fs).
  split; [exact H |]. intros t Hin.
  destruct (run_counters_ok _ _ _ _ H t) as (_ & _ & _ & _ & H5 & _).
  rewrite <- (run_status_total _ _ _ _ _ Hnd Hin H). exact H5.
Qed.

(** X6: after a run over distinct, well-formed slots, the thunder count
    of a slot and its two deviation counts taken together are each at most
    twice the number of locations that cover the slot: one location-hour
    can be counted twice, by the two thunder rules or by the two deviation
    measures, and never more. *)
Theorem thunder_and_deviation_bounded (locs : list Location)
        (fs : FileState) :
  NoDup TIMES ->
  Forall (fun TIME => is_Some (HOUR_of TIME)) TIMES ->
  exists st fs',
    run locs fs = Some (st, fs') /\
    forall t, In t TIMES ->
      (agg_get AGG_THUNDER t st
       <= 2 * length (List.filter (covers t) locs))%nat /\
      (agg_get AGG_DEV_WARN t st + agg_get AGG_DEV_DANGER t st
       <= 2 * length (List.filter (covers t) locs))%nat.
Proof.
  intros Hnd Hok. destruct (run_returns locs fs Hok) as [st H].
  exists st, (save_prev_temp_file (PREV_TEMP st) fs).
  split; [exact H |]. intros t Hin.
  destruct (run_counters_ok _ _ _ _ H t) as (_ & _ & _ & _ & _ & H6 & H7).
  rewrite <- (run_status_total _ _ _ _ _ Hnd Hin H). split; assumption.
Qed.

Lemma hours_loop_tally (loc : Location) (LAT LON : Q) (D : Hourly)
      (slots : list string) (st st' : State) :
  hours loc LAT LON D slots st = Some st' ->
  (aman st' + wasp st' + rawan st'
   = aman st + wasp st + rawan st
     + length (List.filter (fun t => existsb (String.eqb t) (time D)) slots))%nat.
Proof.
  revert st. induction slots as [| TIME slots IH]; intros st H.
  - cbn in H. injection H as <-. cbn. lia.
  - cbn [hours_loop] in H. cbn [List.filter].
    rewrite (index_of_found TIME (time D)).
    destruct (index_of TIME (time D)) as [idx |]; [| now apply IH].
    destruct (HOUR_of TIME) as [HOUR |]; [| discriminate].
    apply IH in H. rewrite H. cbn [length].
    pose proof (hour_body_tally loc LAT LON D TIME idx HOUR st) as Ht.
    pose proof (tally_bump_sum
                  (row_STATUS (snd (body loc LAT LON D TIME idx HOUR st)))
                  (tally st)) as Hs.
    rewrite <- Ht in Hs. unfold tally in Hs. cbn [fst snd] in Hs. lia.
Qed.

(** X7: for a location with coordinates and a forecast, over
    well-formed slots, the three hour counts printed under the location
    add up to the number of requested slots found in the time axis of its
    forecast. *)
Theorem location_hour_counts (loc : Location) (LAT LON : Q) (D : Hourly)
        (st : State) :
  Forall (fun TIME => is_Some (HOUR_of TIME)) TIMES ->
  LATK loc = Some LAT -> LONK loc = Some LON -> DATA loc = Some D ->
  exists st',
    process_location py_str float_of_str fmt4 TIMES loc st = Some st' /\
    (aman st' + wasp st' + rawan st'
     = length (List.filter (fun t => existsb (String.eqb t) (time D))
                           TIMES))%nat.
Proof.
  intros Hok H1 H2 H3. unfold process_location. rewrite H1, H2, H3.
  destruct (hours_loop_returns py_str float_of_str fmt4 loc LAT LON D TIMES
                               (open_location (K loc) st) Hok) as [st' H].
  exists st'. split; [exact H |].
  apply hours_loop_tally in H. rewrite H. cbn. lia.
Qed.

Lemma hours_loop_processed (loc : Location) (LAT LON : Q) (D : Hourly)
      (slots : list string) (st st' : State) :
  hours loc LAT LON D slots st = Some st' ->
  processed_count st' = processed_count st /\
  processed_locations_list st' = processed_locations_list st.
Proof.
  intros H.
  apply (hours_loop_invariant
           (fun s => processed_count s = processed_count st /\
                     processed_locations_list s = processed_locations_list st))
    in H; [exact H | | split; reflexivity].
  intros TIME idx HOUR s _ [Ha Hb].
  destruct (hour_body_processed loc LAT LON D TIME idx HOUR s) as [-> ->].
  now split.
Qed.

Lemma process_location_processed (loc : Location) (st st' : State) :
  process_location py_str float_of_str fmt4 TIMES loc st = Some st' ->
  processed_count st'
  = (processed_count st + if processed loc then 1 else 0)%nat /\
  processed_locations_list st'
  = processed_locations_list st ++ (if processed loc then [K loc] else []).
Proof.
  unfold process_location, processed.
  destruct (LATK loc) as [LAT |], (LONK loc) as [LON |], (DATA loc) as [D |];
    try (intros [= <-]; rewrite app_nil_r; split; [lia | reflexivity]).
  intros H. apply hours_loop_processed in H. destruct H as [-> ->].
  cbn. split; [lia | reflexivity].
Qed.

Lemma locations_loop_processed (locs : list Location) (st st' : State) :
  locations locs st = Some st' ->
  processed_count st'
  = (processed_count st + length (List.filter processed locs))%nat /\
  processed_locations_list st'
  = processed_locations_list st ++ map K (List.filter processed locs).
Proof.
  revert st. induction locs as [| loc locs IH]; intros st H.
  - cbn in H. injection H as <-. cbn. rewrite app_nil_r. split; [lia | easy].
  - cbn [locations_loop] in H.
    destruct (process_location _ _ _ _ loc st) as [st1 |] eqn:E;
      [| discriminate].
    apply IH in H. destruct H as [Hc Hl]. rewrite Hc, Hl. clear Hc Hl.
    apply process_location_processed in E. destruct E as [-> ->].
    cbn [List.filter]. destruct (processed loc); cbn [length map].
    + split; [lia | now rewrite <- app_assoc].
    + rewrite app_nil_r. split; [lia | reflexivity].
Qed.

Lemma run_processed (locs : list Location) (fs fs' : FileState)
      (st : State) :
  run locs fs = Some (st, fs') ->
  processed_count st = length (List.filter processed locs) /\
  processed_locations_list st = map K (List.filter processed locs).
Proof.
  unfold run_once. intros H.
  destruct (locations_loop _ _ _ _ locs _) as [st1 |] eqn:E; [| discriminate].
  injection H as <- _.
  apply locations_loop_processed in E. destruct E as [Hc Hl].
  cbn in Hc, Hl. now rewrite Hc, Hl.
Qed.

(** X8: a run over well-formed slots counts as processed exactly the
    locations that have both coordinates and a forecast, and lists their
    names in the order of the input. *)
Theorem processed_locations_are_the_fetched (locs : list Location)
        (fs : FileState) :
  Forall (fun TIME => is_Some (HOUR_of TIME)) TIMES ->
  exists st fs',
    run locs fs = Some (st, fs') /\
    processed_count st = length (List.filter processed locs) /\
    processed_locations_list st = map K (List.filter processed locs) /\
    processed_count st = length (processed_locations_list st).
Proof.
  intros Hok. destruct (run_returns locs fs Hok) as [st H].
  exists st, (save_prev_temp_file (PREV_TEMP st) fs).
  split; [exact H |].
  destruct (run_processed _ _ _ _ H) as [Hc Hl].
  rewrite Hc, Hl, length_map. auto.
Qed.

Lemma covers_processed (t : string) (loc : Location) :
  covers t loc = true -> processed loc = true.
Proof.
  unfold covers, processed.
  now destruct (LATK loc), (LONK loc), (DATA loc).
Qed.

Lemma filter_covers_le (t : string) (locs : list Location) :
  (length (List.filter (covers t) locs)
   <= length (List.filter processed locs))%nat.
Proof.
  induction locs as [| loc locs IH]; [cbn; lia |].
  cbn [List.filter]. pose proof (covers_processed t loc) as Hc.
  destruct (covers t loc).
  - rewrite Hc by reflexivity. cbn [length]. lia.
  - destruct (processed loc); cbn [length]; lia.
Qed.

Lemma run_status_le_processed (locs : list Location) (fs fs' : FileState)
      (st : State) (t : string) :
  NoDup TIMES -> In t TIMES ->
  run locs fs = Some (st, fs') ->
  (status_total t st <= processed_count st)%nat.
Proof.
  intros Hnd Hin H.
  rewrite (run_status_total _ _ _ _ _ Hnd Hin H).
  destruct (run_processed locs fs fs' st H) as [-> _].
  apply filter_covers_le.
Qed.

(** X9: after a run over distinct, well-formed slots, the status counts
    of a slot add up to at most the number of processed locations, and a
    slot is both a best safe hour and a risky hour only when at least 10
    locations were processed. *)
Theorem best_and_risky_overlap_needs_ten (locs : list Location)
        (fs : FileState) :
  NoDup TIMES ->
  Forall (fun TIME => is_Some (HOUR_of TIME)) TIMES ->
  exists st fs',
    run locs fs = Some (st, fs') /\
    forall t,
      (In t TIMES -> (status_total t st <= processed_count st)%nat) /\
      (In t (best_aman_times TIMES st) -> In t (any_rawan_times TIMES st) ->
       (10 <= processed_count st)%nat).
Proof.
  intros Hnd Hok. destruct (run_returns locs fs Hok) as [st H].
  exists st, (save_prev_temp_file (PREV_TEMP st) fs).
  split; [exact H |]. intros t.
  split; [intros Hin; now apply (run_status_le_processed _ _ _ _ _ Hnd Hin H) |].
  intros Hb Hr. unfold best_aman_times, any_rawan_times in *.
  apply filter_In in Hb. destruct Hb as [Hin Hb].
  apply filter_In in Hr. destruct Hr as [_ Hr].
  apply Nat.ltb_lt in Hr.
  pose proof (run_status_le_processed _ _ _ _ _ Hnd Hin H) as Hle.
  unfold status_total in Hle.
  unfold is_best_aman in Hb. apply andb_true_iff in Hb.
  destruct Hb as [Hn Hb]. apply Nat.ltb_lt in Hn. apply Z.leb_le in Hb.
  rewrite best_aman_threshold in Hb.
  assert (Hc : (inject_Z (Z.of_nat (processed_count st)) * 0.8
                <= inject_Z (Qceiling (inject_Z (Z.of_nat (processed_count st)) * 0.8)))%Q)
    by apply Qle_ceiling.
  assert (Hq : (inject_Z (Z.of_nat (processed_count st)) * 0.8
                <= inject_Z (Z.of_nat (agg_get AGG_AMAN t st)))%Q).
  { eapply Qle_trans; [exact Hc |]. rewrite <- Zle_Qle. exact Hb. }
  unfold Qle in Hq. cbn in Hq. lia.
Qed.

Lemma zero_counts_keys (t : string) (slots : list string) :
  is_Some (zero_counts slots !! t) <-> In t slots.
Proof.
  unfold zero_counts. induction slots as [| a l IH].
  - change (is_Some ((∅ : gmap string nat) !! t) <-> False).
    rewrite lookup_empty. split; [intros [x Hx]; discriminate | intros []].
  - change (is_Some (<[a := 0%nat]>
                       (list_to_map (map (fun t => (t, 0%nat)) l)
                        : gmap string nat) !! t)
            <-> a = t \/ In t l).
    destruct (decide (a = t)) as [-> | Hne].
    + rewrite lookup_insert_eq. split; [now left | now eexists].
    + rewrite lookup_insert_ne by exact Hne. rewrite IH. tauto.
Qed.

(** X10: a run over well-formed slots leaves every counter dictionary
    with exactly the requested slots as keys: the hours only increment
    entries at their own slot, which is a key from the start, so the
    in-place increments of the rain counters find their key. *)
Theorem counter_keys_are_the_slots (locs : list Location) (fs : FileState) :
  Forall (fun TIME => is_Some (HOUR_of TIME)) TIMES ->
  exists st fs',
    run locs fs = Some (st, fs') /\
    (forall k t, is_Some (AGG st k !! t) <-> In t TIMES) /\
    (forall loc LAT LON D TIME idx HOUR st0 k t,
        t <> TIME ->
        AGG (fst (body loc LAT LON D TIME idx HOUR st0)) k !! t
        = AGG st0 k !! t).
Proof.
  intros Hok. destruct (run_returns locs fs Hok) as [st H].
  exists st, (save_prev_temp_file (PREV_TEMP st) fs).
  split; [exact H |]. split.
  - unfold run_once in H.
    destruct (locations_loop _ _ _ _ locs _) as [st1 |] eqn:E;
      [| discriminate].
    injection H as <-.
    eapply (locations_loop_invariant (agg_keys_ok TIMES)); [| | | exact E].
    + intros K0 s Hs. exact Hs.
    + intros loc LAT LON D TIME idx HOUR s Hin Hs.
      eapply agg_steps_keys; [exact Hin | apply hour_body_agg_steps | exact Hs].
    + intros k t. cbn [initial_state AGG]. apply zero_counts_keys.
  - intros loc LAT LON D TIME idx HOUR st0 k t Hne.
    apply (agg_steps_other_slot TIME); [apply hour_body_agg_steps | exact Hne].
Qed.

End RunMore.

End HourMore.

(** ** The accumulations of an hour *)

Section Accumulation.

Variable py_str : Q -> string.
Variable float_of_str : string -> option Q.
Variable fmt4 : Q -> string.

Local Abbreviation hour := (hour_body py_str float_of_str fmt4).

Lemma Qsum_app (xs ys : list Q) : (Qsum (xs ++ ys) == Qsum xs + Qsum ys)%Q.
Proof.
  induction xs as [| x xs IH]; cbn [app].
  - rewrite Qsum_nil. ring.
  - rewrite !Qsum_cons, IH. ring.
Qed.

Lemma window_vals_split (arr : list Q) (LEN idx : nat) :
  window_vals arr LEN idx 6
  = window_vals arr LEN idx 3
    ++ take 3 (drop (idx + 3) (take LEN arr)).
Proof.
  rewrite !window_vals_take. rewrite <- drop_drop.
  generalize (drop idx (take LEN arr)). intros l.
  destruct l as [| a [| b [| c l]]]; reflexivity.
Qed.

Lemma Forall_window (P : Q -> Prop) (arr : list Q) (LEN idx w : nat) :
  Forall P arr -> Forall P (window_vals arr LEN idx w).
Proof.
  intros H. rewrite window_vals_take.
  now apply Forall_take, Forall_drop, Forall_take.
Qed.

(** X11: when no precipitation value of the forecast is negative, the
    accumulations of an hour satisfy 0 <= acc3 <= acc6, and for an hour
    inside the time axis the rain of the hour itself is at most acc3. *)
Theorem accumulations_ordered (loc : Location) (LAT LON : Q) (D : Hourly)
        (TIME : string) (idx : nat) (HOUR : Z) (st : State) :
  Forall (fun x => 0 <= x)%Q (precipitation D) ->
  let row := snd (hour loc LAT LON D TIME idx HOUR st) in
  (0 <= row_acc3 row)%Q /\ (row_acc3 row <= row_acc6 row)%Q /\
  ((idx < length (time D))%nat ->
   (nth idx (precipitation D) 0.0 <= row_acc3 row)%Q).
Proof.
  intros Hpos row. unfold row, hour_body. cbv zeta.
  cbn [snd row_acc3 row_acc6].
  set (LEN := length (time D)). set (arr := precipitation D).
  assert (H3 : (0 <= Qsum (window_vals arr LEN idx 3))%Q)
    by now apply Qsum_nonneg, Forall_window.
  split; [exact H3 |]. split.
  - rewrite window_vals_split, Qsum_app.
    assert (0 <= Qsum (take 3 (drop (idx + 3) (take LEN arr))))%Q.
    { apply Qsum_nonneg. now apply Forall_take, Forall_drop, Forall_take. }
    lra.
  - intros Hidx.
    destruct (arr !! idx) as [x |] eqn:Ex.
    + rewrite (nth_lookup_Some _ _ _ _ Ex).
      rewrite window_vals_take.
      assert (Hd : drop idx (take LEN arr)
                   = x :: drop (S idx) (take LEN arr)).
      { apply drop_S. rewrite lookup_take_lt by exact Hidx. exact Ex. }
      rewrite Hd. cbn [take]. rewrite Qsum_cons.
      assert (0 <= Qsum (take 2 (drop (S idx) (take LEN arr))))%Q.
      { apply Qsum_nonneg. now apply Forall_take, Forall_drop, Forall_take. }
      lra.
    + rewrite (nth_lookup arr idx), Ex. cbn [default].
      assert (E0 : (0.0 == 0)%Q) by reflexivity. rewrite E0. exact H3.
Qed.

End Accumulation.

Lemma accumulations_ordered_witness :
  let D := mkHourly ["2025-01-01T05:00"; "2025-01-01T06:00"]
                    [24; 24]%Q [20; 90]%Q [0.5; 1.5]%Q [70; 90]%Q
                    [5; 5]%Q [0; 0]%Q [8; 8]%Q [0; 0]%Q in
  let loc := mkLocation "Bogor" (Some 0%Q) (Some 0%Q) (Some D) false []
                        EmptyString in
  let row :=
    snd (hour_body (fun _ => EmptyString) (fun _ => None)
                   (fun _ => EmptyString) loc 0%Q 0%Q D "2025-01-01T05:00"
                   0 5 (initial_state ["2025-01-01T05:00"] [])) in
  (0.5 <= row_acc3 row)%Q /\ (row_acc3 row <= row_acc6 row)%Q.
Proof.
  cbv zeta.
  set (D := mkHourly _ _ _ _ _ _ _ _ _).
  set (loc := mkLocation _ _ _ _ _ _ _).
  pose proof (accumulations_ordered
                (fun _ => EmptyString) (fun _ => None) (fun _ => EmptyString)
                loc 0%Q 0%Q D "2025-01-01T05:00" 0 5
                (initial_state ["2025-01-01T05:00"] [])) as H.
  cbv zeta in H.
  assert (Hpos : Forall (fun x => 0 <= x)%Q (precipitation D)).
  { repeat constructor; unfold Qle; cbn; lia. }
  destruct (H Hpos) as (_ & H2 & H3). split; [| exact H2].
  apply H3. cbn. lia.
Defined.

(** ** The printed row *)

Lemma py_round_int (z : Z) : py_round (inject_Z z) = z.
Proof.
  unfold py_round. rewrite Qfloor_Z.
  assert (H : (inject_Z z - inject_Z z == 0)%Q) by ring.
  rewrite H. reflexivity.
Qed.

Lemma compass_deg_range (d : Q) : (0 <= compass_deg d < 360)%Z.
Proof. unfold compass_deg. apply Z.mod_pos_bound. lia. Qed.

Lemma compass_deg_rounded (d : Q) :
  compass_deg (inject_Z (py_round d)) = compass_deg d.
Proof. unfold compass_deg. now rewrite py_round_int. Qed.

Lemma py_round_turns (d : Q) (k : Z) :
  py_round (d + inject_Z (360 * k)) = (py_round d + 360 * k)%Z.
Proof.
  unfold py_round.
  assert (Hf : Qfloor (d + inject_Z (360 * k)) = (Qfloor d + 360 * k)%Z).
  { destruct d as [a b]. unfold Qfloor, Qplus, inject_Z. cbn [Qnum Qden].
    rewrite Pos.mul_1_r, Z.mul_1_r.
    rewrite Z.div_add by lia. reflexivity. }
  rewrite Hf.
  assert (He : (d + inject_Z (360 * k) - inject_Z (Qfloor d + 360 * k)
                == d - inject_Z (Qfloor d))%Q).
  { rewrite inject_Z_plus. ring. }
  rewrite He.
  destruct (d - inject_Z (Qfloor d) ?= 1 # 2)%Q; try lia.
  rewrite Z.even_add, Z.even_mul. cbn [Z.even orb].
  destruct (Z.even (Qfloor d)); cbn; lia.
Qed.

Lemma compass_deg_turns (d : Q) (k : Z) :
  compass_deg (d + inject_Z (360 * k)) = compass_deg d.
Proof.
  unfold compass_deg. rewrite py_round_turns.
  rewrite (Z.mul_comm 360 k). apply Z.mod_add. lia.
Qed.

Ltac sector_cases d :=
  repeat match goal with
         | |- context [(?a <=? d)%Z] =>
             destruct (Z.leb_spec a d); cbn [andb orb]
         | |- context [(d <? ?a)%Z] =>
             destruct (Z.ltb_spec d a); cbn [andb orb]
         end;
  try reflexivity; try lia.

(** X12: the arrow and the abbreviation printed for a wind direction
    point the same way, although the abbreviation is read from the degree
    rounded beforehand and the arrow from the raw one; and both are the
    same after any number of full turns. *)
Theorem arrow_agrees_with_compass (deg : Q) (k : Z) :
  deg_to_arrow deg
  = arrow_of_compass (deg_to_compass_id (inject_Z (py_round deg))) /\
  deg_to_compass_id (deg + inject_Z (360 * k)) = deg_to_compass_id deg /\
  deg_to_arrow (deg + inject_Z (360 * k)) = deg_to_arrow deg.
Proof.
  unfold deg_to_arrow, deg_to_compass_id. cbv zeta.
  rewrite compass_deg_rounded, compass_deg_turns.
  split; [| split; reflexivity].
  generalize (compass_deg deg). intros d. sector_cases d.
Qed.

Section PrintedRow.

Variable py_str : Q -> string.
Variable float_of_str : string -> option Q.
Variable fmt4 : Q -> string.
Variable fmt1 : Q -> string.
Variable fmt0 : Q -> string.
Variable USE_UNICODE : bool.
Variable SKIP_QUIET : bool.

Local Abbreviation hour := (hour_body py_str float_of_str fmt4).

Ltac cmp_split :=
  repeat match goal with
         | |- context [Num.leb ?a ?b] =>
             let E := fresh "E" in
             destruct (Num.leb a b) eqn:E;
             [apply leb_le in E | apply leb_gt in E]
         | |- context [Num.ltb ?a ?b] =>
             let E := fresh "E" in
             destruct (Num.ltb a b) eqn:E;
             [apply ltb_lt in E | apply ltb_ge in E]
         end.

Lemma wind_ink_cases (deg spd gust : Q) :
  let c := ink (format_wind_compact fmt0 USE_UNICODE deg spd gust) in
  (c = RED <-> (45 <= gust)%Q \/ ((gust < 30)%Q /\ (25 <= spd)%Q)) /\
  (c = YELLOW
   <-> ((30 <= gust)%Q /\ (gust < 45)%Q) \/
       ((gust < 30)%Q /\ (15 <= spd)%Q /\ (spd < 25)%Q)) /\
  (c = GREEN <-> (gust < 30)%Q /\ (spd < 15)%Q).
Proof.
  unfold format_wind_compact. cbv zeta. cbn [ink].
  unfold GUST_DANGER, GUST_WARN, WIND_DANGER, WIND_WARN.
  cmp_split;
    (split; [| split]);
    (split; [intros H; try discriminate H;
             first [ left; lra | right; lra | lra | left; split; lra
                   | right; split; [lra | split; lra] | split; lra ]
            | intros H; try reflexivity; exfalso; lra ]).
Qed.

(** X13: the colour of the wind column goes by the gust first: it is red
    exactly for a gust of 45 km/h or more, or a sustained wind of 25 km/h
    or more with a gust below 30; green exactly when the gust is below 30
    and the wind below 15.  A red wind column means a Rawan hour, but an
    hour with a gust from 30 to below 45 is printed yellow also when its
    sustained wind of 25 km/h or more makes it Rawan. *)
Theorem wind_colour_and_status (loc : Location) (LAT LON : Q) (D : Hourly)
        (TIME : string) (idx : nat) (HOUR : Z) (st : State) :
  let row := snd (hour loc LAT LON D TIME idx HOUR st) in
  let ANGIN := nth idx (windspeed_10m D) 0.0%Q in
  let WINDGUST := nth idx (windgusts_10m D) 0.0%Q in
  let c := ink (format_wind_compact fmt0 USE_UNICODE
                  (nth idx (winddirection_10m D) 0.0%Q) ANGIN WINDGUST) in
  (c = RED <-> (45 <= WINDGUST)%Q \/ ((WINDGUST < 30)%Q /\ (25 <= ANGIN)%Q)) /\
  (c = GREEN <-> (WINDGUST < 30)%Q /\ (ANGIN < 15)%Q) /\
  (c = RED -> row_STATUS row = Rawan) /\
  ((30 <= WINDGUST)%Q -> (WINDGUST < 45)%Q -> (25 <= ANGIN)%Q ->
   c = YELLOW /\ row_STATUS row = Rawan).
Proof.
  intros row ANGIN WINDGUST c.
  destruct (wind_ink_cases (nth idx (winddirection_10m D) 0.0%Q)
                           ANGIN WINDGUST) as (Hred & Hyel & Hgreen).
  cbv zeta in Hred, Hyel, Hgreen. fold c in Hred, Hyel, Hgreen.
  pose proof (hour_body_STATUS py_str float_of_str fmt4
                loc LAT LON D TIME idx HOUR st) as HS.
  cbv zeta in HS. fold row ANGIN WINDGUST in HS.
  split; [exact Hred |]. split; [exact Hgreen |]. split.
  - intros Hc. rewrite HS. apply resolve_status_Rawan.
    apply Hred in Hc. destruct Hc as [Hg | [_ Hw]]; auto.
  - intros H1 H2 H3. split; [apply Hyel; left; split; assumption |].
    rewrite HS. apply resolve_status_Rawan. auto.
Qed.

Ltac other_lists :=
  repeat match goal with
         | |- context [padd ?c ?k ?k' ?K' ?K ?T ?cur] =>
             rewrite (padd_other_key c k k' K' K T cur) by discriminate
         end.

(** X14: the hour is added to the heat watch list of its location
    exactly when both the temperature and the UV column of its row are
    printed in red. *)
Theorem heat_watch_is_two_red_columns (loc : Location) (LAT LON : Q)
        (D : Hourly) (TIME : string) (idx : nat) (HOUR : Z) (st : State) :
  let SUHU := nth idx (temperature_2m D) 0.0%Q in
  let UV := nth idx (uv_index D) 0.0%Q in
  perkota_get PERKOTA_WASP_HEAT (K loc)
              (fst (hour loc LAT LON D TIME idx HOUR st))
  = join_if (bool_decide (ink (format_temp_color fmt1 SUHU) = RED)
             && bool_decide (ink (format_uv_color fmt1 UV) = RED))
            (perkota_get PERKOTA_WASP_HEAT (K loc) st)
            (PyStr.replace_char "T" " " TIME).
Proof.
  intros SUHU UV. rewrite hour_body_perkota. unfold hour_lists. cbv zeta.
  fold SUHU UV.
  destruct (row_rain_cat _); cbn [rain_perkota_key];
    other_lists; rewrite padd_same;
    (f_equal;
     unfold format_temp_color, format_uv_color, SCORE_UV_TH;
     destruct (Num.leb 33 SUHU); destruct (Num.leb 7 UV); cbn [andb ink];
     repeat match goal with
            | |- context [if ?c then _ else _] => destruct c; cbn [ink]
            end;
     reflexivity).
Qed.

Lemma is_quiet_true (score : Z)
      (RAINMM HUJAN_PROB ANGIN WINDGUST UV LEMBAP : Q) :
  is_quiet SKIP_QUIET score RAINMM HUJAN_PROB ANGIN WINDGUST UV LEMBAP = true ->
  score = 0%Z /\ (RAINMM < 0.3)%Q /\ (ANGIN < 15)%Q /\ (WINDGUST < 30)%Q.
Proof.
  unfold is_quiet, WIND_WARN, GUST_WARN. intros H.
  rewrite !andb_true_iff in H.
  destruct H as (_ & (((((Hs & Hr) & _) & Hw) & Hg) & _) & _).
  apply Z.eqb_eq in Hs. apply ltb_lt in Hr, Hw, Hg. auto.
Qed.

(** X15: a row printed as quiet shows Aman, whatever the hour was counted
    as; the hour was counted Aman exactly when there was no advisory alert
    and the rain of the next 3 and 6 hours stayed below 15 and 30 mm; with
    an alert a quiet row shows Aman for an hour counted Rawan. *)
Theorem quiet_row_status (loc : Location) (LAT LON : Q) (D : Hourly)
        (TIME : string) (idx : nat) (HOUR : Z) (st : State) :
  let row := snd (hour loc LAT LON D TIME idx HOUR st) in
  let quiet :=
    is_quiet SKIP_QUIET (row_score row)
             (nth idx (precipitation D) 0.0%Q)
             (nth idx (precipitation_probability D) 0.0%Q)
             (nth idx (windspeed_10m D) 0.0%Q)
             (nth idx (windgusts_10m D) 0.0%Q)
             (nth idx (uv_index D) 0.0%Q)
             (nth idx (relative_humidity_2m D) 0.0%Q) in
  quiet = true ->
  printed_status quiet (row_STATUS row) = Aman /\
  (row_STATUS row = Aman
   <-> bmkg_alert (BMK_SUM loc) = false /\
       (row_acc3 row < 15)%Q /\ (row_acc6 row < 30)%Q) /\
  (bmkg_alert (BMK_SUM loc) = true -> row_STATUS row = Rawan).
Proof.
  intros row quiet Hq. unfold quiet in *.
  rewrite Hq. cbn [printed_status].
  apply is_quiet_true in Hq. destruct Hq as (Hs & Hr & Hw & Hg).
  pose proof (hour_body_STATUS py_str float_of_str fmt4
                loc LAT LON D TIME idx HOUR st) as HS.
  cbv zeta in HS. fold row in HS. rewrite HS.
  split; [reflexivity |]. split.
  - rewrite resolve_status_Aman. rewrite Hs. split.
    + intros (_ & Ha & _ & H3 & H6 & _). auto.
    + intros (Ha & H3 & H6). repeat split; try assumption; try lia; lra.
  - intros Ha. apply resolve_status_Rawan. auto.
Qed.

End PrintedRow.

Lemma wind_colour_and_status_witness :
  let D := mkHourly ["2025-01-01T05:00"] [24]%Q [0]%Q [0]%Q [50]%Q
                    [26]%Q [0]%Q [35]%Q [0]%Q in
  let loc := mkLocation "Bogor" (Some 0%Q) (Some 0%Q) (Some D) false []
                        EmptyString in
  ink (format_wind_compact (fun _ => EmptyString) false 0 26 35) = YELLOW /\
  row_STATUS
    (snd (hour_body (fun _ => EmptyString) (fun _ => None)
                    (fun _ => EmptyString) loc 0%Q 0%Q D "2025-01-01T05:00"
                    0 5 (initial_state ["2025-01-01T05:00"] [])))
  = Rawan.
Proof.
  cbv zeta.
  set (D := mkHourly _ _ _ _ _ _ _ _ _).
  set (loc := mkLocation _ _ _ _ _ _ _).
  pose proof (wind_colour_and_status
                (fun _ => EmptyString) (fun _ => None) (fun _ => EmptyString)
                (fun _ => EmptyString) false
                loc 0%Q 0%Q D "2025-01-01T05:00" 0 5
                (initial_state ["2025-01-01T05:00"] [])) as H.
  cbv zeta in H. destruct H as (_ & _ & _ & H).
  apply H; vm_compute; congruence.
Defined.

(** A calm night hour under an advisory that names a thunderstorm. *)
Lemma quiet_row_status_witness :
  let D := mkHourly ["2025-01-01T05:00"] [24]%Q [0]%Q [0]%Q [50]%Q
                    [5]%Q [0]%Q [8]%Q [0]%Q in
  let loc := mkLocation "Bogor" (Some 0%Q) (Some 0%Q) (Some D) false []
                        "Waspada hujan lebat disertai petir" in
  let row :=
    snd (hour_body (fun _ => EmptyString) (fun _ => None)
                   (fun _ => EmptyString) loc 0%Q 0%Q D "2025-01-01T05:00"
                   0 5 (initial_state ["2025-01-01T05:00"] [])) in
  printed_status true (row_STATUS row) = Aman /\ row_STATUS row = Rawan.
Proof.
  cbv zeta.
  set (D := mkHourly _ _ _ _ _ _ _ _ _).
  set (loc := mkLocation _ _ _ _ _ _ _).
  pose proof (quiet_row_status
                (fun _ => EmptyString) (fun _ => None) (fun _ => EmptyString)
                true loc 0%Q 0%Q D "2025-01-01T05:00" 0 5
                (initial_state ["2025-01-01T05:00"] [])) as H.
  cbv zeta in H.
  assert (Hq : is_quiet true
                 (row_score
                    (snd (hour_body (fun _ => EmptyString) (fun _ => None)
                            (fun _ => EmptyString) loc 0%Q 0%Q D
                            "2025-01-01T05:00" 0 5
                            (initial_state ["2025-01-01T05:00"] []))))
                 (nth 0 (precipitation D) 0.0%Q)
                 (nth 0 (precipitation_probability D) 0.0%Q)
                 (nth 0 (windspeed_10m D) 0.0%Q)
                 (nth 0 (windgusts_10m D) 0.0%Q)
                 (nth 0 (uv_index D) 0.0%Q)
                 (nth 0 (relative_humidity_2m D) 0.0%Q) = true)
    by (vm_compute; reflexivity).
  destruct (H Hq) as (Hp & _ & Hr). rewrite Hq in Hp.
  split; [exact Hp | apply Hr; vm_compute; reflexivity].
Defined.

(** ** The store file, loaded *)

Section StoreLoaded.

Lemma lstrip_chars (c : ascii) (s : string) :
  has_char c s = false -> has_char c (PyStr.lstrip s) = false.
Proof.
  induction s as [| x s IH]; [reflexivity |]. cbn [PyStr.lstrip].
  destruct (PyStr.is_space x); [| auto].
  cbn [has_char]. intros H. apply orb_false_iff in H as [_ H]. auto.
Qed.

Lemma rstrip_chars (c : ascii) (s : string) :
  has_char c s = false -> has_char c (PyStr.rstrip s) = false.
Proof.
  induction s as [| x s IH]; [reflexivity |]. cbn [has_char PyStr.rstrip].
  intros H. apply orb_false_iff in H as [Hx Hs]. specialize (IH Hs).
  destruct (PyStr.rstrip s).
  - destruct (PyStr.is_space x); [reflexivity |]. cbn. now rewrite Hx.
  - cbn [has_char]. cbn [has_char] in IH. now rewrite Hx, IH.
Qed.

Lemma strip_chars (c : ascii) (s : string) :
  has_char c s = false -> has_char c (PyStr.strip s) = false.
Proof. intros H. unfold PyStr.strip. now apply rstrip_chars, lstrip_chars. Qed.

Lemma lstrip_head (s : string) :
  PyStr.lstrip s = EmptyString \/
  exists c s', PyStr.lstrip s = String c s' /\ PyStr.is_space c = false.
Proof.
  induction s as [| x s IH]; [now left |]. cbn [PyStr.lstrip].
  destruct (PyStr.is_space x) eqn:E; [exact IH |]. right. eauto.
Qed.

Lemma rstrip_rstrip (s : string) :
  PyStr.rstrip (PyStr.rstrip s) = PyStr.rstrip s.
Proof.
  induction s as [| x s IH]; [reflexivity |]. cbn [PyStr.rstrip].
  destruct (PyStr.rstrip s) as [| y r] eqn:E.
  - destruct (PyStr.is_space x) eqn:Ex; [reflexivity |].
    cbn. now rewrite Ex.
  - cbn [PyStr.rstrip]. cbn [PyStr.rstrip] in IH. rewrite IH. reflexivity.
Qed.

Lemma rstrip_keeps_head (c : ascii) (s : string) :
  PyStr.is_space c = false ->
  exists r, PyStr.rstrip (String c s) = String c r.
Proof.
  intros Hc. cbn [PyStr.rstrip]. destruct (PyStr.rstrip s); [| eauto].
  rewrite Hc. eauto.
Qed.

Lemma strip_strip (s : string) : PyStr.strip (PyStr.strip s) = PyStr.strip s.
Proof.
  unfold PyStr.strip.
  destruct (lstrip_head s) as [-> | (c & s' & -> & Hc)]; [reflexivity |].
  destruct (rstrip_keeps_head c s' Hc) as [r Er].
  rewrite Er. cbn [PyStr.lstrip]. rewrite Hc. rewrite <- Er.
  apply rstrip_rstrip.
Qed.

Lemma strip_clean (s : string) :
  PyStr.is_empty (PyStr.strip s) = false -> clean (PyStr.strip s).
Proof.
  intros H. split; [| apply strip_strip].
  intros E. now rewrite E in H.
Qed.

Lemma split_once_parts (sep : ascii) (s a b : string) :
  PyStr.split_once sep s = Some (a, b) ->
  has_char sep a = false /\
  forall c, has_char c s = false ->
            has_char c a = false /\ has_char c b = false.
Proof.
  revert a b. induction s as [| x s IH]; intros a b; [discriminate |].
  cbn [PyStr.split_once].
  destruct (Ascii.eqb x sep) eqn:Ex.
  - intros [= <- <-]. split; [reflexivity |].
    intros c Hc. cbn [has_char] in Hc. apply orb_false_iff in Hc as [_ Hc].
    now split.
  - destruct (PyStr.split_once sep s) as [[a' b'] |]; [| discriminate].
    intros [= <- <-]. destruct (IH a' b' eq_refl) as [Ha Hall].
    split; [cbn [has_char]; now rewrite Ex, Ha |].
    intros c Hc. cbn [has_char] in Hc. apply orb_false_iff in Hc as [Hx Hc].
    destruct (Hall c Hc) as [H1 H2]. split; [| exact H2].
    cbn [has_char]. now rewrite Hx, H1.
Qed.

Lemma strip_file_line (l : string) :
  file_line l -> one_line (PyStr.strip l).
Proof.
  intros (b & [Hlf Hcr] & [-> | ->]).
  - split; now apply strip_chars.
  - assert (Hs : PyStr.strip (b +:+ String PyStr.LF EmptyString)
                 = PyStr.strip b \/
                 PyStr.strip (b +:+ String PyStr.LF EmptyString)
                 = EmptyString).
    { unfold PyStr.strip.
      destruct (lstrip_head b) as [Eb | (c & s' & Eb & Hc)].
      - right. clear Hlf Hcr.
        induction b as [| x b IH]; [reflexivity |].
        rewrite append_cons. cbn [PyStr.lstrip] in *.
        destruct (PyStr.is_space x); [now apply IH | discriminate].
      - left.
        assert (El : PyStr.lstrip (b +:+ String PyStr.LF EmptyString)
                     = PyStr.lstrip b +:+ String PyStr.LF EmptyString).
        { clear Hlf Hcr. revert Eb.
          induction b as [| x b IH]; [discriminate |].
          rewrite append_cons. cbn [PyStr.lstrip].
          destruct (PyStr.is_space x); [apply IH | reflexivity]. }
        rewrite El. apply rstrip_app_LF. }
    destruct Hs as [-> | ->]; [split; now apply strip_chars |].
    split; reflexivity.
Qed.

Lemma file_lines_shape (text : string) :
  Forall file_line (PyStr.file_lines text).
Proof.
  assert (Hlf : file_line (String PyStr.LF EmptyString)).
  { exists EmptyString. split; [split; reflexivity | now right]. }
  assert (H : forall n text, (String.length text <= n)%nat ->
                             Forall file_line (PyStr.file_lines text)).
  2: { apply (H (String.length text)). lia. }
  clear text. induction n as [| n IH]; intros text Hn.
  { destruct text; [constructor | cbn in Hn; lia]. }
  destruct text as [| c s]; [constructor |].
  cbn [String.length] in Hn. cbn [PyStr.file_lines].
  destruct (Ascii.eqb c PyStr.LF) eqn:E1.
  { constructor; [exact Hlf | apply IH; lia]. }
  destruct (Ascii.eqb c PyStr.CR) eqn:E2.
  { destruct s as [| c' s'']; [now repeat constructor |].
    cbn [String.length] in Hn.
    destruct (Ascii.eqb c' PyStr.LF).
    - constructor; [exact Hlf | apply IH; lia].
    - constructor; [exact Hlf | apply IH; cbn [String.length]; lia]. }
  assert (Hs : Forall file_line (PyStr.file_lines s)) by (apply IH; lia).
  destruct (PyStr.file_lines s) as [| l ls].
  - repeat constructor. exists (String c EmptyString).
    split; [| now left]. split; cbn; [now rewrite E1 | now rewrite E2].
  - apply Forall_cons in Hs as [(b & [Hb1 Hb2] & Hl) Hls].
    constructor; [| exact Hls].
    exists (String c b). split.
    + split; cbn [has_char]; [now rewrite E1, Hb1 | now rewrite E2, Hb2].
    + destruct Hl as [-> | ->]; [now left | now right].
Qed.

Lemma dict_set_keys (k v : string) (d : Dict.t) :
  Dict.keys (Dict.set k v d) = Dict.keys d \/
  ((k ∉ Dict.keys d) /\
   Dict.keys (Dict.set k v d) = (Dict.keys d ++ [k])%list).
Proof.
  induction d as [| [k' v'] d IH]; cbn [Dict.set Dict.keys map fst].
  - right. split; [apply not_elem_of_nil | reflexivity].
  - destruct (String.eqb k k') eqn:E; [now left |].
    apply String.eqb_neq in E.
    destruct IH as [IH | [Hn IH]]; unfold Dict.keys in *.
    + left. cbn. now rewrite IH.
    + right. split.
      * apply not_elem_of_cons. now split.
      * cbn. now rewrite IH.
Qed.

Lemma dict_set_storable (k v : string) (d : Dict.t) :
  storable (k, v) -> Forall storable d -> Forall storable (Dict.set k v d).
Proof.
  intros Hkv. induction 1 as [| [k' v'] d Hkv' Hd IH]; cbn [Dict.set].
  - constructor; [exact Hkv | constructor].
  - destruct (String.eqb k k') eqn:E.
    + apply String.eqb_eq in E. subst k'. now constructor.
    + now constructor.
Qed.

Lemma dict_set_NoDup (k v : string) (d : Dict.t) :
  NoDup (Dict.keys d) -> NoDup (Dict.keys (Dict.set k v d)).
Proof.
  intros H. destruct (dict_set_keys k v d) as [-> | [Hn ->]]; [exact H |].
  apply NoDup_app. split; [exact H |]. split.
  - intros x Hx Hx'. apply list_elem_of_singleton in Hx'. now subst.
  - apply NoDup_singleton.
Qed.

Lemma load_line_keeps (data : Dict.t) (line : string) :
  file_line line ->
  Forall storable data /\ NoDup (Dict.keys data) ->
  Forall storable (load_line data line) /\
  NoDup (Dict.keys (load_line data line)).
Proof.
  intros Hl [Hst Hnd]. unfold load_line. cbv zeta.
  pose proof (strip_file_line line Hl) as [Hlf Hcr].
  destruct (PyStr.is_empty (PyStr.strip line)); [now split |].
  destruct (PyStr.split_once "|" (PyStr.strip line)) as [[p0 p1] |] eqn:Es;
    [| now split].
  destruct (split_once_parts _ _ _ _ Es) as [Hbar Hall].
  destruct (Hall _ Hlf) as [H0lf H1lf]. destruct (Hall _ Hcr) as [H0cr H1cr].
  destruct (PyStr.is_empty (PyStr.strip p0)) eqn:Ek; [now split |].
  destruct (PyStr.is_empty (PyStr.strip p1)) eqn:Ev; [now split |].
  cbn [negb andb]. split; [| now apply dict_set_NoDup].
  apply dict_set_storable; [| exact Hst].
  repeat split; cbn [fst snd];
    first [ now apply strip_strip
          | now apply strip_chars
          | intros E; rewrite E in *; discriminate ].
Qed.

Lemma load_lines_keep (lines : list string) (data : Dict.t) :
  Forall file_line lines ->
  Forall storable data /\ NoDup (Dict.keys data) ->
  Forall storable (fold_left load_line lines data) /\
  NoDup (Dict.keys (fold_left load_line lines data)).
Proof.
  intros H. revert data. induction H as [| l ls Hl _ IH]; intros data Hd.
  - exact Hd.
  - cbn [fold_left]. apply IH. now apply load_line_keeps.
Qed.

Lemma load_well_formed (fs : FileState) :
  Forall storable (load_prev_temp_file fs) /\
  NoDup (Dict.keys (load_prev_temp_file fs)).
Proof.
  destruct fs as [text |]; cbn [load_prev_temp_file].
  - apply load_lines_keep; [apply file_lines_shape |].
    split; [constructor | apply NoDup_nil_2].
  - split; [constructor | apply NoDup_nil_2].
Qed.

(** X16: whatever the store file holds, the dictionary loaded from it has
    distinct keys without a bar, and keys and values that are non-empty,
    free of outer whitespace and of line breaks; so writing it back and
    loading again gives the same dictionary: a load followed by a save
    loses nothing. *)
Theorem loaded_store_is_stable (fs fs' : FileState) :
  let store := load_prev_temp_file fs in
  Forall storable store /\ NoDup (Dict.keys store) /\
  load_prev_temp_file (save_prev_temp_file store fs') = store.
Proof.
  cbv zeta. destruct (load_well_formed fs) as [Hst Hnd].
  split; [exact Hst |]. split; [exact Hnd |].
  unfold save_prev_temp_file, load_prev_temp_file at 1.
  rewrite file_lines_store_text by exact Hst.
  now rewrite load_lines_fresh.
Qed.

End StoreLoaded.

Section Lookup.

Variable fmt4 : Q -> string.

Lemma dict_get_None (k : string) (d : Dict.t) :
  Dict.get k d = None <-> forall k' v, In (k', v) d -> k' <> k.
Proof.
  induction d as [| [k0 v0] d IH]; cbn [Dict.get In].
  - split; [intros _ k' v [] | reflexivity].
  - destruct (String.eqb k k0) eqn:E.
    + apply String.eqb_eq in E. subst k0. split; [discriminate |].
      intros H. exfalso. apply (H k v0); auto.
    + apply String.eqb_neq in E. rewrite IH. split.
      * intros H k' v [[= <- <-] | Hin]; [congruence | eauto].
      * intros H k' v Hin. eauto.
Qed.

Lemma dict_get_Some_In (k v : string) (d : Dict.t) :
  Dict.get k d = Some v -> In (k, v) d.
Proof.
  induction d as [| [k0 v0] d IH]; cbn [Dict.get In]; [discriminate |].
  destruct (String.eqb k k0) eqn:E.
  - apply String.eqb_eq in E. subst k0. intros [= <-]. now left.
  - intros H. right. auto.
Qed.

(** X17: looking up the previous temperature of a location finds nothing
    exactly when no key of the store is the coordinates key and none is
    the stripped name up to letter case; and whatever it finds is the
    value of a key that is one of the two. *)
Theorem lookup_prev_temp_for_found (name : string) (lat lon : Q)
        (prev_map : Dict.t) :
  (lookup_prev_temp_for fmt4 name lat lon prev_map = None
   <-> forall k v, In (k, v) prev_map ->
                   k <> key_latlon fmt4 lat lon /\
                   PyStr.lower k <> PyStr.lower (PyStr.strip name)) /\
  (forall v, lookup_prev_temp_for fmt4 name lat lon prev_map = Some v ->
             exists k, In (k, v) prev_map /\
                       (k = key_latlon fmt4 lat lon \/
                        PyStr.lower k = PyStr.lower (PyStr.strip name))).
Proof.
  unfold lookup_prev_temp_for.
  destruct prev_map as [| kv0 rest] eqn:Ed.
  { split; [split; [intros _ k v [] | reflexivity] | discriminate]. }
  rewrite <- Ed. clear Ed kv0 rest. cbv zeta.
  set (key_name := PyStr.strip name).
  set (ll := key_latlon fmt4 lat lon).
  destruct (Dict.get key_name prev_map) as [v1 |] eqn:E1.
  { apply dict_get_Some_In in E1. split.
    - split; [discriminate |]. intros H.
      destruct (H _ _ E1) as [_ Hl]. congruence.
    - intros v [= <-]. exists key_name. auto. }
  destruct (Dict.get ll prev_map) as [v2 |] eqn:E2.
  { apply dict_get_Some_In in E2. split.
    - split; [discriminate |]. intros H.
      destruct (H _ _ E2) as [Hl _]. congruence.
    - intros v [= <-]. exists ll. auto. }
  destruct (find _ prev_map) as [[k3 v3] |] eqn:E3; cbn [option_map snd].
  { apply find_some in E3. destruct E3 as [Hin Heq]. cbn [fst] in Heq.
    apply String.eqb_eq in Heq. split.
    - split; [discriminate |]. intros H.
      destruct (H _ _ Hin) as [_ Hl]. congruence.
    - intros v [= <-]. exists k3. auto. }
  split; [| discriminate]. split; [| reflexivity]. intros _ k v Hin.
  split.
  - rewrite dict_get_None in E2. eauto.
  - pose proof (find_none _ _ E3 _ Hin) as Hf. cbn [fst] in Hf.
    apply String.eqb_neq in Hf. congruence.
Qed.

End Lookup.

(** ** The hour lists of a location *)

Section Lists.

Variable py_str : Q -> string.
Variable float_of_str : string -> option Q.
Variable fmt4 : Q -> string.

Local Abbreviation hour := (hour_body py_str float_of_str fmt4).

Lemma lstrip_keeps_char (d : ascii) (s : string) :
  PyStr.is_space d = false ->
  has_char d (PyStr.lstrip s) = has_char d s.
Proof.
  intros Hd. induction s as [| x s IH]; [reflexivity |].
  cbn [PyStr.lstrip]. destruct (PyStr.is_space x) eqn:Ex; [| reflexivity].
  cbn [has_char]. rewrite IH.
  destruct (Ascii.eqb x d) eqn:E; [| reflexivity].
  apply Ascii.eqb_eq in E. congruence.
Qed.

Lemma rstrip_keeps_char (d : ascii) (s : string) :
  PyStr.is_space d = false ->
  has_char d (PyStr.rstrip s) = has_char d s.
Proof.
  intros Hd. induction s as [| x s IH]; [reflexivity |].
  cbn [PyStr.rstrip has_char]. rewrite <- IH.
  destruct (PyStr.rstrip s) as [| y r].
  - destruct (PyStr.is_space x) eqn:Ex; [| reflexivity].
    cbn [has_char]. destruct (Ascii.eqb x d) eqn:E; [| reflexivity].
    apply Ascii.eqb_eq in E. congruence.
  - reflexivity.
Qed.

Lemma strip_keeps_char (d : ascii) (s : string) :
  PyStr.is_space d = false ->
  has_char d (PyStr.strip s) = has_char d s.
Proof.
  intros Hd. unfold PyStr.strip.
  now rewrite rstrip_keeps_char, lstrip_keeps_char.
Qed.

Lemma has_char_nonempty (d : ascii) (s : string) :
  has_char d s = true -> s <> EmptyString.
Proof. destruct s; [discriminate | discriminate]. Qed.

Lemma time_join_nonempty (d : ascii) (cur t : string) :
  PyStr.is_space d = false -> has_char d t = true ->
  time_join cur t <> EmptyString.
Proof.
  intros Hd Ht. unfold time_join.
  destruct (PyStr.is_empty cur); [now apply (has_char_nonempty d) |].
  apply (has_char_nonempty d). rewrite strip_keeps_char by exact Hd.
  rewrite !has_char_app, Ht. now rewrite !orb_true_r.
Qed.

Lemma substring_chars (d : ascii) (n : nat) (s : string) :
  has_char d (String.substring 0 n s) = true -> has_char d s = true.
Proof.
  revert s. induction n as [| n IH]; intros [| x s]; cbn; try discriminate.
  destruct (Ascii.eqb x d); [reflexivity |]. apply IH.
Qed.

Lemma split_once_char (sep d : ascii) (s a b : string) :
  PyStr.split_once sep s = Some (a, b) ->
  has_char d a = true \/ has_char d b = true -> has_char d s = true.
Proof.
  intros Hs Hab. destruct (has_char d s) eqn:E; [reflexivity |].
  destruct (split_once_parts _ _ _ _ Hs) as [_ Hall].
  destruct (Hall d E) as [Ha Hb]. destruct Hab; congruence.
Qed.

Lemma digit_not_space (a : ascii) (x : Z) :
  PyStr.digit a = Some x ->
  PyStr.is_space a = false /\ a <> "T"%char.
Proof.
  unfold PyStr.digit, PyStr.is_space. cbv zeta.
  destruct (andb (Nat.leb 48 (PyStr.code a)) (Nat.leb (PyStr.code a) 57))
    eqn:E; [| discriminate].
  intros _. apply andb_true_iff in E as [H1 H2].
  apply Nat.leb_le in H1, H2. split.
  - repeat match goal with
           | |- context [(?p <=? ?q)%nat] => destruct (Nat.leb_spec p q)
           | |- context [(?p =? ?q)%nat] => destruct (Nat.eqb_spec p q)
           end; cbn; try reflexivity; lia.
  - intros ->. vm_compute in H2. lia.
Qed.

(** A slot whose hour can be read holds a digit. *)
Lemma HOUR_of_char (TIME : string) :
  is_Some (HOUR_of TIME) ->
  exists d, has_char d TIME = true /\ PyStr.is_space d = false /\
            d <> "T"%char.
Proof.
  intros [x Hx]. unfold HOUR_of in Hx.
  destruct (PyStr.split_once "T" TIME) as [[pre rest] |] eqn:E1;
    [| discriminate].
  set (field := match PyStr.split_once "T" rest with
                | Some (f, _) => f
                | None => rest
                end) in Hx.
  assert (Hfield : forall d, has_char d field = true ->
                             has_char d TIME = true).
  { intros d Hd. apply (split_once_char _ _ _ _ _ E1). right.
    unfold field in Hd.
    destruct (PyStr.split_once "T" rest) as [[f r] |] eqn:E2; [| exact Hd].
    apply (split_once_char _ _ _ _ _ E2). now left. }
  unfold int_of_field in Hx.
  assert (Hdig : exists a y, PyStr.digit a = Some y /\
                             has_char a (PyStr.strip
                                           (String.substring 0 2 field))
                             = true).
  { destruct (PyStr.strip (String.substring 0 2 field))
      as [| a [| b [| c r]]]; try discriminate.
    - exists a, x. split; [exact Hx |]. cbn. now rewrite Ascii.eqb_refl.
    - destruct (PyStr.digit b) as [y |] eqn:Eb; [| discriminate].
      exists b, y. split; [exact Eb |]. cbn.
      rewrite Ascii.eqb_refl. now rewrite !orb_true_r. }
  destruct Hdig as (a & y & Ha & Hin).
  destruct (digit_not_space a y Ha) as [Hsp HT].
  exists a. split; [| now split].
  apply Hfield. apply (substring_chars a 2).
  now rewrite <- (strip_keeps_char a) by exact Hsp.
Qed.

Lemma replace_char_keeps (d a b : ascii) (s : string) :
  d <> a -> has_char d s = true ->
  has_char d (PyStr.replace_char a b s) = true.
Proof.
  intros Hne. induction s as [| x s IH]; [discriminate |].
  cbn [has_char PyStr.replace_char]. intros H.
  apply orb_true_iff in H as [H | H].
  - apply Ascii.eqb_eq in H. subst x.
    destruct (Ascii.eqb d a) eqn:E;
      [apply Ascii.eqb_eq in E; congruence |].
    now rewrite Ascii.eqb_refl.
  - rewrite (IH H). apply orb_true_r.
Qed.

(** What an hour does to the Rawan list of its location. *)
Lemma hour_body_rawan_list (loc : Location) (LAT LON : Q) (D : Hourly)
      (TIME : string) (idx : nat) (HOUR : Z) (st : State) :
  perkota_get PERKOTA_RAWAN (K loc) (fst (hour loc LAT LON D TIME idx HOUR st))
  = join_if (bool_decide
               (row_STATUS (snd (hour loc LAT LON D TIME idx HOUR st)) = Rawan))
            (perkota_get PERKOTA_RAWAN (K loc) st)
            (PyStr.replace_char "T" " " TIME).
Proof.
  rewrite hour_body_perkota. unfold hour_lists. cbv zeta.
  destruct (row_rain_cat _); cbn [rain_perkota_key];
    repeat match goal with
           | |- context [padd ?c PERKOTA_RAWAN ?k' ?K' ?K ?T ?cur] =>
               lazymatch k' with
               | PERKOTA_RAWAN => fail
               | _ => rewrite (padd_other_key c PERKOTA_RAWAN k' K' K T cur)
                   by discriminate
               end
           end;
    apply padd_same.
Qed.

Lemma hour_body_rawan_invariant (loc : Location) (LAT LON : Q) (D : Hourly)
      (TIME : string) (idx : nat) (HOUR : Z) (st : State) :
  is_Some (HOUR_of TIME) ->
  (perkota_get PERKOTA_RAWAN (K loc) st = EmptyString <-> rawan st = 0%nat) ->
  (perkota_get PERKOTA_RAWAN (K loc)
               (fst (hour loc LAT LON D TIME idx HOUR st)) = EmptyString
   <-> rawan (fst (hour loc LAT LON D TIME idx HOUR st)) = 0%nat).
Proof.
  intros Hok Hinv. rewrite hour_body_rawan_list.
  pose proof (hour_body_tally py_str float_of_str fmt4
                loc LAT LON D TIME idx HOUR st) as Ht.
  apply (f_equal snd) in Ht. unfold tally in Ht. cbn [snd] in Ht.
  rewrite Ht. clear Ht.
  destruct (row_STATUS _) eqn:Es; cbn [tally_bump snd fst];
    try (rewrite bool_decide_eq_false_2 by discriminate;
         cbn [join_if]; exact Hinv).
  rewrite bool_decide_eq_true_2 by reflexivity. cbn [join_if].
  destruct (HOUR_of_char TIME Hok) as (d & Hd & Hsp & HT).
  split; [| lia]. intros E. exfalso. revert E.
  apply (time_join_nonempty d); [exact Hsp |].
  now apply replace_char_keeps.
Qed.

Section OneLocation.

Variable TIMES : list string.

(** X18: for a location with coordinates and a forecast, over slots whose
    hour can be read, the list of Rawan hours shown for the location is
    empty exactly when its Rawan count is 0, and the short message labels
    the location Rawan exactly when the count is positive. *)
Theorem rawan_list_matches_count (loc : Location) (LAT LON : Q)
        (D : Hourly) (st : State) :
  Forall (fun TIME => is_Some (HOUR_of TIME)) TIMES ->
  LATK loc = Some LAT -> LONK loc = Some LON -> DATA loc = Some D ->
  exists st',
    process_location py_str float_of_str fmt4 TIMES loc st = Some st' /\
    (perkota_get PERKOTA_RAWAN (K loc) st' = EmptyString
     <-> rawan st' = 0%nat) /\
    (status_short (K loc) st' = Rawan <-> (0 < rawan st')%nat).
Proof.
  intros Hok H1 H2 H3. unfold process_location. rewrite H1, H2, H3.
  destruct (hours_loop_returns py_str float_of_str fmt4 loc LAT LON D TIMES
                               (open_location (K loc) st) Hok) as [st' H].
  exists st'. split; [exact H |].
  assert (Hinv : perkota_get PERKOTA_RAWAN (K loc) st' = EmptyString
                 <-> rawan st' = 0%nat).
  { apply (hours_loop_invariant py_str float_of_str fmt4
             (fun s => perkota_get PERKOTA_RAWAN (K loc) s = EmptyString
                       <-> rawan s = 0%nat)) in H; [exact H | |].
    - intros TIME idx HOUR s Hin Hs.
      apply hour_body_rawan_invariant; [| exact Hs].
      rewrite List.Forall_forall in Hok. now apply Hok.
    - unfold open_location, perkota_get, with_SKY_COUNT, with_PERKOTA.
      cbn [PERKOTA rawan]. rewrite lookup_insert_eq. cbn. tauto. }
  split; [exact Hinv |].
  unfold status_short. cbv zeta.
  destruct (perkota_get PERKOTA_RAWAN (K loc) st') eqn:E; cbn [PyStr.is_empty negb].
  - assert (rawan st' = 0%nat) by now apply Hinv.
    split; [| lia].
    repeat match goal with
           | |- context [if ?c then _ else _] => destruct c
           end; discriminate.
  - split; [| reflexivity]. intros _.
    destruct (rawan st'); [| lia].
    exfalso. assert (Hz : 0%nat = 0%nat) by reflexivity.
    apply Hinv in Hz. discriminate.
Qed.

End OneLocation.

End Lists.

(** ** The message *)

Lemma str_take_drop (n : nat) (s : string) :
  str_take n s +:+ str_drop n s = s.
Proof.
  revert s. induction n as [| n IH]; intros [| c s]; try reflexivity.
  cbn [str_take str_drop]. rewrite append_cons. now rewrite IH.
Qed.

Lemma str_take_length (n : nat) (s : string) :
  String.length (str_take n s) = Nat.min n (String.length s).
Proof.
  revert s. induction n as [| n IH]; intros [| c s]; try reflexivity.
  cbn [str_take String.length]. rewrite IH. reflexivity.
Qed.

Lemma str_drop_length (n : nat) (s : string) :
  String.length (str_drop n s) = (String.length s - n)%nat.
Proof.
  revert s. induction n as [| n IH]; intros [| c s]; try reflexivity.
  cbn [str_drop String.length]. rewrite IH. reflexivity.
Qed.

Lemma str_take_all (n : nat) (s : string) :
  (String.length s <= n)%nat -> str_take n s = s.
Proof.
  revert s. induction n as [| n IH]; intros [| c s] H; try reflexivity.
  - cbn in H. lia.
  - cbn [str_take]. f_equal. apply IH. cbn in H. lia.
Qed.

Lemma str_take_app (a b : string) (k : nat) :
  str_take (String.length a + k) (a +:+ b) = a +:+ str_take k b.
Proof.
  induction a as [| c a IH]; [reflexivity |].
  cbn [String.length Nat.add]. rewrite !append_cons. cbn [str_take].
  now rewrite IH.
Qed.

Lemma str_drop_app (a b : string) (k : nat) :
  str_drop (String.length a + k) (a +:+ b) = str_drop k b.
Proof.
  induction a as [| c a IH]; [reflexivity |].
  cbn [String.length Nat.add]. rewrite !append_cons. cbn [str_drop].
  exact IH.
Qed.

Lemma length_app (a b : string) :
  String.length (a +:+ b) = (String.length a + String.length b)%nat.
Proof.
  induction a as [| c a IH]; [reflexivity |].
  rewrite append_cons. cbn [String.length]. now rewrite IH.
Qed.

Lemma is_empty_length (s : string) :
  PyStr.is_empty s = true <-> String.length s = 0%nat.
Proof. destruct s; cbn; split; congruence. Qed.

Lemma next_chunk_remaining (s : string) :
  next_chunk s +:+ next_remaining s = s.
Proof.
  unfold next_chunk, next_remaining.
  destruct (SAFELEN <? String.length s)%nat eqn:E.
  - apply str_take_drop.
  - apply Nat.ltb_ge in E. rewrite str_take_all by exact E.
    induction s as [| c s IH]; [reflexivity |].
    rewrite append_cons. f_equal. apply IH. cbn in E. lia.
Qed.

Lemma next_remaining_length (s : string) :
  String.length (next_remaining s) = (String.length s - SAFELEN)%nat.
Proof.
  unfold next_remaining.
  destruct (SAFELEN <? String.length s)%nat eqn:E.
  - apply str_drop_length.
  - apply Nat.ltb_ge in E. cbn [String.length]. lia.
Qed.

(** The loop ends within as many rounds as the text has characters, and
    its chunks are the text, cut every [SAFELEN] characters. *)
Lemma send_plain_spec (fuel : nat) (s : string) :
  (String.length s <= fuel)%nat ->
  exists sends,
    send_plain fuel s = Some sends /\
    sent_text sends = s /\
    Forall (fun m => fst m = Plain /\
                     (0 < String.length (snd m) <= SAFELEN)%nat) sends /\
    length sends = ((String.length s + SAFELEN - 1) / SAFELEN)%nat.
Proof.
  revert s. induction fuel as [| fuel IH]; intros s Hlen.
  - destruct s; [| cbn in Hlen; lia].
    exists []. cbn. repeat split; constructor.
  - destruct s as [| c s'] eqn:Es.
    { exists []. cbn. repeat split; constructor. }
    rewrite <- Es in *. cbn [send_plain].
    assert (Hne : PyStr.is_empty s = false) by now rewrite Es.
    rewrite Hne.
    assert (Hpos : (0 < String.length s)%nat) by (rewrite Es; cbn; lia).
    destruct (IH (next_remaining s)) as (sends & E & Htxt & Hall & Hn).
    { rewrite next_remaining_length. unfold SAFELEN. lia. }
    rewrite E. exists ((Plain, next_chunk s) :: sends).
    split; [reflexivity |]. split; [| split].
    + cbn [sent_text fold_right snd]. fold (sent_text sends).
      rewrite Htxt. apply next_chunk_remaining.
    + constructor; [| exact Hall]. cbn [fst snd]. split; [reflexivity |].
      unfold next_chunk. rewrite str_take_length. unfold SAFELEN. lia.
    + cbn [length]. rewrite Hn, next_remaining_length.
      unfold SAFELEN.
      destruct (Nat.le_gt_cases (String.length s) 3500) as [Hle | Hgt].
      * replace (String.length s - 3500)%nat with 0%nat by lia.
        cbn [Nat.add]. rewrite (Nat.div_small (3500 - 1)) by lia.
        apply Nat.div_unique with (r := (String.length s - 1)%nat); lia.
      * replace (String.length s + 3500 - 1)%nat
          with ((String.length s - 3500 + 3500 - 1) + 1 * 3500)%nat by lia.
        rewrite Nat.div_add by lia. lia.
Qed.

(** X19: with token and chat id set, [send_telegram] always returns; it
    sends the first chunk as HTML and the rest as plain text, no chunk is
    longer than 3500 characters and no plain chunk is empty.  When the
    first answer holds 200 the chunks put together are the text without
    its outer line breaks; otherwise the plain chunks alone are that text,
    so its first 3500 characters are sent twice. *)
Theorem send_telegram_chunks (out text_raw : string) :
  exists plain,
    send_telegram true out text_raw
    = Some ((HTML, next_chunk (strip_LF text_raw)) :: plain) /\
    Forall (fun m => fst m = Plain /\
                     (0 < String.length (snd m) <= SAFELEN)%nat) plain /\
    (String.length (next_chunk (strip_LF text_raw)) <= SAFELEN)%nat /\
    (PyStr.contains "200" out = true ->
     next_chunk (strip_LF text_raw) +:+ sent_text plain = strip_LF text_raw) /\
    (PyStr.contains "200" out = false ->
     sent_text plain = strip_LF text_raw).
Proof.
  unfold send_telegram. cbn [negb]. cbv zeta.
  set (text := strip_LF text_raw).
  assert (Hc : (String.length (next_chunk text) <= SAFELEN)%nat).
  { unfold next_chunk. rewrite str_take_length. lia. }
  destruct (PyStr.contains "200" out).
  - destruct (send_plain_spec (String.length (next_remaining text))
                              (next_remaining text) (Nat.le_refl _))
      as (plain & E & Htxt & Hall & _).
    rewrite E. exists plain. split; [reflexivity |].
    split; [exact Hall |]. split; [exact Hc |]. split; [| discriminate].
    intros _. rewrite Htxt. apply next_chunk_remaining.
  - destruct (send_plain_spec (String.length text) text (Nat.le_refl _))
      as (plain & E & Htxt & Hall & _).
    rewrite E. exists plain. split; [reflexivity |].
    split; [exact Hall |]. split; [exact Hc |]. split; [discriminate |].
    intros _. exact Htxt.
Qed.

Lemma rstrip_LF_app (a b : string) :
  b <> EmptyString -> rstrip_LF b = b -> rstrip_LF (a +:+ b) = a +:+ b.
Proof.
  intros Hne Hb. induction a as [| c a IH]; [exact Hb |].
  rewrite append_cons. cbn [rstrip_LF]. rewrite IH.
  destruct (a +:+ b) eqn:E; [| reflexivity].
  destruct a; [| discriminate E]. now destruct b.
Qed.

Lemma send_plain_step (fuel : nat) (s : string) :
  PyStr.is_empty s = false ->
  send_plain (S fuel) s
  = option_map (cons (Plain, next_chunk s))
               (send_plain fuel (next_remaining s)).
Proof. intros H. cbn [send_plain]. now rewrite H. Qed.

(** X20: a message longer than 3490 characters that does not start with
    a line break is cut to 3490 characters plus the 13 characters of the
    marker, 3503 in all, which is more than one chunk holds.  When the
    first answer holds 200, [send_telegram] sends it in two calls, and the
    second carries only the last three characters of the marker; when it
    does not, the whole text follows as plain text, three calls in all,
    and the last one again carries only those three characters. *)
Theorem truncated_message_overflows_one_chunk (out telegram_text : string) :
  (3490 < String.length telegram_text)%nat ->
  str_take 1 telegram_text <> String PyStr.LF EmptyString ->
  let head := str_take 3490 telegram_text
              +:+ String PyStr.LF (String PyStr.LF "[truncat") in
  String.length (truncate_text telegram_text) = 3503%nat /\
  send_telegram true out (truncate_text telegram_text)
  = Some (if PyStr.contains "200" out
          then [(HTML, head); (Plain, "ed]")]
          else [(HTML, head); (Plain, head); (Plain, "ed]")]).
Proof.
  intros Hlen Hfirst head.
  unfold truncate_text.
  assert (Hlt : (3490 <? String.length telegram_text)%nat = true)
    by now apply Nat.ltb_lt.
  rewrite Hlt.
  set (a := str_take 3490 telegram_text) in *.
  set (m := String PyStr.LF (String PyStr.LF "[truncated]")).
  assert (Ha : String.length a = 3490%nat).
  { unfold a. rewrite str_take_length. lia. }
  assert (Hlen' : String.length (a +:+ m) = 3503%nat)
    by (rewrite length_app, Ha; reflexivity).
  split; [exact Hlen' |].
  assert (Hstrip : strip_LF (a +:+ m) = a +:+ m).
  { unfold strip_LF.
    assert (Hl : lstrip_LF (a +:+ m) = a +:+ m).
    { unfold a. destruct telegram_text as [| c t]; [cbn in Hlen; lia |].
      change (str_take 3490 (String c t))
        with (String c (str_take 3489 t)).
      rewrite append_cons. cbn [lstrip_LF].
      destruct (Ascii.eqb c PyStr.LF) eqn:Ec; [| reflexivity].
      apply Ascii.eqb_eq in Ec. subst c. now contradiction Hfirst. }
    rewrite Hl. apply rstrip_LF_app; [discriminate | reflexivity]. }
  unfold send_telegram. cbn [negb]. cbv zeta. rewrite Hstrip.
  assert (Hchunk : next_chunk (a +:+ m) = head).
  { unfold next_chunk, head.
    replace SAFELEN with (String.length a + 10)%nat
      by (rewrite Ha; reflexivity).
    rewrite str_take_app. reflexivity. }
  assert (Hrem : next_remaining (a +:+ m) = "ed]").
  { unfold next_remaining. rewrite Hlen'.
    change (SAFELEN <? 3503)%nat with true. cbv iota.
    replace SAFELEN with (String.length a + 10)%nat
      by (rewrite Ha; reflexivity).
    rewrite str_drop_app. reflexivity. }
  assert (Hne : PyStr.is_empty (a +:+ m) = false).
  { destruct (PyStr.is_empty (a +:+ m)) eqn:E; [| reflexivity].
    apply is_empty_length in E. lia. }
  rewrite Hchunk, Hrem.
  destruct (PyStr.contains "200" out); [reflexivity |].
  rewrite Hlen'. change 3503%nat with (S (S 3501)).
  rewrite (send_plain_step _ _ Hne), Hchunk, Hrem.
  reflexivity.
Qed.

Lemma truncated_message_overflows_one_chunk_witness :
  let text := string_of_list_ascii (repeat "a"%char 3491) in
  let head := str_take 3490 text
              +:+ String PyStr.LF (String PyStr.LF "[truncat") in
  (String.length (truncate_text text) = 3503%nat /\
   send_telegram true "200 OK" (truncate_text text)
   = Some [(HTML, head); (Plain, "ed]")]) /\
  send_telegram true "400 Bad Request" (truncate_text text)
  = Some [(HTML, head); (Plain, head); (Plain, "ed]")].
Proof.
  cbv zeta. split.
  - apply (truncated_message_overflows_one_chunk
             "200 OK" (string_of_list_ascii (repeat "a"%char 3491))).
    + apply Nat.ltb_lt. vm_compute. reflexivity.
    + vm_compute. discriminate.
  - apply (truncated_message_overflows_one_chunk
             "400 Bad Request" (string_of_list_ascii (repeat "a"%char 3491))).
    + apply Nat.ltb_lt. vm_compute. reflexivity.
    + vm_compute. discriminate.
Defined.

(** ** Hour ranges *)

Lemma HOUR_of_hour_field (h : string) :
  HOUR_of h = hour_field h ≫= int_of_field.
Proof.
  unfold HOUR_of, hour_field.
  destruct (PyStr.split_once "T" h) as [[a rest] |]; reflexivity.
Qed.

Lemma ranges_loop_cover (start prev : Z) (hs : list Z) (x : Z) :
  (start <= prev)%Z ->
  in_ranges x (ranges_loop start prev hs)
  <-> (start <= x <= prev)%Z \/ In x hs.
Proof.
  revert start prev. induction hs as [| h hs IH]; intros start prev Hle.
  - cbn [ranges_loop]. unfold in_ranges. split.
    + intros (r & [<- | []] & Hr). now left.
    + intros [Hx | []]. exists (start, prev). split; [now left | exact Hx].
  - cbn [ranges_loop In].
    destruct (h =? prev + 1)%Z eqn:E.
    + apply Z.eqb_eq in E. rewrite IH by lia. split.
      * intros [Hx | Hx]; [| now right; right].
        destruct (Z.eq_dec x h) as [-> | Hne]; [now right; left |].
        left. lia.
      * intros [Hx | [<- | Hx]]; [left; lia | left; lia | now right].
    + unfold in_ranges. split.
      * intros (r & [<- | Hr] & Hx); [now left |].
        assert (Hin : in_ranges x (ranges_loop h h hs)) by now exists r.
        apply IH in Hin; [| lia].
        destruct Hin as [Hin | Hin]; [right; left; cbn in *; lia |].
        now right; right.
      * intros [Hx | Hx].
        -- exists (start, prev). split; [now left | exact Hx].
        -- assert (Hin : in_ranges x (ranges_loop h h hs)).
           { apply IH; [lia |]. destruct Hx as [<- | Hx]; [left; lia |].
             now right. }
           destruct Hin as (r & Hr & Hxr). exists r.
           split; [now right | exact Hxr].
Qed.

Lemma ranges_loop_ordered (start prev : Z) (hs : list Z) :
  (start <= prev)%Z ->
  Forall (fun r => (fst r <= snd r)%Z) (ranges_loop start prev hs).
Proof.
  revert start prev. induction hs as [| h hs IH]; intros start prev Hle.
  - now repeat constructor.
  - cbn [ranges_loop]. destruct (h =? prev + 1)%Z eqn:E.
    + apply Z.eqb_eq in E. apply IH. lia.
    + constructor; [exact Hle | apply IH; lia].
Qed.

Lemma mapM_In {A B : Type} (f : A -> option B) (l : list A) (k : list B) :
  mapM f l = Some k ->
  forall y, In y k <-> exists x, In x l /\ f x = Some y.
Proof.
  intros H. apply mapM_Some in H.
  induction H as [| x y l k Hxy _ IH]; intros y0.
  - split; [intros [] | intros (x & [] & _)].
  - cbn [In]. rewrite IH. split.
    + intros [<- | (x' & Hin & Hf)]; [exists x; auto | exists x'; auto].
    + intros (x' & [<- | Hin] & Hf); [left; congruence | right; eauto].
Qed.

Lemma ranges_loop_not_nil (start prev : Z) (hs : list Z) :
  ranges_loop start prev hs <> [].
Proof.
  revert start prev. induction hs as [| h hs IH]; intros start prev;
    cbn [ranges_loop]; [discriminate |].
  destruct (h =? prev + 1)%Z; [apply IH | discriminate].
Qed.

Lemma ranges_loop_from (start prev : Z) (hs : list Z) :
  (start <= prev)%Z -> StronglySorted Z.le (prev :: hs) ->
  Forall (fun r => (start <= fst r)%Z) (ranges_loop start prev hs).
Proof.
  revert start prev. induction hs as [| h hs IH]; intros start prev Hle Hs.
  - repeat constructor. cbn. lia.
  - apply StronglySorted_inv in Hs as [Hs Hall].
    pose proof (Forall_inv Hall) as Hph. cbn [ranges_loop].
    destruct (h =? prev + 1)%Z.
    + apply IH; [lia | exact Hs].
    + constructor; [cbn; lia |].
      eapply Forall_impl; [apply IH; [lia | exact Hs] |].
      cbn. intros r Hr. lia.
Qed.

Lemma ranges_loop_increasing (start prev : Z) (hs : list Z) :
  (start <= prev)%Z -> StronglySorted Z.le (prev :: hs) ->
  StronglySorted (fun r1 r2 => (snd r1 <= fst r2)%Z)
                 (ranges_loop start prev hs).
Proof.
  revert start prev. induction hs as [| h hs IH]; intros start prev Hle Hs.
  - repeat constructor.
  - apply StronglySorted_inv in Hs as [Hs Hall].
    pose proof (Forall_inv Hall) as Hph. cbn [ranges_loop].
    destruct (h =? prev + 1)%Z.
    + apply IH; [lia | exact Hs].
    + constructor; [apply IH; [lia | exact Hs] |].
      eapply Forall_impl; [apply ranges_loop_from; [lia | exact Hs] |].
      cbn. intros r Hr. lia.
Qed.

Lemma In_distinct (f : string) (l : list string) :
  In f (distinct l) <-> In f l.
Proof.
  unfold distinct. rewrite <- !list_elem_of_In. apply elem_of_remove_dups.
Qed.

Lemma hour_ranges_spec (hours_list : list string) :
  hours_list <> [] ->
  Forall (fun h => is_Some (HOUR_of h)) hours_list ->
  exists rs,
    hour_ranges hours_list = Some rs /\
    rs <> [] /\
    Forall (fun r => (fst r <= snd r)%Z) rs /\
    StronglySorted (fun r1 r2 => (snd r1 <= fst r2)%Z) rs /\
    forall x,
      in_ranges x rs <-> exists h, In h hours_list /\ HOUR_of h = Some x.
Proof.
  intros Hne Hok. unfold hour_ranges.
  destruct hours_list as [| h0 hl] eqn:Ehl; [congruence |].
  rewrite <- Ehl in *. clear Hne.
  assert (Hf : is_Some (mapM hour_field hours_list)).
  { apply mapM_is_Some. eapply Forall_impl; [exact Hok |].
    intros h [x Hx]. rewrite HOUR_of_hour_field in Hx. cbn.
    destruct (hour_field h); [now eexists | discriminate]. }
  destruct Hf as [fields Ef]. rewrite Ef.
  pose proof (mapM_In _ _ _ Ef) as Hfields.
  assert (Hi : is_Some (mapM int_of_field (distinct fields))).
  { apply mapM_is_Some. apply List.Forall_forall. intros f Hin.
    apply (proj1 (In_distinct _ _)) in Hin.
    apply (proj1 (Hfields _)) in Hin. destruct Hin as (h & Hh & Hhf).
    rewrite List.Forall_forall in Hok. destruct (Hok h Hh) as [x Hx].
    rewrite HOUR_of_hour_field, Hhf in Hx. cbn in Hx. cbn.
    exists x. exact Hx. }
  destruct Hi as [ints Ei]. rewrite Ei.
  pose proof (mapM_In _ _ _ Ei) as Hints.
  assert (Hhours : forall x, In x (merge_sort Z.le ints)
                             <-> exists h, In h hours_list /\
                                           HOUR_of h = Some x).
  { intros x. rewrite <- list_elem_of_In, merge_sort_Permutation,
      list_elem_of_In, Hints.
    split.
    - intros (f & Hin & Hx).
      apply (proj1 (In_distinct _ _)) in Hin.
      apply (proj1 (Hfields _)) in Hin. destruct Hin as (h & Hh & Hhf).
      exists h. split; [exact Hh |].
      rewrite HOUR_of_hour_field, Hhf. exact Hx.
    - intros (h & Hh & Hx). rewrite HOUR_of_hour_field in Hx.
      destruct (hour_field h) as [f |] eqn:Ehf; [| discriminate].
      cbn in Hx. exists f. split; [| exact Hx].
      apply In_distinct. apply Hfields. eauto. }
  destruct (merge_sort Z.le ints) as [| s0 rest] eqn:Es.
  { exfalso. rewrite List.Forall_forall in Hok.
    assert (Hh0 : In h0 hours_list) by (rewrite Ehl; now left).
    destruct (Hok h0 Hh0) as [x Hx].
    apply (proj2 (Hhours x)). eauto. }
  exists (ranges_loop s0 s0 rest). split; [reflexivity |].
  split; [apply ranges_loop_not_nil |].
  split; [apply ranges_loop_ordered; lia |].
  split.
  { apply ranges_loop_increasing; [lia |]. rewrite <- Es.
    apply (StronglySorted_merge_sort Z.le). }
  intros x. rewrite ranges_loop_cover by lia. rewrite <- Hhours.
  cbn [In]. split; [intros [Hx | Hx]; [left; lia | now right] |].
  intros [<- | Hx]; [left; lia | now right].
Qed.

(** X21: for a non-empty list of slots whose hour can be read, the hour
    ranges of the message are built without an exception, each range runs
    from its first to its last hour, the ranges come in increasing order
    of the hour, and an hour lies in one of the ranges
    exactly when it is the hour of one of the slots: the date of a slot
    plays no part.  The text returned is these ranges, joined by commas. *)
Theorem hour_ranges_cover (hours_list : list string) :
  hours_list <> [] ->
  Forall (fun h => is_Some (HOUR_of h)) hours_list ->
  exists rs,
    hour_ranges hours_list = Some rs /\
    rs <> [] /\
    Forall (fun r => (fst r <= snd r)%Z) rs /\
    StronglySorted (fun r1 r2 => (snd r1 <= fst r2)%Z) rs /\
    (forall x,
        in_ranges x rs <-> exists h, In h hours_list /\ HOUR_of h = Some x) /\
    forall fmt02d,
      _join_hours_to_ranges fmt02d hours_list
      = Some (join_comma (map (range_text fmt02d) rs)).
Proof.
  intros Hne Hok.
  destruct (hour_ranges_spec hours_list Hne Hok)
    as (rs & E & H1 & H2 & H3 & H4).
  exists rs. repeat (split; [assumption |]).
  intros fmt02d. unfold _join_hours_to_ranges.
  destruct hours_list; [congruence |]. now rewrite E.
Qed.

Lemma hour_ranges_cover_witness :
  exists rs,
    hour_ranges ["2025-01-01T22:00"; "2025-01-01T23:00"; "2025-01-02T00:00"]
    = Some rs /\
    in_ranges 23 rs.
Proof.
  destruct (hour_ranges_cover
              ["2025-01-01T22:00"; "2025-01-01T23:00"; "2025-01-02T00:00"])
    as (rs & E & _ & _ & _ & Hcov & _).
  - discriminate.
  - repeat constructor; eexists; reflexivity.
  - exists rs. split; [exact E |]. apply Hcov.
    exists "2025-01-01T23:00". split; [cbn; tauto | reflexivity].
Defined.

(** ** The sky label and the sky summary *)

Section Sky.

Variable py_str : Q -> string.
Variable float_of_str : string -> option Q.
Variable fmt4 : Q -> string.

Local Abbreviation hour := (hour_body py_str float_of_str fmt4).

Lemma float_or_zero_num (q : Q) : (float_or_0 (or_zero (ANum q)) == q)%Q.
Proof.
  unfold or_zero, py_truthy. destruct (Qeq_bool q 0) eqn:E; cbn.
  - apply Qeq_bool_eq in E. now rewrite E.
  - reflexivity.
Qed.

Lemma float_or_zero_pos (q : Q) :
  (0 < q)%Q -> float_or_0 (or_zero (ANum q)) = q.
Proof.
  intros H. unfold or_zero, py_truthy.
  destruct (Qeq_bool q 0) eqn:E; cbn; [| reflexivity].
  apply Qeq_bool_eq in E. lra.
Qed.

(** The rainy branch of the sky classifier, and what the other branches
    never answer. *)
Lemma classify_sky_branches (prob rainmm acc3 acc6 hum uv : PyArg)
      (hour : option Z) :
  let ref := sky_ref (float_or_0 (or_zero rainmm)) (float_or_0 (or_zero acc3))
                     (float_or_0 (or_zero acc6)) in
  ((0 < ref)%Q ->
   Some (classify_sky prob rainmm acc3 acc6 hum uv hour)
   = hujan_of_cat (classify_rain_mm (ANum ref))) /\
  (In (classify_sky prob rainmm acc3 acc6 hum uv hour)
      [HUJAN_GERIMIS; HUJAN_RINGAN; HUJAN_SEDANG; HUJAN_DERAS] ->
   (0.3 <= ref)%Q).
Proof.
  intros ref. unfold classify_sky. cbv zeta. fold ref.
  destruct (Num.ltb 0.0001 ref) eqn:E.
  - apply ltb_lt in E.
    assert (H3 : (0.3 <= ref)%Q) by (apply sky_ref_positive; fold ref; lra).
    split; [| intros _; exact H3].
    intros _. unfold classify_rain_mm. cbv zeta. cbn [float_or_0 py_float].
    cmp_cases; try reflexivity; exfalso; lra.
  - apply ltb_ge in E. split.
    + intros Hpos. apply sky_ref_positive in Hpos. fold ref in Hpos. lra.
    + repeat match goal with
             | |- context [if ?c then _ else _] => destruct c
             end;
        intros [H | [H | [H | [H | []]]]]; discriminate H.
Qed.

(** X22: the sky label of an hour and the rain category it is filed
    under go by different reference amounts.  A rain label always comes
    with a rain category other than NONE, and from 0.3 mm of rain in the
    hour on the label is the one of the category; but an hour with less
    than 0.3 mm of its own and 1 mm or more over three hours is filed
    under GERIMIS while its label is at least HUJAN_RINGAN. *)
Theorem sky_label_and_rain_category (loc : Location) (LAT LON : Q)
        (D : Hourly) (TIME : string) (idx : nat) (HOUR : Z) (st : State) :
  let row := snd (hour loc LAT LON D TIME idx HOUR st) in
  let RAINMM := nth idx (precipitation D) 0.0%Q in
  (In (row_SKY_LABEL row)
      [HUJAN_GERIMIS; HUJAN_RINGAN; HUJAN_SEDANG; HUJAN_DERAS] ->
   row_rain_cat row <> NONE) /\
  ((0.3 <= RAINMM)%Q ->
   Some (row_SKY_LABEL row) = hujan_of_cat (row_rain_cat row)) /\
  ((0.0001 < RAINMM)%Q -> (RAINMM < 0.3)%Q -> (1.0 <= row_acc3 row)%Q ->
   row_rain_cat row = GERIMIS /\
   In (row_SKY_LABEL row) [HUJAN_RINGAN; HUJAN_SEDANG; HUJAN_DERAS]).
Proof.
  intros row RAINMM.
  set (acc3 := row_acc3 row). set (acc6 := row_acc6 row).
  assert (Hcat : row_rain_cat row
                 = classify_rain_mm (ANum (rain_ref_for_cat RAINMM acc3 acc6)))
    by reflexivity.
  assert (Hsky : row_SKY_LABEL row
                 = classify_sky
                     (ANum (nth idx (precipitation_probability D) 0.0%Q))
                     (ANum RAINMM) (ANum acc3) (ANum acc6)
                     (ANum (nth idx (relative_humidity_2m D) 0.0%Q))
                     (ANum (nth idx (uv_index D) 0.0%Q)) (Some HOUR))
    by reflexivity.
  rewrite Hcat, Hsky. clear Hcat Hsky.
  match goal with
  | |- context [classify_sky ?p ?r ?a3 ?a6 ?h ?u ?hr] =>
      destruct (classify_sky_branches p r a3 a6 h u hr) as [Hrain Hlabel];
      generalize dependent (classify_sky p r a3 a6 h u hr)
  end.
  cbv zeta. intros label Hrain Hlabel.
  pose proof (float_or_zero_num RAINMM) as Er.
  pose proof (float_or_zero_num acc3) as E3.
  pose proof (float_or_zero_num acc6) as E6.
  split; [| split].
  - intros Hin. apply Hlabel in Hin.
    destruct (classify_rain_mm_cases
                (ANum (rain_ref_for_cat RAINMM acc3 acc6)))
      as [[Hle Hc] | [[_ Hc] | [[_ Hc] | [[_ Hc] | [_ Hc]]]]];
      rewrite Hc; try discriminate.
    exfalso. cbn [float_or_0 py_float] in Hle. clear Hc Hrain Hlabel.
    revert Hin Hle. unfold sky_ref, rain_ref_for_cat. cbv zeta.
    cmp_cases; intros; lra.
  - intros H. rewrite (float_or_zero_pos RAINMM) in * by lra.
    destruct (sky_ref_cases RAINMM (float_or_0 (or_zero (ANum acc3)))
                            (float_or_0 (or_zero (ANum acc6))))
      as (Href & _).
    rewrite (Href H) in Hrain. rewrite Hrain by lra.
    destruct (rain_ref_for_cat_cases RAINMM acc3 acc6) as (Hr & _).
    rewrite Hr by lra. reflexivity.
  - intros H1 H2 H3.
    destruct (rain_ref_for_cat_cases RAINMM acc3 acc6) as (Hr & _).
    rewrite Hr by lra.
    rewrite (float_or_zero_pos RAINMM) in * by lra.
    rewrite (float_or_zero_pos acc3) in * by lra.
    destruct (sky_ref_cases RAINMM acc3 (float_or_0 (or_zero (ANum acc6))))
      as (_ & Href & _).
    rewrite (Href H2) in Hrain by lra.
    assert (Hl : Some label = hujan_of_cat (classify_rain_mm (ANum acc3)))
      by (apply Hrain; lra).
    split.
    + destruct (classify_rain_mm_cases (ANum RAINMM))
        as [[Hle Hc] | [[Hle Hc] | [[Hle Hc] | [[Hle Hc] | [Hle Hc]]]]];
        cbn [float_or_0 py_float] in Hle; try (exfalso; lra). exact Hc.
    + destruct (classify_rain_mm_cases (ANum acc3))
        as [[Hle Hc] | [[Hle Hc] | [[Hle Hc] | [[Hle Hc] | [Hle Hc]]]]];
        cbn [float_or_0 py_float] in Hle; try (exfalso; lra);
        rewrite Hc in Hl; injection Hl as ->; cbn; tauto.
Qed.

Lemma sky_fold_insert (d : string) (row : gmap string nat) :
  map_fold (fun (_ : string) (v acc : nat) => (v + acc)%nat) 0%nat
           (<[d := (default 0%nat (row !! d) + 1)%nat]> row)
  = (map_fold (fun (_ : string) (v acc : nat) => (v + acc)%nat) 0%nat row
     + 1)%nat.
Proof.
  destruct (row !! d) as [v |] eqn:E; cbn [default]; unfold id.
  - rewrite (map_fold_delete_L _ _ d v row); [| intros; lia | exact E].
    rewrite <- (insert_delete_eq row d).
    rewrite map_fold_insert_L;
      [change (Datatypes.id v) with v; lia | intros; lia |].
    apply lookup_delete_eq.
  - rewrite map_fold_insert_L; [lia | intros; lia | exact E].
Qed.

Lemma sky_total_incr (K d : string) (st : State) :
  sky_total K (sky_count_incr K d st) = (sky_total K st + 1)%nat.
Proof.
  unfold sky_total, sky_count_incr, with_SKY_COUNT. cbn [SKY_COUNT].
  rewrite lookup_insert_eq. cbn [default]. apply sky_fold_insert.
Qed.

Lemma SKY_COUNT_when (c : bool) (f : State -> State) (st : State) :
  (forall s, SKY_COUNT (f s) = SKY_COUNT s) ->
  SKY_COUNT (when c f st) = SKY_COUNT st.
Proof. intros H. destruct c; [apply H | reflexivity]. Qed.

Lemma SKY_COUNT_file_rain_cat (c : RainCat) (K T : string) (st : State) :
  SKY_COUNT (file_rain_cat c K T st) = SKY_COUNT st.
Proof. now destruct c. Qed.

Lemma SKY_COUNT_flag_dev (d : Stdev) (K T : string) (st : State) :
  SKY_COUNT (flag_dev d K T st) = SKY_COUNT st.
Proof. unfold flag_dev. now destruct (dev_level d). Qed.

Lemma SKY_COUNT_count_status (s : Status) (K T : string) (st : State) :
  SKY_COUNT (count_status s K T st) = SKY_COUNT st.
Proof. destruct s; reflexivity. Qed.

(** An hour changes the sky summary by one increment, for its location
    and its label. *)
Lemma hour_body_SKY_COUNT (loc : Location) (LAT LON : Q) (D : Hourly)
      (TIME : string) (idx : nat) (HOUR : Z) (st : State) :
  SKY_COUNT (fst (hour loc LAT LON D TIME idx HOUR st))
  = SKY_COUNT
      (sky_count_incr
         (K loc)
         (sky_display (row_SKY_LABEL (snd (hour loc LAT LON D TIME idx HOUR st))))
         st).
Proof.
  unfold hour_body, dev_flags. cbv zeta. cbn [fst snd row_SKY_LABEL].
  repeat first
    [ rewrite SKY_COUNT_count_status
    | rewrite SKY_COUNT_flag_dev
    | rewrite SKY_COUNT_when by reflexivity
    | progress change (SKY_COUNT (with_PREV_TEMP ?f ?s)) with (SKY_COUNT s) ].
  unfold sky_count_incr at 1 2, with_SKY_COUNT. cbn [SKY_COUNT].
  now rewrite SKY_COUNT_file_rain_cat.
Qed.

Section SkyLocation.

Variable TIMES : list string.

(** X23: for a location with coordinates and a forecast, over slots whose
    hour can be read, the counts of its sky summary add up to the sum of
    its Aman, Waspada and Rawan hour counts: every hour of the location
    enters the summary once, under one label. *)
Theorem sky_summary_counts_hours (loc : Location) (LAT LON : Q)
        (D : Hourly) (st : State) :
  Forall (fun TIME => is_Some (HOUR_of TIME)) TIMES ->
  LATK loc = Some LAT -> LONK loc = Some LON -> DATA loc = Some D ->
  exists st',
    process_location py_str float_of_str fmt4 TIMES loc st = Some st' /\
    sky_total (K loc) st' = (aman st' + wasp st' + rawan st')%nat.
Proof.
  intros Hok H1 H2 H3. unfold process_location. rewrite H1, H2, H3.
  destruct (hours_loop_returns py_str float_of_str fmt4 loc LAT LON D TIMES
                               (open_location (K loc) st) Hok) as [st' H].
  exists st'. split; [exact H |].
  apply (hours_loop_invariant py_str float_of_str fmt4
           (fun s => sky_total (K loc) s = (aman s + wasp s + rawan s)%nat))
    in H; [exact H | |].
  - intros TIME idx HOUR s _ Hs.
    pose proof (hour_body_tally py_str float_of_str fmt4
                  loc LAT LON D TIME idx HOUR s) as Ht.
    pose proof (tally_bump_sum
                  (row_STATUS (snd (hour loc LAT LON D TIME idx HOUR s)))
                  (tally s)) as Hsum.
    rewrite <- Ht in Hsum. unfold tally in Hsum. cbn [fst snd] in Hsum.
    rewrite Hsum, <- Hs. unfold sky_total at 1.
    rewrite hour_body_SKY_COUNT. apply sky_total_incr.
  - unfold sky_total, open_location, with_SKY_COUNT, with_PERKOTA.
    cbn [SKY_COUNT aman wasp rawan]. rewrite lookup_insert_eq.
    change (default ∅ (Some (∅ : gmap string nat)))
      with (∅ : gmap string nat).
    now rewrite map_fold_empty.
Qed.

End SkyLocation.

End Sky.

Lemma sky_summary_counts_hours_witness :
  let TIMES := ["2025-01-01T05:00"; "2025-01-01T06:00"] in
  let D := mkHourly ["2025-01-01T05:00"; "2025-01-01T06:00"]
                    [24; 24]%Q [0; 90]%Q [0; 3]%Q [50; 90]%Q [5; 5]%Q
                    [0; 0]%Q [8; 8]%Q [0; 0]%Q in
  let loc := mkLocation "Bogor" (Some 0%Q) (Some 0%Q) (Some D) false []
                        EmptyString in
  exists st',
    process_location (fun _ => EmptyString) (fun _ => None)
                     (fun _ => EmptyString) TIMES loc (initial_state TIMES [])
    = Some st' /\
    sky_total "Bogor" st' = (aman st' + wasp st' + rawan st')%nat.
Proof.
  cbv zeta.
  assert (Hok : Forall (fun TIME => is_Some (HOUR_of TIME))
                       ["2025-01-01T05:00"; "2025-01-01T06:00"])
    by (repeat constructor; eexists; reflexivity).
  match goal with
  | |- exists st', process_location ?s ?f ?g ?T ?loc ?st = _ /\ _ =>
      destruct (sky_summary_counts_hours s f g T loc 0%Q 0%Q
                  (mkHourly ["2025-01-01T05:00"; "2025-01-01T06:00"]
                            [24; 24]%Q [0; 90]%Q [0; 3]%Q [50; 90]%Q [5; 5]%Q
                            [0; 0]%Q [8; 8]%Q [0; 0]%Q)
                  st Hok eq_refl eq_refl eq_refl)
        as (st' & Hrun & H)
  end.
  exists st'. split; [exact Hrun | exact H].
Defined.

(** ** The time slots *)

Section TimeSlots.

Variable hour0 : Z.
Variable date_of : nat -> string.
Hypothesis date_plain : forall i, has_char "T" (date_of i) = false.

Lemma digit_char_digit (d : Z) :
  (0 <= d <= 9)%Z -> PyStr.digit (digit_char d) = Some d.
Proof.
  intros H.
  assert (Hd : (d = 0 \/ d = 1 \/ d = 2 \/ d = 3 \/ d = 4 \/ d = 5 \/
                d = 6 \/ d = 7 \/ d = 8 \/ d = 9)%Z) by lia.
  repeat destruct Hd as [-> | Hd]; try subst d; reflexivity.
Qed.

Lemma HOUR_of_built_slot (i : nat) :
  HOUR_of (slot hour0 date_of i) = Some ((hour0 + Z.of_nat i) mod 24)%Z.
Proof.
  unfold slot, strftime_H.
  set (h := ((hour0 + Z.of_nat i) mod 24)%Z).
  assert (Hh : (0 <= h < 24)%Z) by (apply Z.mod_pos_bound; lia).
  change (String (digit_char (h / 10))
                 (String (digit_char (h mod 10)) EmptyString) +:+ ":00")
    with (String (digit_char (h / 10))
                 (String (digit_char (h mod 10)) ":00")).
  rewrite (HOUR_of_slot (date_of i) _ _ (h / 10) (h mod 10)).
  - f_equal. rewrite (Z.div_mod h 10) at 3 by lia. lia.
  - apply date_plain.
  - apply digit_char_digit. split; [apply Z.div_pos; lia |].
    apply Z.lt_succ_r. apply Z.div_lt_upper_bound; lia.
  - apply digit_char_digit.
    pose proof (Z.mod_pos_bound h 10). lia.
Qed.

Lemma NoDup_map_on {A : Type} (f : nat -> A) (l : list nat) :
  NoDup l ->
  (forall x y, In x l -> In y l -> f x = f y -> x = y) ->
  NoDup (map f l).
Proof.
  induction 1 as [| x l Hx Hnd IH]; intros Hinj; cbn [map].
  - apply NoDup_nil_2.
  - apply NoDup_cons_2.
    + intros Hin. apply list_elem_of_In, in_map_iff in Hin.
      destruct Hin as (y & Hy & Hyl). apply Hx.
      assert (y = x) by (apply Hinj; [now right | now left | exact Hy]).
      subst y. now apply list_elem_of_In.
    + apply IH. intros a b Ha Hb. apply Hinj; now right.
Qed.

(** X24: the slots that [build_times_list] puts together are 24 in
    number, pairwise different, and each gives back its hour, [hour0 + i]
    modulo 24; so the runs of the script meet what the properties of a
    run ask of the slots.  The date texts may be anything without the
    letter T. *)
Theorem built_slots_are_well_formed :
  length (build_times_list hour0 date_of) = 24%nat /\
  NoDup (build_times_list hour0 date_of) /\
  Forall (fun TIME => is_Some (HOUR_of TIME)) (build_times_list hour0 date_of)
  /\
  forall i, (i < 24)%nat ->
            nth i (map HOUR_of (build_times_list hour0 date_of)) None
            = Some ((hour0 + Z.of_nat i) mod 24)%Z.
Proof.
  unfold build_times_list. split; [| split; [| split]].
  - now rewrite length_map, length_seq.
  - apply NoDup_map_on; [apply NoDup_seq |].
    intros x y Hx Hy E. apply in_seq in Hx, Hy.
    apply (f_equal HOUR_of) in E. rewrite !HOUR_of_built_slot in E.
    injection E as E.
    assert (Hm : ((Z.of_nat x - Z.of_nat y) mod 24 = 0)%Z).
    { rewrite Zminus_mod.
      replace (Z.of_nat x mod 24)%Z
        with (((hour0 + Z.of_nat x) mod 24 - hour0 mod 24) mod 24)%Z.
      2: { rewrite <- Zminus_mod. f_equal. lia. }
      replace (Z.of_nat y mod 24)%Z
        with (((hour0 + Z.of_nat y) mod 24 - hour0 mod 24) mod 24)%Z.
      2: { rewrite <- Zminus_mod. f_equal. lia. }
      rewrite E. rewrite Z.sub_diag. reflexivity. }
    apply Z.mod_divide in Hm; [| lia]. destruct Hm as [k Hk]. lia.
  - apply List.Forall_forall. intros t Ht. apply in_map_iff in Ht.
    destruct Ht as (i & <- & _). rewrite HOUR_of_built_slot. now eexists.
  - intros i Hi. rewrite map_map.
    rewrite (nth_indep _ None (HOUR_of (slot hour0 date_of 0)))
      by (rewrite length_map, length_seq; exact Hi).
    rewrite (map_nth (fun x => HOUR_of (slot hour0 date_of x))).
    rewrite seq_nth by exact Hi. apply HOUR_of_built_slot.
Qed.

End TimeSlots.

Lemma built_slots_are_well_formed_witness :
  NoDup (build_times_list 22 (fun i => if (i <? 2)%nat then "2025-01-01"
                                       else "2025-01-02")) /\
  nth 3 (map HOUR_of
             (build_times_list 22 (fun i => if (i <? 2)%nat then "2025-01-01"
                                            else "2025-01-02"))) None
  = Some 1%Z.
Proof.
  destruct (built_slots_are_well_formed
              22 (fun i => if (i <? 2)%nat then "2025-01-01"
                           else "2025-01-02"))
    as (_ & Hnd & _ & Hh).
  - intros i. now destruct (i <? 2)%nat.
  - split; [exact Hnd |]. etrans; [apply Hh; lia | reflexivity].
Defined.

(** ** Concrete runs, continued *)

(** The run of the witnesses below: two slots, a windy location with a
    forecast for the first slot only, and a location whose fetch
    failed. *)

Ltac two_slots Hok :=
  assert (Hok : Forall (fun TIME => is_Some (HOUR_of TIME))
                       ["2025-01-01T05:00"; "2025-01-01T06:00"])
    by (repeat constructor; eexists; reflexivity).

Ltac two_slots_distinct Hnd :=
  assert (Hnd : NoDup ["2025-01-01T05:00"; "2025-01-01T06:00"])
    by (apply (bool_decide_unpack _); reflexivity).

Lemma danger_windows_nested_witness :
  let TIMES := ["2025-01-01T05:00"; "2025-01-01T06:00"] in
  let D := mkHourly ["2025-01-01T05:00"] [24]%Q [0]%Q [0]%Q [50]%Q [26]%Q
                    [0]%Q [50]%Q [0]%Q in
  let locs := [mkLocation "Bogor" (Some 0%Q) (Some 0%Q) (Some D) false []
                          EmptyString;
               mkLocation "Depok" (Some 0%Q) (Some 0%Q) None false []
                          EmptyString] in
  exists st fs',
    run_once (fun _ => EmptyString) (fun _ => None) (fun _ => EmptyString)
             TIMES locs None = Some (st, fs') /\
    (agg_get AGG_WIND_DANGER "2025-01-01T05:00" st
     <= agg_get AGG_WIND_WARN "2025-01-01T05:00" st)%nat.
Proof.
  cbv zeta. two_slots Hok.
  match goal with
  | |- exists st fs', run_once ?s ?f ?g ?T ?locs ?fs = _ /\ _ =>
      destruct (danger_windows_nested s f g T locs fs Hok)
        as (st & fs' & Hrun & H)
  end.
  exists st, fs'. split; [exact Hrun |].
  exact (proj1 (H "2025-01-01T05:00")).
Defined.

Lemma danger_slots_are_risky_witness :
  let TIMES := ["2025-01-01T05:00"; "2025-01-01T06:00"] in
  let D := mkHourly ["2025-01-01T05:00"] [24]%Q [0]%Q [0]%Q [50]%Q [26]%Q
                    [0]%Q [50]%Q [0]%Q in
  let locs := [mkLocation "Bogor" (Some 0%Q) (Some 0%Q) (Some D) false []
                          EmptyString;
               mkLocation "Depok" (Some 0%Q) (Some 0%Q) None false []
                          EmptyString] in
  exists st fs',
    run_once (fun _ => EmptyString) (fun _ => None) (fun _ => EmptyString)
             TIMES locs None = Some (st, fs') /\
    (agg_get AGG_GUST_DANGER "2025-01-01T05:00" st
     <= agg_get AGG_RAWAN "2025-01-01T05:00" st)%nat.
Proof.
  cbv zeta. two_slots Hok.
  match goal with
  | |- exists st fs', run_once ?s ?f ?g ?T ?locs ?fs = _ /\ _ =>
      destruct (danger_slots_are_risky s f g T locs fs Hok)
        as (st & fs' & Hrun & H)
  end.
  exists st, fs'. split; [exact Hrun |].
  exact (proj1 (proj2 (H "2025-01-01T05:00"))).
Defined.

Lemma rain_counts_bounded_witness :
  let TIMES := ["2025-01-01T05:00"; "2025-01-01T06:00"] in
  let D := mkHourly ["2025-01-01T05:00"] [24]%Q [90]%Q [3]%Q [90]%Q [5]%Q
                    [0]%Q [8]%Q [0]%Q in
  let locs := [mkLocation "Bogor" (Some 0%Q) (Some 0%Q) (Some D) false []
                          EmptyString;
               mkLocation "Depok" (Some 0%Q) (Some 0%Q) None false []
                          EmptyString] in
  exists st fs',
    run_once (fun _ => EmptyString) (fun _ => None) (fun _ => EmptyString)
             TIMES locs None = Some (st, fs') /\
    (agg_get AGG_RAIN_GERIMIS "2025-01-01T05:00" st
     + agg_get AGG_RAIN_RINGAN "2025-01-01T05:00" st
     + agg_get AGG_RAIN_SEDANG "2025-01-01T05:00" st
     + agg_get AGG_RAIN_DERAS "2025-01-01T05:00" st <= 1)%nat.
Proof.
  cbv zeta. two_slots Hok. two_slots_distinct Hnd.
  match goal with
  | |- exists st fs', run_once ?s ?f ?g ?T ?locs ?fs = _ /\ _ =>
      destruct (rain_counts_bounded s f g T locs fs Hnd Hok)
        as (st & fs' & Hrun & H)
  end.
  exists st, fs'. split; [exact Hrun |].
  apply (H "2025-01-01T05:00"). simpl. tauto.
Defined.

Lemma thunder_and_deviation_bounded_witness :
  let TIMES := ["2025-01-01T05:00"; "2025-01-01T06:00"] in
  let D := mkHourly ["2025-01-01T05:00"] [24]%Q [90]%Q [3]%Q [90]%Q [12]%Q
                    [0]%Q [8]%Q [0]%Q in
  let locs := [mkLocation "Bogor" (Some 0%Q) (Some 0%Q) (Some D) false []
                          "Waspada petir";
               mkLocation "Depok" (Some 0%Q) (Some 0%Q) None false []
                          EmptyString] in
  exists st fs',
    run_once (fun _ => EmptyString) (fun _ => None) (fun _ => EmptyString)
             TIMES locs None = Some (st, fs') /\
    (agg_get AGG_THUNDER "2025-01-01T05:00" st <= 2)%nat.
Proof.
  cbv zeta. two_slots Hok. two_slots_distinct Hnd.
  match goal with
  | |- exists st fs', run_once ?s ?f ?g ?T ?locs ?fs = _ /\ _ =>
      destruct (thunder_and_deviation_bounded s f g T locs fs Hnd Hok)
        as (st & fs' & Hrun & H)
  end.
  exists st, fs'. split; [exact Hrun |].
  apply (H "2025-01-01T05:00"). simpl. tauto.
Defined.

Lemma location_hour_counts_witness :
  let TIMES := ["2025-01-01T05:00"; "2025-01-01T06:00"] in
  let D := mkHourly ["2025-01-01T05:00"] [24]%Q [0]%Q [0]%Q [50]%Q [5]%Q
                    [0]%Q [8]%Q [0]%Q in
  let loc := mkLocation "Bogor" (Some 0%Q) (Some 0%Q) (Some D) false []
                        EmptyString in
  exists st',
    process_location (fun _ => EmptyString) (fun _ => None)
                     (fun _ => EmptyString) TIMES loc (initial_state TIMES [])
    = Some st' /\
    (aman st' + wasp st' + rawan st' = 1)%nat.
Proof.
  cbv zeta. two_slots Hok.
  match goal with
  | |- exists st', process_location ?s ?f ?g ?T ?loc ?st = _ /\ _ =>
      destruct (location_hour_counts s f g T loc 0%Q 0%Q
                  (mkHourly ["2025-01-01T05:00"] [24]%Q [0]%Q [0]%Q [50]%Q
                            [5]%Q [0]%Q [8]%Q [0]%Q)
                  st Hok eq_refl eq_refl eq_refl)
        as (st' & Hrun & H)
  end.
  exists st'. split; [exact Hrun |]. etrans; [exact H | reflexivity].
Defined.

Lemma processed_locations_are_the_fetched_witness :
  let TIMES := ["2025-01-01T05:00"; "2025-01-01T06:00"] in
  let D := mkHourly ["2025-01-01T05:00"] [24]%Q [0]%Q [0]%Q [50]%Q [5]%Q
                    [0]%Q [8]%Q [0]%Q in
  let locs := [mkLocation "Bogor" (Some 0%Q) (Some 0%Q) (Some D) false []
                          EmptyString;
               mkLocation "Depok" (Some 0%Q) (Some 0%Q) None false []
                          EmptyString] in
  exists st fs',
    run_once (fun _ => EmptyString) (fun _ => None) (fun _ => EmptyString)
             TIMES locs None = Some (st, fs') /\
    processed_count st = 1%nat /\
    processed_locations_list st = ["Bogor"].
Proof.
  cbv zeta. two_slots Hok.
  match goal with
  | |- exists st fs', run_once ?s ?f ?g ?T ?locs ?fs = _ /\ _ =>
      destruct (processed_locations_are_the_fetched s f g T locs fs Hok)
        as (st & fs' & Hrun & Hc & Hl & _)
  end.
  exists st, fs'. split; [exact Hrun |]. split.
  - etrans; [exact Hc | reflexivity].
  - etrans; [exact Hl | reflexivity].
Defined.

Lemma best_and_risky_overlap_needs_ten_witness :
  let TIMES := ["2025-01-01T05:00"; "2025-01-01T06:00"] in
  let D := mkHourly ["2025-01-01T05:00"] [24]%Q [0]%Q [0]%Q [50]%Q [5]%Q
                    [0]%Q [8]%Q [0]%Q in
  let locs := [mkLocation "Bogor" (Some 0%Q) (Some 0%Q) (Some D) false []
                          EmptyString;
               mkLocation "Depok" (Some 0%Q) (Some 0%Q) None false []
                          EmptyString] in
  exists st fs',
    run_once (fun _ => EmptyString) (fun _ => None) (fun _ => EmptyString)
             TIMES locs None = Some (st, fs') /\
    (status_total "2025-01-01T05:00" st <= processed_count st)%nat.
Proof.
  cbv zeta. two_slots Hok. two_slots_distinct Hnd.
  match goal with
  | |- exists st fs', run_once ?s ?f ?g ?T ?locs ?fs = _ /\ _ =>
      destruct (best_and_risky_overlap_needs_ten s f g T locs fs Hnd Hok)
        as (st & fs' & Hrun & H)
  end.
  exists st, fs'. split; [exact Hrun |].
  apply (proj1 (H "2025-01-01T05:00")). simpl. tauto.
Defined.

Lemma counter_keys_are_the_slots_witness :
  let TIMES := ["2025-01-01T05:00"; "2025-01-01T06:00"] in
  let D := mkHourly ["2025-01-01T05:00"] [24]%Q [0]%Q [0]%Q [50]%Q [5]%Q
                    [0]%Q [8]%Q [0]%Q in
  let locs := [mkLocation "Bogor" (Some 0%Q) (Some 0%Q) (Some D) false []
                          EmptyString] in
  exists st fs',
    run_once (fun _ => EmptyString) (fun _ => None) (fun _ => EmptyString)
             TIMES locs None = Some (st, fs') /\
    is_Some (AGG st AGG_RAIN_DERAS !! "2025-01-01T06:00").
Proof.
  cbv zeta. two_slots Hok.
  match goal with
  | |- exists st fs', run_once ?s ?f ?g ?T ?locs ?fs = _ /\ _ =>
      destruct (counter_keys_are_the_slots s f g T locs fs Hok)
        as (st & fs' & Hrun & H & _)
  end.
  exists st, fs'. split; [exact Hrun |].
  apply H. simpl. tauto.
Defined.

Lemma rawan_list_matches_count_witness :
  let TIMES := ["2025-01-01T05:00"; "2025-01-01T06:00"] in
  let D := mkHourly ["2025-01-01T05:00"] [24]%Q [0]%Q [0]%Q [50]%Q [26]%Q
                    [0]%Q [8]%Q [0]%Q in
  let loc := mkLocation "Bogor" (Some 0%Q) (Some 0%Q) (Some D) false []
                        EmptyString in
  exists st',
    process_location (fun _ => EmptyString) (fun _ => None)
                     (fun _ => EmptyString) TIMES loc (initial_state TIMES [])
    = Some st' /\
    (status_short "Bogor" st' = Rawan <-> (0 < rawan st')%nat).
Proof.
  cbv zeta. two_slots Hok.
  match goal with
  | |- exists st', process_location ?s ?f ?g ?T ?loc ?st = _ /\ _ =>
      destruct (rawan_list_matches_count s f g T loc 0%Q 0%Q
                  (mkHourly ["2025-01-01T05:00"] [24]%Q [0]%Q [0]%Q [50]%Q
                            [26]%Q [0]%Q [8]%Q [0]%Q)
                  st Hok eq_refl eq_refl eq_refl)
        as (st' & Hrun & _ & H)
  end.
  exists st'. split; [exact Hrun | exact H].
Defined.

Lemma prior_is_previous_hour_witness :
  let D := mkHourly ["2025-01-01T05:00"; "2025-01-01T06:00"]
                    [30; 27]%Q [0; 0]%Q [0; 0]%Q [50; 50]%Q
                    [5; 5]%Q [0; 0]%Q [8; 8]%Q [0; 0]%Q in
  let loc := mkLocation "Bogor" (Some 0%Q) (Some 0%Q) (Some D) false []
                        EmptyString in
  let st1 :=
    fst (hour_body (fun _ => "30.0") (fun _ => Some 30%Q)
                   (fun _ => "0.0000") loc 0%Q 0%Q D "2025-01-01T05:00"
                   0 5 (initial_state ["2025-01-01T05:00"] [])) in
  lookup_prev_temp_for (fun _ => "0.0000") "Bogor" 0%Q 0%Q (PREV_TEMP st1)
  = Some "30.0".
Proof.
  cbv zeta.
  set (D := mkHourly _ _ _ _ _ _ _ _ _).
  set (loc := mkLocation _ _ _ _ _ _ _).
  pose proof (prior_is_previous_hour
                (fun _ => "30.0") (fun _ => Some 30%Q) (fun _ => "0.0000")
                loc 0%Q 0%Q D "2025-01-01T05:00" 0 5
                (initial_state ["2025-01-01T05:00"] [])
                "2025-01-01T06:00" 1 6) as H.
  cbv zeta in H. apply H. left. reflexivity.
Defined.
